(** * FocusPro: the Timer engine, the Task ledger, the store and the
    session coordinator

    A shallow embedding of [src/js/modules/Timer.js],
    [src/js/modules/TaskManager.js], [src/js/modules/Storage.js],
    [src/js/main.js] and [src/js/utils/constants.js], the properties of
    the specification that are decided on it, and further properties of
    the code.

    Conventions of the embedding:
    - a JavaScript number that the code only uses as a count of seconds,
      minutes or milliseconds is a [Z]; the quotient of [getProgress] is
      an exact rational [Q]; the averages of the task analytics, which
      the code rounds, are doubles;
    - a JavaScript string is a [string] of code units below 256;
    - a method that mutates [this] is a function in the monad [M] of a
      world (state passing with JavaScript exceptions);
    - observers registered on the Timer are opaque to the engine: a
      callback is an identity and a body that either returns or throws.
      Callbacks do not call back into the Timer. *)

From Stdlib Require Import List ZArith QArith Bool String Ascii Lia.
From Stdlib Require Import DecimalString Sorted Permutation.
From Stdlib Require Import Floats.PrimFloat Floats.SpecFloat Floats.FloatOps.
From Stdlib Require Uint63.
Import ListNotations.
Open Scope string_scope.
Open Scope Z_scope.

(** ** JavaScript values, errors and completions *)

Module Js.

Inductive value : Type :=
| Undefined
| Null
| Boolean (b : bool)
| Number (n : Z)
| NaN
| Str (s : string).

(** [a === b] *)
Definition strict_eq (a b : value) : bool :=
  match a, b with
  | Undefined, Undefined => true
  | Null, Null => true
  | Boolean x, Boolean y => Bool.eqb x y
  | Number x, Number y => Z.eqb x y
  | Str x, Str y => String.eqb x y
  | _, _ => false
  end.

(** [ToBoolean] *)
Definition truthy (v : value) : bool :=
  match v with
  | Undefined | Null | NaN => false
  | Boolean b => b
  | Number n => negb (Z.eqb n 0)
  | Str s => negb (String.eqb s "")
  end.

Inductive error : Type :=
| Error (message : string)
| TypeError (message : string).

Inductive completion (A : Type) : Type :=
| Normal (a : A)
| Throw (e : error).
Arguments Normal {A} a.
Arguments Throw {A} e.

(** Property read on a frozen object literal with string values:
    an own key gives its string, any other key gives [undefined]. *)
Fixpoint get (o : list (string * string)) (key : string) : value :=
  match o with
  | [] => Undefined
  | (k, v) :: o' => if String.eqb k key then Str v else get o' key
  end.

(** The property names every plain object inherits from
    [Object.prototype]; each of them reads as a function or an object,
    hence as a truthy value that is not an array. *)
Definition Object_prototype : list string :=
  [ "constructor"; "__defineGetter__"; "__defineSetter__"; "hasOwnProperty";
    "__lookupGetter__"; "__lookupSetter__"; "isPrototypeOf";
    "propertyIsEnumerable"; "toString"; "valueOf"; "__proto__";
    "toLocaleString" ].

End Js.

Import Js.

(** ** State passing with exceptions

    A computation takes the state and gives a completion and the state
    it leaves: what was assigned before a [throw] stays assigned. *)
Definition St (S A : Type) : Type := S -> completion A * S.

Definition ret {S A} (a : A) : St S A := fun w => (Normal a, w).

Definition bind {S A B} (m : St S A) (k : A -> St S B) : St S B :=
  fun w => match m w with
           | (Normal a, w') => k a w'
           | (Throw e, w') => (Throw e, w')
           end.

Notation "x <- m ;; k" := (bind m (fun x => k))
  (at level 61, m at next level, right associativity).
Notation "m ;; k" := (bind m (fun _ => k))
  (at level 61, right associativity).

Definition throw {S A} (e : error) : St S A := fun w => (Throw e, w).

(** [try { body } catch (error) { handler(error) }] *)
Definition try_catch {S} (body : St S unit) (handler : error -> St S unit)
  : St S unit :=
  fun w => match body w with
           | (Normal a, w') => (Normal a, w')
           | (Throw e, w') => handler e w'
           end.

(** [Array.prototype.forEach]: an exception leaving [f] ends the loop. *)
Fixpoint forEach {S A} (l : list A) (f : A -> St S unit) : St S unit :=
  match l with
  | [] => ret tt
  | x :: l' => f x ;; forEach l' f
  end.

(** ** [src/js/utils/constants.js] *)

Definition TIMER_STATES : list (string * string) :=
  [ ("IDLE", "idle"); ("RUNNING", "running"); ("PAUSED", "paused") ].

(** The four state expressions that [Timer.js] evaluates.  The object
    above has no [COMPLETED] key, so [TIMER_STATES.COMPLETED] reads as
    [undefined]: this is the value the engine stores on expiry. *)
Definition IDLE : value := get TIMER_STATES "IDLE".
Definition RUNNING : value := get TIMER_STATES "RUNNING".
Definition PAUSED : value := get TIMER_STATES "PAUSED".
Definition COMPLETED : value := get TIMER_STATES "COMPLETED".

(** ** [src/js/modules/Timer.js] *)

(** Arguments passed to an observer, one shape per event. *)
Inductive Args : Type :=
| TickArgs (minutes seconds : Z) (progress : Q)
| CompleteArgs
| StateChangeArgs (newState oldState : value).

Record Callback : Type := mkCallback {
  cb_id : nat;
  cb_body : Args -> option error   (* [Some e]: the body throws [e] *)
}.

(** The object literal [{ tick: [], complete: [], stateChange: [] }]. *)
Record Callbacks : Type := mkCallbacks {
  tick : list Callback;
  complete : list Callback;
  stateChange : list Callback
}.

Record Timer : Type := mkTimer {
  duration : Z;
  remainingTime : Z;
  state : value;
  intervalId : option nat;      (* [None] is [null] *)
  callbacks : Callbacks
}.

(** The host: the interval scheduler, the order in which observers were
    invoked, and what was written with [console.error]. *)
Record Host : Type := mkHost {
  next_handle : nat;
  intervals : list nat;
  trace : list (nat * Args);
  console : list (string * error)
}.

Record World : Type := mkWorld { timer : Timer; host : Host }.

(** The computations of the Timer. *)
Definition M (A : Type) : Type := St World A.

Definition modify_timer (f : Timer -> Timer) : M unit :=
  fun w => (Normal tt, mkWorld (f (timer w)) (host w)).

Definition modify_host (f : Host -> Host) : M unit :=
  fun w => (Normal tt, mkWorld (timer w) (f (host w))).

Definition set_duration (d : Z) (t : Timer) : Timer :=
  mkTimer d (remainingTime t) (state t) (intervalId t) (callbacks t).
Definition set_remainingTime (r : Z) (t : Timer) : Timer :=
  mkTimer (duration t) r (state t) (intervalId t) (callbacks t).
Definition set_state (s : value) (t : Timer) : Timer :=
  mkTimer (duration t) (remainingTime t) s (intervalId t) (callbacks t).
Definition set_intervalId (i : option nat) (t : Timer) : Timer :=
  mkTimer (duration t) (remainingTime t) (state t) i (callbacks t).
Definition set_callbacks (c : Callbacks) (t : Timer) : Timer :=
  mkTimer (duration t) (remainingTime t) (state t) (intervalId t) c.

Definition add_trace (l : list (nat * Args)) (h : Host) : Host :=
  mkHost (next_handle h) (intervals h) (trace h ++ l) (console h).
Definition add_console (l : list (string * error)) (h : Host) : Host :=
  mkHost (next_handle h) (intervals h) (trace h) (console h ++ l).

(** [callback(args)]: the invocation is recorded, then the body runs. *)
Definition call (cb : Callback) (args : Args) : M unit :=
  modify_host (add_trace [(cb_id cb, args)]) ;;
  match cb_body cb args with
  | None => ret tt
  | Some e => throw e
  end.

Definition console_error (label : string) (e : error) : M unit :=
  modify_host (add_console [(label, e)]).

(** [setInterval(() => this.#tick(), 1000)]: handles are positive. *)
Definition setInterval : M nat :=
  fun w =>
    let h := host w in
    (Normal (next_handle h),
     mkWorld (timer w)
       (mkHost (S (next_handle h)) (intervals h ++ [next_handle h])
          (trace h) (console h))).

Definition clearInterval (id : nat) : M unit :=
  modify_host (fun h =>
    mkHost (next_handle h)
      (filter (fun j => negb (Nat.eqb j id)) (intervals h))
      (trace h) (console h)).

(** [if (this.#intervalId)] *)
Definition intervalId_truthy (t : Timer) : bool :=
  match intervalId t with
  | Some (S _) => true
  | _ => false
  end.

(** [constructor(duration)] *)
Definition Timer_new (d : Z) : Timer :=
  mkTimer d d IDLE None (mkCallbacks [] [] []).

Definition World_new (d : Z) : World :=
  mkWorld (Timer_new d) (mkHost 1 [] [] []).

(** [getRemainingTime()]: [Math.floor(r / 60)] and [r % 60]. *)
Definition getRemainingTime (t : Timer) : Z * Z :=
  (remainingTime t / 60, Z.rem (remainingTime t) 60).

(** [getProgress()] *)
Definition getProgress (t : Timer) : Q :=
  if duration t =? 0 then 0%Q
  else ((inject_Z (duration t - remainingTime t) / inject_Z (duration t))
        * inject_Z 100)%Q.

Definition getState (t : Timer) : value := state t.

(** [#setState(newState)] *)
Definition setState (newState : value) : M unit :=
  fun w =>
    if strict_eq (state (timer w)) newState then (Normal tt, w)
    else
      let oldState := state (timer w) in
      (modify_timer (set_state newState) ;;
       forEach (stateChange (callbacks (timer w))) (fun callback =>
         try_catch
           (call callback (StateChangeArgs newState oldState))
           (console_error "Error in stateChange callback:"))) w.

(** The body shared by [pause], [reset] and [#complete]:
    [if (this.#intervalId) { clearInterval(...); this.#intervalId = null; }] *)
Definition stop_interval : M unit :=
  fun w =>
    if intervalId_truthy (timer w) then
      match intervalId (timer w) with
      | Some id =>
          (clearInterval id ;; modify_timer (set_intervalId None)) w
      | None => (Normal tt, w)
      end
    else (Normal tt, w).

(** [#complete()] *)
Definition priv_complete : M unit :=
  stop_interval ;;
  setState COMPLETED ;;
  fun w =>
    forEach (complete (callbacks (timer w))) (fun callback =>
      try_catch
        (call callback CompleteArgs)
        (console_error "Error in complete callback:")) w.

(** [#tick()] *)
Definition priv_tick : M unit :=
  fun w =>
    if remainingTime (timer w) <=? 0 then priv_complete w
    else
      (modify_timer (fun t => set_remainingTime (remainingTime t - 1) t) ;;
       fun w1 =>
         forEach (tick (callbacks (timer w1))) (fun callback => fun w2 =>
           try_catch
             (call callback
                (TickArgs (fst (getRemainingTime (timer w2)))
                          (snd (getRemainingTime (timer w2)))
                          (getProgress (timer w2))))
             (console_error "Error in tick callback:") w2) w1) w.

(** [start()] *)
Definition start : M unit :=
  fun w =>
    if strict_eq (state (timer w)) RUNNING then (Normal tt, w)
    else
      (setState RUNNING ;;
       id <- setInterval ;;
       modify_timer (set_intervalId (Some id))) w.

(** [pause()] *)
Definition pause : M unit :=
  fun w =>
    if negb (strict_eq (state (timer w)) RUNNING) then (Normal tt, w)
    else (setState PAUSED ;; stop_interval) w.

(** [reset()] *)
Definition reset : M unit :=
  modify_timer (fun t => set_remainingTime (duration t) t) ;;
  setState IDLE ;;
  stop_interval.

(** [setDuration(seconds)] *)
Definition setDuration (seconds : Z) : M unit :=
  modify_timer (set_duration seconds) ;;
  reset.

(** What [this.#callbacks[event]] reads: an own array, a value inherited
    from [Object.prototype], or [undefined]. *)
Inductive Property : Type :=
| OwnTick
| OwnComplete
| OwnStateChange
| Inherited
| Absent.

Definition callbacks_get (event : string) : Property :=
  if String.eqb event "tick" then OwnTick
  else if String.eqb event "complete" then OwnComplete
  else if String.eqb event "stateChange" then OwnStateChange
  else if existsb (String.eqb event) Object_prototype then Inherited
  else Absent.

Definition push_callback (p : Property) (cb : Callback) (c : Callbacks)
  : Callbacks :=
  match p with
  | OwnTick => mkCallbacks (tick c ++ [cb]) (complete c) (stateChange c)
  | OwnComplete => mkCallbacks (tick c) (complete c ++ [cb]) (stateChange c)
  | OwnStateChange => mkCallbacks (tick c) (complete c) (stateChange c ++ [cb])
  | _ => c
  end.

(** [on(event, callback)] *)
Definition on (event : string) (callback : Callback) : M unit :=
  match callbacks_get event with
  | Absent => ret tt
  | Inherited =>
      throw (TypeError "this.#callbacks[event].push is not a function")
  | p => modify_timer (fun t =>
           set_callbacks (push_callback p callback (callbacks t)) t)
  end.

(** One second of the clock source: every interval that is still
    scheduled when its turn comes runs [#tick]. *)
Definition clock : M unit :=
  fun w =>
    forEach (intervals (host w)) (fun id => fun w' =>
      if existsb (Nat.eqb id) (intervals (host w')) then priv_tick w'
      else (Normal tt, w')) w.

(** The operations a client and the clock source can perform. *)
Inductive Op : Type :=
| Start
| Pause
| Reset
| SetDuration (seconds : Z)
| On (event : string) (callback : Callback)
| ClockTick.

Definition exec (op : Op) : M unit :=
  match op with
  | Start => start
  | Pause => pause
  | Reset => reset
  | SetDuration s => setDuration s
  | On e cb => on e cb
  | ClockTick => clock
  end.

Definition after (op : Op) (w : World) : World := snd (exec op w).

Definition run (ops : list Op) (w : World) : World :=
  fold_left (fun w op => after op w) ops w.

Inductive reachable : World -> Prop :=
| reach_new (d : Z) : reachable (World_new d)
| reach_step (op : Op) (w : World) :
    reachable w -> reachable (after op w).

(** ** The observer loops

    The three [forEach] loops of [Timer.js] have the same shape: each
    callback runs inside its own [try]/[catch].  Their effect on a world
    is computed once and for all. *)

Definition fired (cbs : list Callback) (args : Args) : list (nat * Args) :=
  map (fun cb => (cb_id cb, args)) cbs.

Definition caught (label : string) (cbs : list Callback) (args : Args)
  : list (string * error) :=
  flat_map (fun cb => match cb_body cb args with
                      | Some e => [(label, e)]
                      | None => []
                      end) cbs.

Definition notified (label : string) (cbs : list Callback) (args : Args)
  (h : Host) : Host :=
  mkHost (next_handle h) (intervals h)
    (trace h ++ fired cbs args) (console h ++ caught label cbs args).

(** ** The operations as world transformers

    What each method does to a world, without the monad: the loops are
    replaced by their effect [notified].  Each transformer is proved
    equal to the method it describes (lemmas [setState_eq] to
    [clock_eq]), and the properties are proved on the transformers. *)

Definition setState_w (newState : value) (w : World) : World :=
  if strict_eq (state (timer w)) newState then w
  else mkWorld (set_state newState (timer w))
         (notified "Error in stateChange callback:"
            (stateChange (callbacks (timer w)))
            (StateChangeArgs newState (state (timer w))) (host w)).

Definition cleared (id : nat) (h : Host) : Host :=
  mkHost (next_handle h)
    (filter (fun j => negb (Nat.eqb j id)) (intervals h))
    (trace h) (console h).

Definition stop_w (w : World) : World :=
  match intervalId (timer w) with
  | Some (S n) => mkWorld (set_intervalId None (timer w))
                    (cleared (S n) (host w))
  | _ => w
  end.

Definition complete_w (w : World) : World :=
  let w2 := setState_w COMPLETED (stop_w w) in
  mkWorld (timer w2)
    (notified "Error in complete callback:"
       (complete (callbacks (timer w2))) CompleteArgs (host w2)).

Definition tick_w (w : World) : World :=
  if remainingTime (timer w) <=? 0 then complete_w w
  else
    let t := set_remainingTime (remainingTime (timer w) - 1) (timer w) in
    mkWorld t
      (notified "Error in tick callback:" (tick (callbacks t))
         (TickArgs (fst (getRemainingTime t)) (snd (getRemainingTime t))
            (getProgress t))
         (host w)).

Definition scheduled (w : World) : World :=
  let h := host w in
  mkWorld (set_intervalId (Some (next_handle h)) (timer w))
    (mkHost (S (next_handle h)) (intervals h ++ [next_handle h])
       (trace h) (console h)).

Definition start_w (w : World) : World :=
  if strict_eq (state (timer w)) RUNNING then w
  else scheduled (setState_w RUNNING w).

Definition pause_w (w : World) : World :=
  if strict_eq (state (timer w)) RUNNING then stop_w (setState_w PAUSED w)
  else w.

Definition reset_w (w : World) : World :=
  stop_w (setState_w IDLE
    (mkWorld (set_remainingTime (duration (timer w)) (timer w)) (host w))).

Definition setDuration_w (seconds : Z) (w : World) : World :=
  reset_w (mkWorld (set_duration seconds (timer w)) (host w)).

Fixpoint fire (ids : list nat) (w : World) : World :=
  match ids with
  | [] => w
  | id :: ids' =>
      fire ids'
        (if existsb (Nat.eqb id) (intervals (host w)) then tick_w w else w)
  end.

Definition clock_w (w : World) : World := fire (intervals (host w)) w.

Definition on_w (event : string) (cb : Callback) (w : World) : World :=
  mkWorld
    (set_callbacks
       (push_callback (callbacks_get event) cb (callbacks (timer w)))
       (timer w))
    (host w).

Definition after_w (op : Op) (w : World) : World :=
  match op with
  | Start => start_w w
  | Pause => pause_w w
  | Reset => reset_w w
  | SetDuration s => setDuration_w s w
  | On e cb => on_w e cb w
  | ClockTick => clock_w w
  end.

Record Inv (w : World) : Prop := mkInv {
  inv_state :
    state (timer w) = IDLE \/ state (timer w) = RUNNING \/
    state (timer w) = PAUSED \/ state (timer w) = COMPLETED;
  inv_running :
    state (timer w) = RUNNING ->
    exists n, intervalId (timer w) = Some (S n) /\
              intervals (host w) = [S n];
  inv_stopped :
    state (timer w) <> RUNNING ->
    intervalId (timer w) = None /\ intervals (host w) = [];
  inv_handle : (1 <= next_handle (host w))%nat;
  inv_positive :
    0 < duration (timer w) ->
    0 <= remainingTime (timer w) <= duration (timer w);
  inv_nonpositive :
    duration (timer w) <= 0 -> remainingTime (timer w) = duration (timer w);
  inv_completed :
    state (timer w) = COMPLETED -> remainingTime (timer w) <= 0
}.

(** ** Vocabulary of the Timer properties *)

(** A timer as [new Timer(d)] leaves it, with observers registered. *)
Definition observed (d : Z) (ticks completes changes : list Callback)
  : World :=
  mkWorld (mkTimer d d IDLE None (mkCallbacks ticks completes changes))
    (mkHost 1 [] [] []).

Definition register (ticks completes changes : list Callback) : list Op :=
  map (On "tick") ticks ++ map (On "complete") completes
  ++ map (On "stateChange") changes.

Definition is_tick (entry : nat * Args) : bool :=
  match snd entry with TickArgs _ _ _ => true | _ => false end.

Definition is_complete (entry : nat * Args) : bool :=
  match snd entry with CompleteArgs => true | _ => false end.

Definition count_tick (tr : list (nat * Args)) : nat :=
  List.length (filter is_tick tr).

Definition count_complete (tr : list (nat * Args)) : nat :=
  List.length (filter is_complete tr).

(** What a tick observer receives when [r] seconds remain of [d]. *)
Definition tick_args (d r : Z) : Args :=
  let t := mkTimer d r RUNNING None (mkCallbacks [] [] []) in
  TickArgs (fst (getRemainingTime t)) (snd (getRemainingTime t))
    (getProgress t).

(** The tick invocations of [k] consecutive decrements from [r]. *)
Fixpoint countdown_trace (cbs : list Callback) (d r : Z) (k : nat)
  : list (nat * Args) :=
  match k with
  | O => []
  | S k' => fired cbs (tick_args d (r - 1))
            ++ countdown_trace cbs d (r - 1) k'
  end.

(** The first scenario of the specification, as it is worded:
    after [start()] and [d] ticks the engine is Completed, [complete]
    fired once and [tick] fired [d - 1] times. *)
Definition expiry_as_specified (d : nat) (w0 : World) : Prop :=
  let w := run (Start :: repeat ClockTick d) w0 in
  state (timer w) = COMPLETED /\
  count_complete (trace (host w)) = 1%nat /\
  count_tick (trace (host w)) = (d - 1)%nat.




(** Observers that never throw, for the comparison of a dispatch with
    the one in which no callback throws. *)
Definition quiet (cb : Callback) : Callback :=
  mkCallback (cb_id cb) (fun _ => None).

Definition quiet_callbacks (c : Callbacks) : Callbacks :=
  mkCallbacks (map quiet (tick c)) (map quiet (complete c))
    (map quiet (stateChange c)).

Definition quiet_world (w : World) : World :=
  mkWorld
    (set_callbacks (quiet_callbacks (callbacks (timer w))) (timer w))
    (mkHost (next_handle (host w)) (intervals (host w)) (trace (host w)) []).

Definition quiet_op (op : Op) : Op :=
  match op with
  | On e cb => On e (quiet cb)
  | _ => op
  end.

(** Two worlds agree on the engine's private fields and on what the
    observers and the scheduler have seen. *)
Definition same_engine (w1 w2 : World) : Prop :=
  duration (timer w1) = duration (timer w2) /\
  remainingTime (timer w1) = remainingTime (timer w2) /\
  state (timer w1) = state (timer w2) /\
  intervalId (timer w1) = intervalId (timer w2) /\
  intervals (host w1) = intervals (host w2) /\
  trace (host w1) = trace (host w2).

(** "100 only at or after Completed", as the specification words it:
    whenever the progress is 100 the engine is, or has been, Completed. *)
Definition full_only_after_completed (d : Z) (ops : list Op) : Prop :=
  (getProgress (timer (run ops (World_new d))) == 100)%Q ->
  exists k, (k <= List.length ops)%nat /\
            state (timer (run (firstn k ops) (World_new d))) = COMPLETED.

(** ** The JavaScript runtime used by [TaskManager.js]

    Instants are milliseconds since the epoch; the local time zone is
    UTC, so that a calendar day is a block of 86400000 milliseconds. *)

Module Runtime.

(** [String.prototype.trim] on code units below 256: TAB, LF, VT, FF,
    CR, SPACE and NO-BREAK SPACE are removed at both ends. *)
Definition is_whitespace (c : ascii) : bool :=
  let n := nat_of_ascii c in
  ((9 <=? n) && (n <=? 13) || (n =? 32) || (n =? 160))%nat.

Fixpoint trimStart (s : string) : string :=
  match s with
  | EmptyString => EmptyString
  | String c s' => if is_whitespace c then trimStart s' else s
  end.

Fixpoint trimEnd (s : string) : string :=
  match s with
  | EmptyString => EmptyString
  | String c s' =>
      match trimEnd s' with
      | EmptyString => if is_whitespace c then EmptyString
                       else String c EmptyString
      | r => String c r
      end
  end.

Definition trim (s : string) : string := trimEnd (trimStart s).

Definition decimal (n : Z) : string := NilZero.string_of_int (Z.to_int n).

Definition ms_per_day : Z := 1000 * 60 * 60 * 24.

(** The proleptic Gregorian date of a day number (days since
    1970-01-01): year, month 1..12, day 1..31. *)
Definition civil_from_days (days : Z) : Z * Z * Z :=
  let z := days + 719468 in
  let era := z / 146097 in
  let doe := z - era * 146097 in
  let yoe := (doe - doe / 1460 + doe / 36524 - doe / 146096) / 365 in
  let doy := doe - (365 * yoe + yoe / 4 - yoe / 100) in
  let mp := (5 * doy + 2) / 153 in
  let d := doy - (153 * mp + 2) / 5 + 1 in
  let m := if mp <? 10 then mp + 3 else mp - 9 in
  ((if m <=? 2 then yoe + era * 400 + 1 else yoe + era * 400), m, d).

Definition days_from_civil (y m d : Z) : Z :=
  let y' := if m <=? 2 then y - 1 else y in
  let era := y' / 400 in
  let yoe := y' - era * 400 in
  let doy := (153 * (if 2 <? m then m - 3 else m + 9) + 2) / 5 + d - 1 in
  let doe := yoe * 365 + yoe / 4 - yoe / 100 + doy in
  era * 146097 + doe - 719468.

Definition weekday_names : list string :=
  [ "Sun"; "Mon"; "Tue"; "Wed"; "Thu"; "Fri"; "Sat" ].

Definition month_names : list string :=
  [ "Jan"; "Feb"; "Mar"; "Apr"; "May"; "Jun";
    "Jul"; "Aug"; "Sep"; "Oct"; "Nov"; "Dec" ].

Definition pad (width : nat) (n : Z) : string :=
  let s := decimal n in
  append (string_of_list_ascii
            (repeat "0"%char (width - String.length s))) s.

(** [new Date(ms).toDateString()], e.g. ["Thu Jan 01 1970"]
    (years 0 to 9999). *)
Definition toDateString (ms : Z) : string :=
  let days := ms / ms_per_day in
  let '(y, m, d) := civil_from_days days in
  nth (Z.to_nat ((days + 4) mod 7)) weekday_names ""
  ++ " " ++ nth (Z.to_nat (m - 1)) month_names ""
  ++ " " ++ pad 2 d ++ " " ++ pad 4 y.

Fixpoint index_of (x : string) (l : list string) : option Z :=
  match l with
  | [] => None
  | y :: l' => if String.eqb x y then Some 0
               else option_map Z.succ (index_of x l')
  end.

Definition parse_decimal (s : string) : option Z :=
  option_map Z.of_uint (NilEmpty.uint_of_string s).

(** [new Date(text).getTime()] for a text produced by [toDateString]:
    local midnight of that date; [None] is an invalid date. *)
Definition Date_parse (text : string) : option Z :=
  match index_of (substring 4 3 text) month_names,
        parse_decimal (substring 8 2 text),
        parse_decimal (substring 11 4 text) with
  | Some m, Some d, Some y =>
      if (String.length text =? 15)%nat
      then Some (days_from_civil y (m + 1) d * ms_per_day)
      else None
  | _, _, _ => None
  end.

(** [[...new Set(xs)]]: first occurrences, in insertion order. *)
Fixpoint distinct (seen xs : list string) : list string :=
  match xs with
  | [] => []
  | x :: xs' => if existsb (String.eqb x) seen then distinct seen xs'
                else x :: distinct (x :: seen) xs'
  end.

(** [Array.prototype.sort()] without comparator: ascending order of the
    strings' code units. *)
Fixpoint insert_sorted (x : string) (l : list string) : list string :=
  match l with
  | [] => [x]
  | y :: l' => if String.leb x y then x :: l else y :: insert_sorted x l'
  end.

Fixpoint sort (l : list string) : list string :=
  match l with
  | [] => []
  | x :: l' => insert_sorted x (sort l')
  end.

End Runtime.

(** ** [src/js/modules/Storage.js]: the public methods of the class *)

Definition Storage_methods : list string :=
  [ "saveSettings"; "getSettings"; "updateSetting"; "saveTask";
    "getTodaysTasks"; "getAllTasks"; "clearHistory"; "getTasksByDateRange";
    "incrementSessionCount"; "getTodaysStats"; "getWeeklyStats";
    "resetDailyStats" ].

(** ** [src/js/modules/TaskManager.js] *)

Module TaskManager.

Import Runtime.

Record CurrentTask : Type := mkCurrentTask {
  current_name : string;
  startedAt : Z;
  current_id : string
}.

Record CompletedTask : Type := mkCompletedTask {
  id : string;
  name : string;
  duration : Z;
  completedAt : Z;
  sessionCount : Z
}.

Record t : Type := mkTaskManager {
  currentTask : option CurrentTask;       (* [None] is [null] *)
  completedTasks : list CompletedTask;
  console : list (string * error)
}.

(** What the clock and the random generator give to one call. *)
Record Env : Type := mkEnv { now : Z; random : string }.

(** A call of [this.storage.<method>(...)]: a method that the class
    does not define reads as [undefined], and calling it throws. *)
Definition storage_call (method : string) : completion unit :=
  if existsb (String.eqb method) Storage_methods then Normal tt
  else Throw (TypeError ("this.storage." ++ method ++ " is not a function")).

(** [syncWithStorage()], as run by the constructor: the read is
    [this.storage.getTodayTasks()]. *)
Definition syncWithStorage (tm : t) : bool * t :=
  match storage_call "getTodayTasks" with
  | Normal _ => (true, tm)
  | Throw e =>
      (false, mkTaskManager (currentTask tm) (completedTasks tm)
                (console tm ++ [("Failed to sync with storage:", e)]))
  end.

(** [constructor(storage)] with an instance of [Storage]. *)
Definition new : t := snd (syncWithStorage (mkTaskManager None [] [])).

(** [#generateTaskId()] *)
Definition generateTaskId (env : Env) : string :=
  "task_" ++ decimal (now env) ++ "_" ++ random env.

(** [#validateTaskName(name)], as a truth value *)
Definition validateTaskName (name : value) : bool :=
  match name with
  | Str s => truthy name && (0 <? Z.of_nat (String.length (trim s)))
  | _ => false
  end.

(** [!duration || typeof duration !== 'number' || duration <= 0] *)
Definition invalid_duration (duration : value) : bool :=
  match duration with
  | Number n => negb (truthy duration) || (n <=? 0)
  | _ => true
  end.

Definition number_of (v : value) : Z :=
  match v with Number n => n | _ => 0 end.

Definition string_of (v : value) : string :=
  match v with Str s => s | _ => "" end.

(** [#calculateSessionsForTask(taskName)] *)
Definition calculateSessionsForTask (tm : t) (taskName : string) : Z :=
  Z.of_nat (List.length
    (filter (fun task => String.eqb (name task) taskName)
       (completedTasks tm))).

(** [#saveToStorage()] *)
Definition saveToStorage (tm : t) : bool * t :=
  match storage_call "saveTodayTasks" with
  | Normal _ => (true, tm)
  | Throw e =>
      (false, mkTaskManager (currentTask tm) (completedTasks tm)
                (console tm ++ [("Failed to save tasks to storage:", e)]))
  end.

(** [setCurrentTask(taskName)] *)
Definition setCurrentTask (env : Env) (taskName : value) (tm : t)
  : completion bool * t :=
  if negb (validateTaskName taskName)
  then (Throw (Error "Task name must be a non-empty string"), tm)
  else
    (Normal true,
     mkTaskManager
       (Some (mkCurrentTask (trim (string_of taskName)) (now env)
                (generateTaskId env)))
       (completedTasks tm) (console tm)).

Definition getCurrentTask (tm : t) : option CurrentTask := currentTask tm.

(** [clearCurrentTask()] *)
Definition clearCurrentTask (tm : t) : bool * t :=
  (true, mkTaskManager None (completedTasks tm) (console tm)).

(** [completeTask(taskName, duration)] *)
Definition completeTask (env : Env) (taskName duration : value) (tm : t)
  : completion CompletedTask * t :=
  if negb (validateTaskName taskName)
  then (Throw (Error "Task name must be a non-empty string"), tm)
  else if invalid_duration duration
  then (Throw (Error "Duration must be a positive number"), tm)
  else
    let taskNameTrimmed := trim (string_of taskName) in
    let count := calculateSessionsForTask tm taskNameTrimmed in
    let completedTask :=
      mkCompletedTask (generateTaskId env) taskNameTrimmed
        (number_of duration) (now env) (count + 1) in
    let tm1 := mkTaskManager (currentTask tm)
                 (completedTasks tm ++ [completedTask]) (console tm) in
    (Normal completedTask, snd (saveToStorage tm1)).

(** [completeCurrentTask(duration)] *)
Definition completeCurrentTask (env : Env) (duration : value) (tm : t)
  : completion CompletedTask * t :=
  match currentTask tm with
  | None => (Throw (Error "No active task to complete"), tm)
  | Some current =>
      if invalid_duration duration
      then (Throw (Error "Duration must be a positive number"), tm)
      else
        match completeTask env (Str (current_name current)) duration tm with
        | (Normal completedTask, tm1) =>
            (Normal completedTask, snd (clearCurrentTask tm1))
        | (Throw e, tm1) => (Throw e, tm1)
        end
  end.

(** The [for] loop of [getStreakInfo()]: [tempStreak] and
    [longestStreak] after the dates from [dates] on. *)
Fixpoint streak_loop (dates : list string) (tempStreak longestStreak : Z)
  : Z * Z :=
  match dates with
  | [] => (tempStreak, longestStreak)
  | current :: rest =>
      match rest with
      | next :: _ =>
          let dayDiff_is_1 :=
            match Date_parse next, Date_parse current with
            | Some n, Some c => n - c =? ms_per_day
            | _, _ => false
            end in
          if dayDiff_is_1
          then streak_loop rest (tempStreak + 1) longestStreak
          else streak_loop rest 0
                 (if longestStreak <? tempStreak then tempStreak
                  else longestStreak)
      | [] =>
          let tempStreak' := tempStreak + 1 in
          (tempStreak',
           if longestStreak <? tempStreak' then tempStreak'
           else longestStreak)
      end
  end.

Record StreakInfo : Type := mkStreakInfo {
  currentStreak : Z;
  longestStreak : Z;
  lastActiveDate : option Z      (* [None] is [null] or an invalid date *)
}.

(** [getStreakInfo()], [today] being the instant of the call *)
Definition getStreakInfo (today : Z) (tm : t) : StreakInfo :=
  match completedTasks tm with
  | [] => mkStreakInfo 0 0 None
  | _ =>
      let dates :=
        sort (distinct []
                (map (fun task => toDateString (completedAt task))
                   (completedTasks tm))) in
      let '(tempStreak, longest) := streak_loop dates 0 0 in
      let lastDate := Date_parse (last dates "") in
      let within_a_day :=
        match lastDate with
        | Some l => today - l <=? ms_per_day
        | None => false
        end in
      mkStreakInfo (if within_a_day then tempStreak else 0) longest lastDate
  end.

(** The error classes of the specification, by message. *)
Inductive ErrorClass : Type := IllegalState | InvalidInput.

Definition classify (e : error) : option ErrorClass :=
  match e with
  | Error m =>
      if String.eqb m "No active task to complete" then Some IllegalState
      else if String.eqb m "Task name must be a non-empty string"
           || String.eqb m "Duration must be a positive number"
           || String.eqb m "Limit must be a positive number"
      then Some InvalidInput
      else None
  | TypeError _ => None
  end.

(** The failures of [completeCurrentTask] as the specification words
    them: IllegalState whenever no current task is set, and InvalidInput
    whenever the duration is not positive. *)
Definition fails_as_specified (env : Env) (durationMinutes : Z) (tm : t)
  : Prop :=
  (currentTask tm = None ->
   exists e,
     fst (completeCurrentTask env (Number durationMinutes) tm) = Throw e /\
     classify e = Some IllegalState) /\
  (durationMinutes <= 0 ->
   exists e,
     fst (completeCurrentTask env (Number durationMinutes) tm) = Throw e /\
     classify e = Some InvalidInput).

(** A current task was stored by [setCurrentTask]: its name is trimmed
    and not empty. *)
Definition wf (tm : t) : Prop :=
  match currentTask tm with
  | Some current =>
      trim (current_name current) = current_name current /\
      current_name current <> ""
  | None => True
  end.

(** A history with one task completed at noon on each of the days
    [D], [D+1], [D+2] and [D+4], and an instant of the day [D+6]. *)
Definition noon (day : Z) : Z := day * ms_per_day + 12 * 60 * 60 * 1000.

Definition streak_history (D : Z) : t :=
  fold_left
    (fun tm day =>
       snd (completeTask (mkEnv (noon day) "k3j9x0q2m")
              (Str "Write report") (Number 25) tm))
    [D; D + 1; D + 2; D + 4] new.

End TaskManager.

(** A text made of white space only (the empty text included). *)
Fixpoint whitespace_only (s : string) : bool :=
  match s with
  | EmptyString => true
  | String c s' => Runtime.is_whitespace c && whitespace_only s'
  end.

(** ** [src/js/main.js]: the session coordinator

    The coordinator talks to its collaborators (audio, task manager,
    user interface, storage) through method calls.  A collaborator is
    given by what each call does, return or throw; the calls made are
    recorded in order. *)

Module App.

Inductive Call : Type :=
| audio_playSound (sound : string)
| taskManager_completeTask (task : string)
| ui_showNotification (message kind : string)
| ui_updateMode (mode : string)
| ui_updateTimer (duration : Z)
| ui_updateStats
| storage_incrementSessions
| storage_getStats.

(** [None]: the call returns; [Some e]: it throws [e]. *)
Definition Collaborators : Type := Call -> option error.

(** [this.settings]; its defaults, [CONSTANTS.DEFAULT_SETTINGS], are not
    defined in [constants.js] and are left open. *)
Record Settings : Type := mkSettings {
  workDuration : Z;
  breakDuration : Z;
  soundEnabled : bool;
  darkMode : bool
}.

(** The fields of the coordinator and what it has called and logged.
    The constructor assigns [currentTask = null], [isBreakMode = false]
    and [sessionCount = 0]; as [main.js] builds its [TaskManager]
    without a storage, that constructor throws before it gets there, so
    the properties of the handlers are stated for every value of the
    fields. *)
Record t : Type := mkApp {
  currentTask : option string;       (* a task, or [None] for [null] *)
  isBreakMode : bool;
  sessionCount : Z;
  settings : Settings;
  calls : list Call;
  console : list (string * error);
  unhandled : list error             (* rejections nobody awaits *)
}.

Definition set_currentTask (c : option string) (a : t) : t :=
  mkApp c (isBreakMode a) (sessionCount a) (settings a) (calls a)
    (console a) (unhandled a).
Definition set_isBreakMode (b : bool) (a : t) : t :=
  mkApp (currentTask a) b (sessionCount a) (settings a) (calls a)
    (console a) (unhandled a).
Definition set_sessionCount (n : Z) (a : t) : t :=
  mkApp (currentTask a) (isBreakMode a) n (settings a) (calls a)
    (console a) (unhandled a).

Definition modify (f : t -> t) : St t unit := fun a => (Normal tt, f a).

Definition call (env : Collaborators) (c : Call) : St t unit :=
  fun a =>
    let a' := mkApp (currentTask a) (isBreakMode a) (sessionCount a)
                (settings a) (calls a ++ [c]) (console a) (unhandled a) in
    match env c with
    | None => (Normal tt, a')
    | Some e => (Throw e, a')
    end.

Definition console_error (label : string) (e : error) : St t unit :=
  modify (fun a =>
    mkApp (currentTask a) (isBreakMode a) (sessionCount a) (settings a)
      (calls a) (console a ++ [(label, e)]) (unhandled a)).

(** An [async] method called without [await]: what it throws rejects a
    promise that nobody handles. *)
Definition detached (m : St t unit) : St t unit :=
  fun a =>
    match m a with
    | (Normal _, a') => (Normal tt, a')
    | (Throw e, a') =>
        (Normal tt,
         mkApp (currentTask a') (isBreakMode a') (sessionCount a')
           (settings a') (calls a') (console a') (unhandled a' ++ [e]))
    end.

(** [handleError(message, error)] *)
Definition handleError (env : Collaborators) (message : string) (e : error)
  : St t unit :=
  console_error message e ;;
  call env (ui_showNotification message "error").

(** [updateStats()] *)
Definition updateStats (env : Collaborators) : St t unit :=
  try_catch
    (call env storage_getStats ;;
     call env ui_updateStats)
    (fun e =>
       console_error "Error updating stats:" e ;;
       handleError env "Failed to update statistics" e).

(** [completeSession()] *)
Definition completeSession (env : Collaborators) : St t unit :=
  try_catch
    (modify (fun a => set_sessionCount (sessionCount a + 1) a) ;;
     call env storage_incrementSessions ;;
     updateStats env ;;
     fun a =>
       call env
         (ui_showNotification
            ("Session " ++ Runtime.decimal (sessionCount a) ++ " completed!")
            "success") a)
    (fun e =>
       console_error "Error completing session:" e ;;
       handleError env "Failed to complete session" e).

(** [startBreak()] *)
Definition startBreak (env : Collaborators) : St t unit :=
  try_catch
    (modify (set_isBreakMode true) ;;
     call env (ui_updateMode "break") ;;
     (fun a => call env (ui_updateTimer (breakDuration (settings a))) a) ;;
     call env (ui_showNotification "Break time!" "info"))
    (fun e =>
       console_error "Error starting break:" e ;;
       handleError env "Failed to start break" e).

(** [onTimerComplete()] *)
Definition onTimerComplete (env : Collaborators) : St t unit :=
  try_catch
    (call env (audio_playSound "complete") ;;
     (fun a =>
        match currentTask a with
        | Some task =>
            (call env (taskManager_completeTask task) ;;
             modify (set_currentTask None)) a
        | None => (Normal tt, a)
        end) ;;
     call env (ui_showNotification "Session completed!" "success") ;;
     fun a =>
       if isBreakMode a then detached (completeSession env) a
       else detached (startBreak env) a)
    (fun e =>
       console_error "Error handling timer completion:" e ;;
       handleError env "Failed to complete session" e).

(** Collaborators whose calls all return. *)
Definition cooperative : Collaborators := fun _ => None.

(** The public methods of the classes in [Audio.js] and [UI.js]. *)
Definition Audio_methods : list string :=
  [ "playWorkComplete"; "playBreakComplete"; "playButtonClick";
    "playWarning"; "setVolume"; "toggleMute"; "isEnabled"; "getVolume";
    "isMuted"; "preloadAll"; "destroy" ].

Definition UI_methods : list string :=
  [ "cacheElements"; "updateTimerDisplay"; "updateProgress";
    "updateButtons"; "animateTimerComplete"; "getTaskInput";
    "clearTaskInput"; "addTaskToHistory"; "toggleHistory";
    "updateSessionCount"; "updateTotalTime"; "showNotification";
    "bindEvents" ].

Definition method_call (object : string) (methods : list string)
  (method : string) : option error :=
  if existsb (String.eqb method) methods then None
  else Some (TypeError (object ++ "." ++ method ++ " is not a function")).

(** The collaborators as the repository defines them: a method that a
    class does not define throws when called, and
    [taskManager.completeTask(task)], called without a duration, throws
    as [TaskManager.completeTask] does. *)
Definition shipped : Collaborators :=
  fun c =>
    match c with
    | audio_playSound _ => method_call "this.audio" Audio_methods "playSound"
    | taskManager_completeTask task =>
        match fst (TaskManager.completeTask (TaskManager.mkEnv 0 "")
                     (Str task) Undefined TaskManager.new) with
        | Normal _ => None
        | Throw e => Some e
        end
    | ui_showNotification _ _ =>
        method_call "this.ui" UI_methods "showNotification"
    | ui_updateMode _ => method_call "this.ui" UI_methods "updateMode"
    | ui_updateTimer _ => method_call "this.ui" UI_methods "updateTimer"
    | ui_updateStats => method_call "this.ui" UI_methods "updateStats"
    | storage_incrementSessions =>
        method_call "this.storage" Storage_methods "incrementSessions"
    | storage_getStats =>
        method_call "this.storage" Storage_methods "getStats"
    end.

(** The completion step as the specification words it: a completed
    break sets the mode back to work and leaves the statistics alone; a
    completed work session increments the session counter and switches
    to a break. *)
Definition completes_as_specified (env : Collaborators) (a : t) : Prop :=
  let a' := snd (onTimerComplete env a) in
  if isBreakMode a
  then isBreakMode a' = false /\ sessionCount a' = sessionCount a
  else sessionCount a' = sessionCount a + 1 /\ isBreakMode a' = true.

(** The durations shown by a list of calls are all
    [settings.breakDuration]. *)
Definition only_break (s : Settings) (l : list Call) : Prop :=
  forall d, In (ui_updateTimer d) l -> d = breakDuration s.

End App.

(** ** More of the JavaScript runtime: plain objects and doubles *)

Module Plain.

(** A property name is an array index when it is the canonical decimal
    text of an integer below [2^32 - 1]. *)
Definition array_index (key : string) : option N :=
  match NilEmpty.uint_of_string key with
  | Some u =>
      let n := N.of_uint u in
      if String.eqb (NilZero.string_of_uint (N.to_uint n)) key
         && (n <? 4294967295)%N
      then Some n else None
  | None => None
  end.

(** The own properties of a plain object, in enumeration order: the
    array indices in ascending order, then the other names in the order
    of their creation. *)
Definition object (V : Type) : Type := list (string * V).

Fixpoint own {V} (o : object V) (key : string) : option V :=
  match o with
  | [] => None
  | (k, v) :: o' => if String.eqb k key then Some v else own o' key
  end.

Fixpoint replace {V} (key : string) (v : V) (o : object V) : object V :=
  match o with
  | [] => []
  | (k, x) :: o' => if String.eqb k key then (k, v) :: o'
                    else (k, x) :: replace key v o'
  end.

Fixpoint insert_index {V} (key : string) (i : N) (v : V) (o : object V)
  : object V :=
  match o with
  | [] => [(key, v)]
  | (k, x) :: o' =>
      match array_index k with
      | Some j => if (j <? i)%N then (k, x) :: insert_index key i v o'
                  else (key, v) :: o
      | None => (key, v) :: o
      end
  end.

(** [o[key] = v] *)
Definition set {V} (key : string) (v : V) (o : object V) : object V :=
  match own o key with
  | Some _ => replace key v o
  | None =>
      match array_index key with
      | Some i => insert_index key i v o
      | None => (o ++ [(key, v)])%list
      end
  end.

(** [Object.keys(o)] *)
Definition keys {V} (o : object V) : list string := map fst o.

(** [Object.values(o)] *)
Definition values {V} (o : object V) : list V := map snd o.

(** [o[key]] read as a truth value, for an object whose own values are
    objects: an own property or one inherited from [Object.prototype]. *)
Definition truthy_at {V} (o : object V) (key : string) : bool :=
  match own o key with
  | Some _ => true
  | None => existsb (String.eqb key) Object_prototype
  end.

(** The double nearest to an integer (exact below [2^53]). *)
Definition float_of_Z (z : Z) : float :=
  if z <? 0 then PrimFloat.opp (PrimFloat.of_uint63 (Uint63.of_Z (- z)))
  else PrimFloat.of_uint63 (Uint63.of_Z z).

(** [Math.round(x)] for a double [x >= 0]: the nearest integer, a half
    going up. *)
Definition Math_round (x : float) : Z :=
  match Prim2SF x with
  | S754_finite false m e =>
      if 0 <=? e then Z.pos m * 2 ^ e
      else
        let q := Z.pos m / 2 ^ (- e) in
        let r := Z.pos m mod 2 ^ (- e) in
        if 2 ^ (- e) <=? 2 * r then q + 1 else q
  | _ => 0
  end.

End Plain.

(** ** [src/js/modules/TaskManager.js]: the analytics *)

Module TaskAnalytics.

Import Runtime TaskManager Plain.

(** An entry of [getMostProductiveTasks]. *)
Record TaskTotal : Type := mkTaskTotal {
  total_name : string;
  totalDuration : Z;
  total_sessionCount : Z
}.

(** The body of the [forEach] of [getMostProductiveTasks].  When
    [taskStats[task.name]] is inherited (a task called ["toString"],
    say) the additions go to the inherited value and [taskStats] gets no
    entry. *)
Definition add_task (taskStats : object TaskTotal) (task : CompletedTask)
  : object TaskTotal :=
  let taskStats1 :=
    if negb (truthy_at taskStats (name task))
    then set (name task) (mkTaskTotal (name task) 0 0) taskStats
    else taskStats in
  match own taskStats1 (name task) with
  | Some entry =>
      set (name task)
        (mkTaskTotal (total_name entry) (totalDuration entry + duration task)
           (total_sessionCount entry + 1))
        taskStats1
  | None => taskStats1
  end.

(** [.sort((a, b) => b.totalDuration - a.totalDuration)]: descending,
    entries with equal totals in their former order. *)
Fixpoint insert_by_total (x : TaskTotal) (l : list TaskTotal)
  : list TaskTotal :=
  match l with
  | [] => [x]
  | y :: l' => if totalDuration x <? totalDuration y
               then y :: insert_by_total x l' else x :: l
  end.

Fixpoint sort_by_total (l : list TaskTotal) : list TaskTotal :=
  match l with
  | [] => []
  | x :: l' => insert_by_total x (sort_by_total l')
  end.

(** [!limit || typeof limit !== 'number' || limit <= 0] *)
Definition invalid_limit (limit : value) : bool :=
  match limit with
  | Number n => negb (truthy limit) || (n <=? 0)
  | _ => true
  end.

(** [getMostProductiveTasks(limit = 5)] *)
Definition getMostProductiveTasks (limit : value) (tm : t)
  : completion (list TaskTotal) :=
  let limit := match limit with Undefined => Number 5 | _ => limit end in
  if invalid_limit limit
  then Throw (Error "Limit must be a positive number")
  else
    let taskStats := fold_left add_task (completedTasks tm) [] in
    Normal (firstn (Z.to_nat (number_of limit))
              (sort_by_total (values taskStats))).

Record TaskStats : Type := mkTaskStats {
  stats_name : string;
  stats_totalDuration : Z;
  stats_sessionCount : Z;
  averageDuration : float;
  lastCompleted : option Z         (* [None] is [null] *)
}.

(** [Math.max(...xs)] of a list that is not empty *)
Definition Math_max (xs : list Z) : Z :=
  match xs with
  | [] => 0
  | x :: xs' => fold_left Z.max xs' x
  end.

(** [getTaskStats(taskName)] *)
Definition getTaskStats (taskName : value) (tm : t) : completion TaskStats :=
  if negb (validateTaskName taskName)
  then Throw (Error "Task name must be a non-empty string")
  else
    let taskNameTrimmed := trim (string_of taskName) in
    let taskTasks :=
      filter (fun task => String.eqb (name task) taskNameTrimmed)
        (completedTasks tm) in
    match taskTasks with
    | [] => Normal (mkTaskStats taskNameTrimmed 0 0 0%float None)
    | _ =>
        let totalDuration :=
          fold_left (fun sum task => sum + duration task) taskTasks 0 in
        let averageDuration :=
          PrimFloat.div (float_of_Z totalDuration)
            (float_of_Z (Z.of_nat (List.length taskTasks))) in
        Normal
          (mkTaskStats taskNameTrimmed totalDuration
             (Z.of_nat (List.length taskTasks))
             (PrimFloat.div
                (float_of_Z
                   (Math_round (PrimFloat.mul averageDuration 100%float)))
                100%float)
             (Some (Math_max (map completedAt taskTasks))))
    end.

(** [getProductivityScore()], [now] being the instant of the call *)
Definition getProductivityScore (now : Z) (tm : t) : Z :=
  match completedTasks tm with
  | [] => 0
  | _ =>
      let today := toDateString now in
      let todayTasks :=
        filter (fun task => String.eqb (toDateString (completedAt task)) today)
          (completedTasks tm) in
      match todayTasks with
      | [] => 0
      | _ =>
          let totalDuration :=
            fold_left (fun sum task => sum + duration task) todayTasks 0 in
          let averageDuration :=
            PrimFloat.div (float_of_Z totalDuration)
              (float_of_Z (Z.of_nat (List.length todayTasks))) in
          let taskScore :=
            Z.min (Z.of_nat (List.length todayTasks) * 10) 50 in
          let doubled := PrimFloat.mul averageDuration 2%float in
          let durationScore :=
            if PrimFloat.ltb doubled 50%float then doubled else 50%float in
          Math_round (PrimFloat.add (float_of_Z taskScore) durationScore)
      end
  end.

(** The operations on a ledger: the public methods that change it.
    The other public methods ([getCurrentTask] and the analytics) are
    functions of the ledger. *)
Inductive Op : Type :=
| SetCurrentTask (env : Env) (taskName : value)
| CompleteCurrentTask (env : Env) (duration : value)
| ClearCurrentTask
| CompleteTask (env : Env) (taskName duration : value)
| SyncWithStorage.

Definition after (op : Op) (tm : t) : t :=
  match op with
  | SetCurrentTask env taskName => snd (setCurrentTask env taskName tm)
  | CompleteCurrentTask env duration =>
      snd (completeCurrentTask env duration tm)
  | ClearCurrentTask => snd (clearCurrentTask tm)
  | CompleteTask env taskName duration =>
      snd (completeTask env taskName duration tm)
  | SyncWithStorage => snd (syncWithStorage tm)
  end.

Definition run (ops : list Op) (tm : t) : t :=
  fold_left (fun tm op => after op tm) ops tm.

(** The sums that the analytics are about. *)
Definition tasks_named (n : string) (l : list CompletedTask)
  : list CompletedTask :=
  filter (fun task => String.eqb (name task) n) l.

Definition total_of (n : string) (l : list CompletedTask) : Z :=
  fold_right (fun task sum => duration task + sum) 0 (tasks_named n l).

Definition count_of (n : string) (l : list CompletedTask) : Z :=
  Z.of_nat (List.length (tasks_named n l)).

Definition inherited (n : string) : bool :=
  existsb (String.eqb n) Object_prototype.

(** What [taskStats] holds after the tasks [l]: one entry per task
    name that is not inherited, with its total and its count. *)
Definition aggregated (l : list CompletedTask) (o : object TaskTotal)
  : Prop :=
  NoDup (keys o) /\
  forall k,
    own o k
    = if inherited k || (count_of k l =? 0) then None
      else Some (mkTaskTotal k (total_of k l) (count_of k l)).

Definition descending (a b : TaskTotal) : Prop :=
  totalDuration b <= totalDuration a.

(** What the ledger logs when its storage fails it. *)
Definition sync_failure : string * error :=
  ("Failed to sync with storage:",
   TypeError "this.storage.getTodayTasks is not a function").

Definition save_failure : string * error :=
  ("Failed to save tasks to storage:",
   TypeError "this.storage.saveTodayTasks is not a function").

Definition is_sync_failure (entry : string * error) : bool :=
  String.eqb (fst entry) "Failed to sync with storage:".

Definition is_save_failure (entry : string * error) : bool :=
  String.eqb (fst entry) "Failed to save tasks to storage:".

(** The calls of [syncWithStorage()] among operations. *)
Definition syncs (ops : list Op) : nat :=
  List.length
    (filter (fun op => match op with SyncWithStorage => true | _ => false end)
       ops).

(** The histories that the ledger builds: every record was appended
    with a trimmed name that is not empty, a positive duration and, as
    session count, one more than the earlier records of its name. *)
Inductive History : list CompletedTask -> Prop :=
| History_nil : History []
| History_snoc (l : list CompletedTask) (r : CompletedTask) :
    History l ->
    trim (name r) = name r -> name r <> "" -> 0 < duration r ->
    sessionCount r = count_of (name r) l + 1 ->
    History (l ++ [r])%list.

End TaskAnalytics.
(** ** [src/js/modules/Storage.js]

    [localStorage] keeps texts under keys.  A text that [JSON.stringify]
    wrote is represented by the value that [JSON.parse] reads back from
    it.  The values are those of JSON, with [undefined] and with the
    named properties that an assignment can give to an array; numbers
    are integers.  A date is its time value, the milliseconds since the
    epoch; outside the range of [Date] it is an invalid date.  The
    clock is read once per call, and what it reads is in the range.

    The class runs as a module, hence in strict mode.  Where a call
    would need a part of JavaScript that is not modelled (arithmetic on
    a value that is not a primitive, a built-in property), its outcome
    is [Beyond]. *)

Module Storage.

Import Runtime Plain.

#[warnings="-register-all"]
Inductive data : Type :=
| Undefined
| Null
| Boolean (b : bool)
| Number (n : Z)
| Str (s : string)
| Array (elements : list data) (named : object data)
| Object (properties : object data).

(** [ToBoolean] *)
Definition truthy (d : data) : bool :=
  match d with
  | Undefined | Null => false
  | Boolean b => b
  | Number n => negb (n =? 0)
  | Str s => negb (String.eqb s "")
  | Array _ _ | Object _ => true
  end.

Fixpoint filter_map {A B} (f : A -> option B) (l : list A) : list B :=
  match l with
  | [] => []
  | x :: l' => match f x with
               | Some y => y :: filter_map f l'
               | None => filter_map f l'
               end
  end.

(** [JSON.parse(JSON.stringify(d))] for [d] other than [undefined]: an
    array keeps its elements, [undefined] ones as [null], and loses its
    named properties; an object loses the properties whose value is
    [undefined]. *)
Fixpoint revive (d : data) : data :=
  match d with
  | Array elements _ =>
      Array (map (fun e => match e with
                           | Undefined => Null
                           | _ => revive e
                           end) elements) []
  | Object properties =>
      Object (filter_map
                (fun p => let v := snd p in
                          match v with
                          | Undefined => None
                          | _ => Some (fst p, revive v)
                          end) properties)
  | _ => d
  end.

(** A text in [localStorage]: the JSON text of a value, or a text that
    [JSON.parse] rejects. *)
Inductive text : Type :=
| Json (d : data)
| Malformed (s : string).

(** [JSON.stringify(d)] as the text that [setItem] files: for
    [undefined] it is the text ["undefined"]. *)
Definition stringify (d : data) : text :=
  match d with
  | Undefined => Malformed "undefined"
  | _ => Json (revive d)
  end.

(** [!!text] for what [getItem] returns, [None] being [null]. *)
Definition present (item : option text) : bool :=
  match item with
  | None => false
  | Some (Json _) => true
  | Some (Malformed s) => negb (String.eqb s "")
  end.

(** The host: the items of [localStorage], and what was written with
    [console.error] and [console.warn]. *)
Record Host : Type := mkHost {
  items : object text;
  console : list (string * error)
}.

(** What the platform gives to one call: the reading of the clock (the
    time value of [new Date()], never an invalid date), whether access
    to [localStorage] is denied, whether its quota is used up. *)
Record Env : Type := mkEnv { now : Z; denied : bool; full : bool }.

Inductive outcome (A : Type) : Type :=
| Returns (a : A)
| Throws (e : error)
| Beyond.
Arguments Returns {A} a.
Arguments Throws {A} e.
Arguments Beyond {A}.

Definition Run (A : Type) : Type := Host -> outcome A * Host.

Definition ret {A} (a : A) : Run A := fun h => (Returns a, h).

Definition bind {A B} (m : Run A) (k : A -> Run B) : Run B :=
  fun h => match m h with
           | (Returns a, h') => k a h'
           | (Throws e, h') => (Throws e, h')
           | (Beyond, h') => (Beyond, h')
           end.

Declare Scope run_scope.
Notation "x <- m ;; k" := (bind m (fun x => k))
  (at level 61, m at next level, right associativity) : run_scope.
Notation "m ;; k" := (bind m (fun _ => k))
  (at level 61, right associativity) : run_scope.
Local Open Scope run_scope.

Definition lift {A} (o : outcome A) : Run A := fun h => (o, h).

(** [try { body } catch (error) { handler(error) }] *)
Definition attempt {A} (body : Run A) (handler : error -> Run A) : Run A :=
  fun h => match body h with
           | (Throws e, h') => handler e h'
           | r => r
           end.

Definition console_error (label : string) (e : error) : Run unit :=
  fun h => (Returns tt, mkHost (items h) (console h ++ [(label, e)])).

Definition console_warn (label : string) (e : error) : Run unit :=
  console_error label e.

(** *** [localStorage] *)

Definition remove {V} (key : string) (o : object V) : object V :=
  filter (fun p => negb (String.eqb (fst p) key)) o.

Definition getItem (env : Env) (key : string) : Run (option text) :=
  fun h => if denied env then (Throws (Error "SecurityError"), h)
           else (Returns (own (items h) key), h).

Definition setItem (env : Env) (key : string) (value : text) : Run unit :=
  fun h => if denied env then (Throws (Error "SecurityError"), h)
           else if full env then (Throws (Error "QuotaExceededError"), h)
           else (Returns tt, mkHost (set key value (items h)) (console h)).

Definition removeItem (env : Env) (key : string) : Run unit :=
  fun h => if denied env then (Throws (Error "SecurityError"), h)
           else (Returns tt, mkHost (remove key (items h)) (console h)).

(** *** Dates *)

Definition year_text (y : Z) : string :=
  if (0 <=? y) && (y <=? 9999) then pad 4 y
  else (if y <? 0 then "-" else "+") ++ pad 6 (Z.abs y).

(** The time values of the valid dates: at most 8.64e15 milliseconds
    from the epoch. *)
Definition valid_time (ms : Z) : bool :=
  (-8640000000000000 <=? ms) && (ms <=? 8640000000000000).

(** The ISO text of a time value, e.g. ["1970-01-01T00:00:00.000Z"]. *)
Definition iso_text (ms : Z) : string :=
  let days := ms / ms_per_day in
  let '(y, m, d) := civil_from_days days in
  let t := ms mod ms_per_day in
  year_text y ++ "-" ++ pad 2 m ++ "-" ++ pad 2 d
  ++ "T" ++ pad 2 (t / 3600000) ++ ":" ++ pad 2 (t / 60000 mod 60)
  ++ ":" ++ pad 2 (t / 1000 mod 60) ++ "." ++ pad 3 (t mod 1000) ++ "Z".

(** [s.split(c)[0]] *)
Fixpoint before (c : ascii) (s : string) : string :=
  match s with
  | EmptyString => EmptyString
  | String a s' => if Ascii.eqb a c then EmptyString
                   else String a (before c s')
  end.

(** [date.toISOString()]: the ISO text of a valid date; on an invalid
    date it throws a [RangeError]. *)
Definition toISOString (date : Z) : outcome string :=
  if valid_time date then Returns (iso_text date)
  else Throws (Error "RangeError: Invalid time value").

(** The date of the ISO text of a time value. *)
Definition date_key (ms : Z) : string := before "T" (iso_text ms).

(** [#formatDateKey(date)] *)
Definition formatDateKey (date : Z) : outcome string :=
  match toISOString date with
  | Returns text => Returns (before "T" text)
  | Throws e => Throws e
  | Beyond => Beyond
  end.

(** [#getDateKey()]: the key of the date that [new Date()] makes of the
    clock's reading, which is valid. *)
Definition getDateKey (env : Env) : string := date_key (now env).

(** *** Properties of values *)

Definition is_digit (c : ascii) : bool :=
  let n := nat_of_ascii c in ((48 <=? n) && (n <=? 57))%nat.

(** A name that begins like a date and is no array index: no built-in
    object has a property of such a name. *)
Definition date_like (key : string) : bool :=
  match key with
  | EmptyString => false
  | String c _ =>
      (is_digit c || Ascii.eqb c "+" || Ascii.eqb c "-")
      && match array_index key with Some _ => false | None => true end
  end.

(** [d[key]] *)
Definition get_property (d : data) (key : string) : outcome data :=
  match d with
  | Undefined | Null =>
      Throws (TypeError ("Cannot read properties of null or undefined (reading '"
                         ++ key ++ "')"))
  | Object properties =>
      match own properties key with
      | Some v => Returns v
      | None => if existsb (String.eqb key) Object_prototype then Beyond
                else Returns Undefined
      end
  | Array _ named =>
      match own named key with
      | Some v => Returns v
      | None => if date_like key then Returns Undefined else Beyond
      end
  | Boolean _ | Number _ | Str _ =>
      if date_like key then Returns Undefined else Beyond
  end.

(** [d[key] = v], giving [d] as the assignment leaves it.  On a
    primitive the assignment throws; [__proto__] and, on an array, the
    indices and [length] are not modelled. *)
Definition put (d : data) (key : string) (v : data) : outcome data :=
  match d with
  | Undefined | Null | Boolean _ | Number _ | Str _ =>
      Throws (TypeError ("Cannot create property '" ++ key ++ "'"))
  | Object properties =>
      match own properties key with
      | Some _ => Returns (Object (set key v properties))
      | None => if String.eqb key "__proto__" then Beyond
                else Returns (Object (set key v properties))
      end
  | Array elements named =>
      match own named key with
      | Some _ => Returns (Array elements (set key v named))
      | None =>
          match array_index key with
          | Some _ => Beyond
          | None =>
              if String.eqb key "length" || String.eqb key "__proto__"
              then Beyond
              else Returns (Array elements (set key v named))
          end
      end
  end.

(** [d + 1] *)
Definition add_one (d : data) : outcome data :=
  match d with
  | Number n => Returns (Number (n + 1))
  | Null => Returns (Number 1)
  | Boolean b => Returns (Number (if b then 2 else 1))
  | Str s => Returns (Str (s ++ "1"))
  | Undefined | Array _ _ | Object _ => Beyond
  end.

Fixpoint indexed (i : Z) (l : list data) : object data :=
  match l with
  | [] => []
  | e :: l' => (decimal i, e) :: indexed (i + 1) l'
  end.

(** The properties that [{...d}] copies. *)
Definition spread (d : data) : object data :=
  match d with
  | Object properties => properties
  | Array elements named => (indexed 0 elements ++ named)%list
  | Str s =>
      indexed 0 (map (fun c => Str (String c EmptyString))
                   (list_ascii_of_string s))
  | Undefined | Null | Boolean _ | Number _ => []
  end.

(** [target.push(item)], giving [target] as the call leaves it *)
Definition push (target item : data) : outcome data :=
  match target with
  | Array elements named =>
      match own named "push" with
      | Some _ => Throws (TypeError "taskHistory.push is not a function")
      | None => Returns (Array (elements ++ [item]) named)
      end
  | _ => Throws (TypeError "taskHistory.push is not a function")
  end.

(** [target.filter(keep)]: an exception leaving [keep] ends the loop. *)
Fixpoint filter_elements (keep : data -> outcome bool) (l : list data)
  : outcome (list data) :=
  match l with
  | [] => Returns []
  | x :: l' =>
      match keep x with
      | Returns b =>
          match filter_elements keep l' with
          | Returns r => Returns (if b then x :: r else r)
          | Throws e => Throws e
          | Beyond => Beyond
          end
      | Throws e => Throws e
      | Beyond => Beyond
      end
  end.

Definition array_filter (target : data) (keep : data -> outcome bool)
  : outcome data :=
  match target with
  | Array elements named =>
      match own named "filter" with
      | Some _ => Throws (TypeError "allTasks.filter is not a function")
      | None =>
          match filter_elements keep elements with
          | Returns r => Returns (Array r [])
          | Throws e => Throws e
          | Beyond => Beyond
          end
      end
  | _ => Throws (TypeError "allTasks.filter is not a function")
  end.

(** [a === b] with a text on the right *)
Definition equals_text (a : data) (b : string) : bool :=
  match a with
  | Str s => String.eqb s b
  | _ => false
  end.

(** [a >= key] and [a <= key] for a date key, which is not the text of a
    number: a primitive other than a text compares as false. *)
Definition at_least (a : data) (key : string) : outcome bool :=
  match a with
  | Str s => Returns (negb (String.ltb s key))
  | Undefined | Null | Boolean _ | Number _ => Returns false
  | Array _ _ | Object _ => Beyond
  end.

Definition at_most (a : data) (key : string) : outcome bool :=
  match a with
  | Str s => Returns (String.leb s key)
  | Undefined | Null | Boolean _ | Number _ => Returns false
  | Array _ _ | Object _ => Beyond
  end.

(** *** The class *)

Definition STORAGE_KEYS : list (string * string) :=
  [ ("SETTINGS", "focusPro_settings"); ("HISTORY", "focusPro_history");
    ("STATS", "focusPro_stats") ].

(** The key under which [localStorage] files a value: its text. *)
Definition key_text (v : value) : string :=
  match v with
  | Js.Str s => s
  | Js.Undefined => "undefined"
  | Js.Null => "null"
  | Js.Boolean b => if b then "true" else "false"
  | Js.Number n => decimal n
  | Js.NaN => "NaN"
  end.

(** The three keys that the class uses.  [STORAGE_KEYS] has no
    [TASK_HISTORY] and no [STATISTICS]: both read as [undefined]. *)
Definition SETTINGS : string := key_text (get STORAGE_KEYS "SETTINGS").
Definition TASK_HISTORY : string :=
  key_text (get STORAGE_KEYS "TASK_HISTORY").
Definition STATISTICS : string := key_text (get STORAGE_KEYS "STATISTICS").

Record t : Type := mkStorage { isAvailable : bool }.

Definition defaultSettings : data :=
  Object [ ("workDuration", Number 25); ("breakDuration", Number 5);
           ("soundEnabled", Boolean true); ("darkMode", Boolean false) ].

Definition defaultStats (lastUpdated : string) : data :=
  Object [ ("sessions", Number 0); ("totalMinutes", Number 0);
           ("tasks", Number 0); ("lastUpdated", Str lastUpdated) ].

(** [#checkLocalStorageAvailability()] *)
Definition checkLocalStorageAvailability (env : Env) : Run bool :=
  attempt
    (setItem env "test" (Malformed "test") ;;
     removeItem env "test" ;;
     ret true)
    (fun e =>
       console_warn "localStorage is not available:" e ;;
       ret false).

(** [#initializeStorage()] *)
Definition initializeStorage (env : Env) : Run unit :=
  attempt
    (settings <- getItem env SETTINGS ;;
     (if negb (present settings)
      then setItem env SETTINGS (stringify defaultSettings)
      else ret tt) ;;
     history <- getItem env TASK_HISTORY ;;
     (if negb (present history)
      then setItem env TASK_HISTORY (stringify (Array [] []))
      else ret tt) ;;
     statistics <- getItem env STATISTICS ;;
     (if negb (present statistics)
      then setItem env STATISTICS
             (stringify (defaultStats (iso_text (now env))))
      else ret tt))
    (fun e => console_error "Error initializing storage:" e).

(** [constructor()] *)
Definition new (env : Env) : Run t :=
  available <- checkLocalStorageAvailability env ;;
  (if available then initializeStorage env else ret tt) ;;
  ret (mkStorage available).

(** [#safeJsonParse(data, fallback)] *)
Definition safeJsonParse (item : option text) (fallback : data) : Run data :=
  attempt
    (if present item
     then match item with
          | Some (Json d) => ret d
          | _ => lift (Throws (Error "SyntaxError"))
          end
     else ret fallback)
    (fun e =>
       console_error "Error parsing JSON:" e ;;
       ret fallback).

(** [#getAllStats()] *)
Definition getAllStats (env : Env) : Run data :=
  attempt
    (stats <- getItem env STATISTICS ;;
     safeJsonParse stats (Object []))
    (fun e =>
       console_error "Error getting all stats:" e ;;
       ret (Object [])).

(** [saveSettings(settings)] *)
Definition saveSettings (env : Env) (this : t) (settings : data) : Run bool :=
  if negb (isAvailable this) then ret false
  else
    attempt
      (setItem env SETTINGS (stringify settings) ;;
       ret true)
      (fun e =>
         console_error "Error saving settings:" e ;;
         ret false).

(** [getSettings()] *)
Definition getSettings (env : Env) (this : t) : Run data :=
  if negb (isAvailable this) then ret defaultSettings
  else
    attempt
      (settings <- getItem env SETTINGS ;;
       safeJsonParse settings defaultSettings)
      (fun e =>
         console_error "Error getting settings:" e ;;
         ret defaultSettings).

(** [updateSetting(key, value)] with a text as key *)
Definition updateSetting (env : Env) (this : t) (key : string) (value : data)
  : Run bool :=
  if negb (isAvailable this) then ret false
  else
    attempt
      (settings <- getSettings env this ;;
       settings' <- lift (put settings key value) ;;
       saveSettings env this settings')
      (fun e =>
         console_error "Error updating setting:" e ;;
         ret false).

(** [getAllTasks()] *)
Definition getAllTasks (env : Env) (this : t) : Run data :=
  if negb (isAvailable this) then ret (Array [] [])
  else
    attempt
      (tasks <- getItem env TASK_HISTORY ;;
       safeJsonParse tasks (Array [] []))
      (fun e =>
         console_error "Error getting all tasks:" e ;;
         ret (Array [] [])).

(** [{ ...task, timestamp: ..., date: ... }] *)
Definition taskWithTimestamp (env : Env) (task : data) : data :=
  Object (set "date" (Str (getDateKey env))
            (set "timestamp" (Str (iso_text (now env))) (spread task))).

(** [saveTask(task)] *)
Definition saveTask (env : Env) (this : t) (task : data) : Run bool :=
  if negb (isAvailable this) then ret false
  else
    attempt
      (taskHistory <- getAllTasks env this ;;
       taskHistory' <- lift (push taskHistory (taskWithTimestamp env task)) ;;
       setItem env TASK_HISTORY (stringify taskHistory') ;;
       ret true)
      (fun e =>
         console_error "Error saving task:" e ;;
         ret false).

(** [getTodaysTasks()] *)
Definition getTodaysTasks (env : Env) (this : t) : Run data :=
  if negb (isAvailable this) then ret (Array [] [])
  else
    attempt
      (allTasks <- getAllTasks env this ;;
       let today := getDateKey env in
       lift (array_filter allTasks
               (fun task =>
                  match get_property task "date" with
                  | Returns date => Returns (equals_text date today)
                  | Throws e => Throws e
                  | Beyond => Beyond
                  end)))
      (fun e =>
         console_error "Error getting today's tasks:" e ;;
         ret (Array [] [])).

(** [clearHistory()] *)
Definition clearHistory (env : Env) (this : t) : Run bool :=
  if negb (isAvailable this) then ret false
  else
    attempt
      (setItem env TASK_HISTORY (stringify (Array [] [])) ;;
       ret true)
      (fun e =>
         console_error "Error clearing history:" e ;;
         ret false).

(** [getTasksByDateRange(startDate, endDate)], the dates given by their
    time values: the key of an invalid date throws, after the tasks were
    read *)
Definition getTasksByDateRange (env : Env) (this : t) (startDate endDate : Z)
  : Run data :=
  if negb (isAvailable this) then ret (Array [] [])
  else
    attempt
      (allTasks <- getAllTasks env this ;;
       startKey <- lift (formatDateKey startDate) ;;
       endKey <- lift (formatDateKey endDate) ;;
       lift (array_filter allTasks
               (fun task =>
                  match get_property task "date" with
                  | Returns taskDate =>
                      match at_least taskDate startKey with
                      | Returns true => at_most taskDate endKey
                      | r => r
                      end
                  | Throws e => Throws e
                  | Beyond => Beyond
                  end)))
      (fun e =>
         console_error "Error getting tasks by date range:" e ;;
         ret (Array [] [])).

(** [getTodaysStats()] *)
Definition getTodaysStats (env : Env) (this : t) : Run data :=
  if negb (isAvailable this)
  then ret (defaultStats (iso_text (now env)))
  else
    attempt
      (allStats <- getAllStats env ;;
       let todayKey := getDateKey env in
       today <- lift (get_property allStats todayKey) ;;
       allStats' <-
         (if negb (truthy today)
          then lift (put allStats todayKey
                       (defaultStats (iso_text (now env))))
          else ret allStats) ;;
       lift (get_property allStats' todayKey))
      (fun e =>
         console_error "Error getting today's stats:" e ;;
         ret (defaultStats (iso_text (now env)))).

(** [incrementSessionCount()] *)
Definition incrementSessionCount (env : Env) (this : t) : Run bool :=
  if negb (isAvailable this) then ret false
  else
    attempt
      (stats <- getTodaysStats env this ;;
       sessions <- lift (get_property stats "sessions") ;;
       sessions' <- lift (add_one sessions) ;;
       stats1 <- lift (put stats "sessions" sessions') ;;
       stats2 <- lift (put stats1 "lastUpdated"
                         (Str (iso_text (now env)))) ;;
       allStats <- getAllStats env ;;
       let todayKey := getDateKey env in
       allStats' <- lift (put allStats todayKey stats2) ;;
       setItem env STATISTICS (stringify allStats') ;;
       ret true)
      (fun e =>
         console_error "Error incrementing session count:" e ;;
         ret false).

(** The body of the loop of [getWeeklyStats()], for the days [i] before
    today, the most distant first; [date] may leave the range of
    [Date]. *)
Fixpoint week (allStats : data) (today : Z) (days : list Z)
  (weeklyStats : data) : outcome data :=
  match days with
  | [] => Returns weeklyStats
  | i :: days' =>
      let date := today - i * ms_per_day in
      match formatDateKey date with
      | Returns dateKey =>
          match get_property allStats dateKey with
          | Returns stored =>
              match (if truthy stored then Returns stored
                     else match toISOString date with
                          | Returns lastUpdated =>
                              Returns (defaultStats lastUpdated)
                          | Throws e => Throws e
                          | Beyond => Beyond
                          end) with
              | Returns entry =>
                  match put weeklyStats dateKey entry with
                  | Returns weeklyStats' =>
                      week allStats today days' weeklyStats'
                  | r => r
                  end
              | r => r
              end
          | r => r
          end
      | Throws e => Throws e
      | Beyond => Beyond
      end
  end.

(** [getWeeklyStats()] *)
Definition getWeeklyStats (env : Env) (this : t) : Run data :=
  if negb (isAvailable this) then ret (Object [])
  else
    attempt
      (allStats <- getAllStats env ;;
       lift (week allStats (now env) [6; 5; 4; 3; 2; 1; 0] (Object [])))
      (fun e =>
         console_error "Error getting weekly stats:" e ;;
         ret (Object [])).

(** [resetDailyStats()] *)
Definition resetDailyStats (env : Env) (this : t) : Run bool :=
  if negb (isAvailable this) then ret false
  else
    attempt
      (allStats <- getAllStats env ;;
       let todayKey := getDateKey env in
       allStats' <- lift (put allStats todayKey
                            (defaultStats (iso_text (now env)))) ;;
       setItem env STATISTICS (stringify allStats') ;;
       ret true)
      (fun e =>
         console_error "Error resetting daily stats:" e ;;
         ret false).

(** *** Histories of calls *)

Inductive Op : Type :=
| Construct
| SaveSettings (settings : data)
| GetSettings
| UpdateSetting (key : string) (value : data)
| SaveTask (task : data)
| GetTodaysTasks
| GetAllTasks
| ClearHistory
| GetTasksByDateRange (startDate endDate : Z)
| IncrementSessionCount
| GetTodaysStats
| GetWeeklyStats
| ResetDailyStats.

(** The host after a call on an instance. *)
Definition after (call : Env * t * Op) (h : Host) : Host :=
  let '(env, this, op) := call in
  match op with
  | Construct => snd (new env h)
  | SaveSettings settings => snd (saveSettings env this settings h)
  | GetSettings => snd (getSettings env this h)
  | UpdateSetting key value => snd (updateSetting env this key value h)
  | SaveTask task => snd (saveTask env this task h)
  | GetTodaysTasks => snd (getTodaysTasks env this h)
  | GetAllTasks => snd (getAllTasks env this h)
  | ClearHistory => snd (clearHistory env this h)
  | GetTasksByDateRange startDate endDate =>
      snd (getTasksByDateRange env this startDate endDate h)
  | IncrementSessionCount => snd (incrementSessionCount env this h)
  | GetTodaysStats => snd (getTodaysStats env this h)
  | GetWeeklyStats => snd (getWeeklyStats env this h)
  | ResetDailyStats => snd (resetDailyStats env this h)
  end.

Definition run (calls : list (Env * t * Op)) (h : Host) : Host :=
  fold_left (fun h call => after call h) calls h.

(** The methods that only read. *)
Definition reading (op : Op) : bool :=
  match op with
  | GetSettings | GetTodaysTasks | GetAllTasks | GetTasksByDateRange _ _
  | GetTodaysStats | GetWeeklyStats => true
  | _ => false
  end.

(** A task filed on the day of a date key. *)
Definition on_day (key : string) (d : data) : bool :=
  match d with
  | Object properties =>
      match own properties "date" with
      | Some date => equals_text date key
      | None => false
      end
  | _ => false
  end.

(** A task filed on a day from one date key to another, in the order of
    the texts. *)
Definition in_range (startKey endKey : string) (d : data) : bool :=
  match d with
  | Object properties =>
      match own properties "date" with
      | Some (Str date) =>
          negb (String.ltb date startKey) && String.leb date endKey
      | _ => false
      end
  | _ => false
  end.

(** A task as [saveTask] files it: an object that has the date key of
    its day, and that reads back from its text as it is. *)
Definition filed (d : data) : Prop :=
  exists properties key,
    d = Object properties /\ own properties "date" = Some (Str key) /\
    revive d = d.

(** The text under the key of the history is that of an array of filed
    tasks. *)
Definition history_is_array (h : Host) : Prop :=
  exists tasks,
    own (items h) TASK_HISTORY = Some (Json (Array tasks [])) /\
    Forall filed tasks.

(** *** Vocabulary of the properties *)

(** The characters of a date key. *)
Definition date_char (c : ascii) : bool :=
  is_digit c || Ascii.eqb c "+" || Ascii.eqb c "-".

Fixpoint all_chars (p : ascii -> bool) (s : string) : bool :=
  match s with
  | EmptyString => true
  | String c s' => p c && all_chars p s'
  end.

(** What [JSON.stringify] and [JSON.parse] make of an element of an
    array. *)
Definition revive_element (e : data) : data :=
  match e with
  | Undefined => Null
  | _ => revive e
  end.

(** A computation that leaves the items of [localStorage] as they are;
    one that leaves the text of the history as it is. *)
Definition quiet {A} (m : Run A) : Prop :=
  forall h, items (snd (m h)) = items h.

Definition keeps {A} (m : Run A) : Prop :=
  forall h,
    own (items (snd (m h))) TASK_HISTORY = own (items h) TASK_HISTORY.

(** The items after the constructor, when [localStorage] works. *)
Definition initialised (i : object text) : object text :=
  let i1 := remove "test" (set "test" (Malformed "test") i) in
  let i2 := if present (own i1 SETTINGS) then i1
            else set SETTINGS (Json defaultSettings) i1 in
  if present (own i2 TASK_HISTORY) then i2
  else set TASK_HISTORY (Json (Array [] [])) i2.

End Storage.

(** * Proofs *)

(** ** JavaScript equality *)

Lemma strict_eq_true (a b : value) : strict_eq a b = true -> a = b.
Proof.
  destruct a, b; simpl; try discriminate; intros H; try reflexivity.
  - apply Bool.eqb_prop in H. now subst.
  - apply Z.eqb_eq in H. now subst.
  - apply String.eqb_eq in H. now subst.
Qed.

(** ** The observer loops, proved *)

Lemma guarded_call (label : string) (cb : Callback) (args : Args)
  (w : World) :
  try_catch (call cb args) (console_error label) w
  = (Normal tt, mkWorld (timer w) (notified label [cb] args (host w))).
Proof.
  unfold try_catch, call, bind, modify_host, console_error, ret, throw,
    notified, fired, caught.
  cbn [timer host map flat_map add_trace add_console next_handle intervals
       trace console].
  destruct (cb_body cb args); cbn [app]; now rewrite ?app_nil_r.
Qed.

Lemma notified_cons (label : string) (cb : Callback)
  (cbs : list Callback) (args : Args) (h : Host) :
  notified label cbs args (notified label [cb] args h)
  = notified label (cb :: cbs) args h.
Proof.
  unfold notified, fired, caught.
  cbn [map flat_map next_handle intervals trace console].
  destruct (cb_body cb args); cbn [app]; now rewrite <- !app_assoc, ?app_nil_r.
Qed.

Lemma forEach_guarded (label : string) (args : Timer -> Args)
  (cbs : list Callback) :
  forall w,
    forEach cbs (fun callback => fun w2 =>
      try_catch (call callback (args (timer w2))) (console_error label) w2) w
    = (Normal tt,
       mkWorld (timer w) (notified label cbs (args (timer w)) (host w))).
Proof.
  induction cbs as [|cb cbs IH]; intros w.
  - unfold notified, fired, caught; simpl. unfold ret.
    rewrite !app_nil_r. now destruct w as [t [n i tr c]].
  - cbn [forEach]. unfold bind. rewrite guarded_call, IH.
    cbn [timer host]. now rewrite notified_cons.
Qed.

Lemma forEach_guarded_const (label : string) (args : Args)
  (cbs : list Callback) (w : World) :
  forEach cbs (fun callback =>
    try_catch (call callback args) (console_error label)) w
  = (Normal tt, mkWorld (timer w) (notified label cbs args (host w))).
Proof. exact (forEach_guarded label (fun _ => args) cbs w). Qed.

(** An unguarded loop, for contrast: the first exception ends it. *)

Lemma forEach_unguarded_stops (cb : Callback) (cbs : list Callback)
  (args : Args) (e : error) (w : World) :
  cb_body cb args = Some e ->
  forEach (cb :: cbs) (fun callback => call callback args) w
  = (Throw e, mkWorld (timer w) (add_trace [(cb_id cb, args)] (host w))).
Proof.
  intros Hb. cbn [forEach]. unfold bind, call, modify_host, throw.
  now rewrite Hb.
Qed.

Lemma setState_eq (s : value) (w : World) :
  setState s w = (Normal tt, setState_w s w).
Proof.
  unfold setState, setState_w.
  destruct (strict_eq (state (timer w)) s); [reflexivity|].
  unfold bind, modify_timer. rewrite forEach_guarded_const. reflexivity.
Qed.

Lemma stop_interval_eq (w : World) :
  stop_interval w = (Normal tt, stop_w w).
Proof.
  unfold stop_interval, stop_w, intervalId_truthy.
  destruct (intervalId (timer w)) as [[|n]|]; reflexivity.
Qed.

Lemma priv_complete_eq (w : World) :
  priv_complete w = (Normal tt, complete_w w).
Proof.
  unfold priv_complete, complete_w, bind.
  rewrite stop_interval_eq, setState_eq, forEach_guarded_const.
  reflexivity.
Qed.

Lemma priv_tick_eq (w : World) : priv_tick w = (Normal tt, tick_w w).
Proof.
  unfold priv_tick, tick_w.
  destruct (remainingTime (timer w) <=? 0); [apply priv_complete_eq|].
  unfold bind, modify_timer.
  rewrite (forEach_guarded "Error in tick callback:"
             (fun t => TickArgs (fst (getRemainingTime t))
                         (snd (getRemainingTime t)) (getProgress t))).
  reflexivity.
Qed.

Lemma start_eq (w : World) : start w = (Normal tt, start_w w).
Proof.
  unfold start, start_w.
  destruct (strict_eq (state (timer w)) RUNNING); [reflexivity|].
  unfold bind. rewrite setState_eq. reflexivity.
Qed.

Lemma pause_eq (w : World) : pause w = (Normal tt, pause_w w).
Proof.
  unfold pause, pause_w.
  destruct (strict_eq (state (timer w)) RUNNING); cbn [negb]; [|reflexivity].
  unfold bind. rewrite setState_eq. apply stop_interval_eq.
Qed.

Lemma reset_eq (w : World) : reset w = (Normal tt, reset_w w).
Proof.
  unfold reset, reset_w, bind, modify_timer.
  rewrite setState_eq. apply stop_interval_eq.
Qed.

Lemma setDuration_eq (s : Z) (w : World) :
  setDuration s w = (Normal tt, setDuration_w s w).
Proof.
  unfold setDuration, setDuration_w, bind, modify_timer. apply reset_eq.
Qed.

Lemma clock_eq (w : World) : clock w = (Normal tt, clock_w w).
Proof.
  unfold clock, clock_w. generalize (intervals (host w)) as ids.
  intros ids. revert w.
  induction ids as [|id ids IH]; intros w; [reflexivity|].
  cbn [forEach fire]. unfold bind.
  destruct (existsb (Nat.eqb id) (intervals (host w))).
  - rewrite priv_tick_eq. apply IH.
  - apply IH.
Qed.

Lemma on_eq (event : string) (cb : Callback) (w : World) :
  on event cb w
  = (match callbacks_get event with
     | Inherited =>
         Throw (TypeError "this.#callbacks[event].push is not a function")
     | _ => Normal tt
     end, on_w event cb w).
Proof.
  unfold on, on_w.
  destruct (callbacks_get event); destruct w as [[d r s i c] h];
    reflexivity.
Qed.

Lemma after_eq (op : Op) (w : World) : after op w = after_w op w.
Proof.
  unfold after. destruct op; cbn [exec after_w].
  - now rewrite start_eq.
  - now rewrite pause_eq.
  - now rewrite reset_eq.
  - now rewrite setDuration_eq.
  - now rewrite on_eq.
  - now rewrite clock_eq.
Qed.

Lemma run_app (ops1 ops2 : list Op) (w : World) :
  run (ops1 ++ ops2) w = run ops2 (run ops1 w).
Proof. apply fold_left_app. Qed.

Lemma reachable_run (ops : list Op) (w : World) :
  reachable w -> reachable (run ops w).
Proof.
  revert w. induction ops as [|op ops IH]; intros w Hw; [exact Hw|].
  apply IH. now constructor.
Qed.

(** ** Invariants of the engine *)

Lemma Inv_new (d : Z) : Inv (World_new d).
Proof.
  constructor; cbn; try lia; try discriminate; auto.
Qed.

Ltac world_cases w H :=
  let Hs := fresh "Hs" in
  destruct H as [Hs Hrun Hstop Hh Hpos Hnp Hcomp];
  destruct w as [[d r s i c] [nh ivs tr co]];
  cbn [timer host state duration remainingTime intervalId callbacks
       next_handle intervals trace console] in *;
  destruct Hs as [Hs|[Hs|[Hs|Hs]]]; subst s;
  [ destruct Hstop as [-> ->]; [discriminate|]
  | destruct (Hrun eq_refl) as [n0 [-> ->]]
  | destruct Hstop as [-> ->]; [discriminate|]
  | destruct Hstop as [-> ->]; [discriminate|] ].

Ltac inv_solve :=
  constructor; cbn; rewrite ?Nat.eqb_refl; cbn;
  try lia; try discriminate; eauto;
  intros; try (exfalso; congruence); eauto;
  match goal with
  | Hh : (1 <= ?nh)%nat |- exists n, Some ?nh = Some (S n) /\ _ =>
      destruct nh; [lia | eauto]
  end.

Lemma Inv_step (op : Op) (w : World) : Inv w -> Inv (after op w).
Proof.
  intros H. rewrite after_eq.
  destruct op; cbn [after_w].
  - world_cases w H; inv_solve.
  - world_cases w H; inv_solve.
  - world_cases w H; inv_solve.
  - world_cases w H; inv_solve.
  - destruct H as [Hs Hrun Hstop Hh Hpos Hnp Hcomp].
    destruct w as [[d r s i c] h]. constructor; auto.
  - world_cases w H; unfold clock_w; cbn [fire host intervals existsb];
      rewrite ?Nat.eqb_refl; cbn [orb]; try (inv_solve; fail).
    unfold tick_w. cbn [timer remainingTime].
    destruct (r <=? 0) eqn:Hr.
    + apply Z.leb_le in Hr. inv_solve.
    + apply Z.leb_gt in Hr. inv_solve.
Qed.

Lemma reachable_Inv (w : World) : reachable w -> Inv w.
Proof.
  induction 1 as [d|op w Hw IH]; [apply Inv_new|now apply Inv_step].
Qed.


(** ** Properties of the Timer engine *)

(** C8. [reset()] is idempotent: from every world, a reset leaves the
    engine Idle with the remaining time equal to the duration, and a
    second reset in a row returns normally and changes nothing, so the
    engine is again Idle with the remaining time equal to the duration. *)
Theorem reset_idempotent (w : World) :
  exec Reset w = (Normal tt, after Reset w) /\
  state (timer (after Reset w)) = IDLE /\
  remainingTime (timer (after Reset w)) = duration (timer (after Reset w)) /\
  exec Reset (after Reset w) = (Normal tt, after Reset w) /\
  state (timer (after Reset (after Reset w))) = IDLE /\
  remainingTime (timer (after Reset (after Reset w)))
  = duration (timer (after Reset (after Reset w))).
Proof.
  assert (H1 : state (timer (reset_w w)) = IDLE /\
               remainingTime (timer (reset_w w))
               = duration (timer (reset_w w))).
  { destruct w as [[d r s i c] h]. unfold reset_w, setState_w, stop_w.
    cbn [timer host duration state set_remainingTime].
    destruct (strict_eq s IDLE) eqn:Hs.
    - apply strict_eq_true in Hs. subst s.
      destruct i as [[|n]|]; split; reflexivity.
    - destruct i as [[|n]|]; split; reflexivity. }
  assert (H2 : reset_w (reset_w w) = reset_w w).
  { destruct w as [[d r s i c] h]. unfold reset_w, setState_w, stop_w.
    cbn [timer host duration state set_remainingTime].
    destruct (strict_eq s IDLE) eqn:Hs.
    - apply strict_eq_true in Hs. subst s.
      destruct i as [[|n]|]; reflexivity.
    - destruct i as [[|n]|]; reflexivity. }
  rewrite !after_eq. cbn [after_w exec]. rewrite !reset_eq, H2. tauto.
Qed.



(** C10. Registering under a name that the callbacks object inherits
    from [Object.prototype] is not silent: [on('toString', cb)] and
    [on('constructor', cb)] throw a [TypeError], on every timer and for
    every callback (nothing is registered). *)
Theorem on_inherited_name_throws (cb : Callback) (w : World) :
  exec (On "toString" cb) w
  = (Throw (TypeError "this.#callbacks[event].push is not a function"), w) /\
  exec (On "constructor" cb) w
  = (Throw (TypeError "this.#callbacks[event].push is not a function"), w).
Proof. split; reflexivity. Qed.

(** For a name that is neither an event nor inherited, [on] is a no-op. *)
Lemma on_absent_noop (event : string) (cb : Callback) (w : World) :
  callbacks_get event = Absent -> exec (On event cb) w = (Normal tt, w).
Proof. intros H. cbn [exec]. unfold on. now rewrite H. Qed.

Lemma on_absent_example (cb : Callback) (w : World) :
  exec (On "expired" cb) w = (Normal tt, w).
Proof. reflexivity. Qed.

(** ** Observer failures are isolated *)

Lemma fired_quiet (cbs : list Callback) (args : Args) :
  fired (map quiet cbs) args = fired cbs args.
Proof. unfold fired. rewrite map_map. reflexivity. Qed.

Lemma caught_quiet (label : string) (cbs : list Callback) (args : Args) :
  caught label (map quiet cbs) args = [].
Proof. induction cbs as [|cb cbs IH]; [reflexivity|exact IH]. Qed.

Lemma notified_quiet (label : string) (cbs : list Callback) (args : Args)
  (t : Timer) (h : Host) :
  quiet_world (mkWorld t (notified label cbs args h))
  = mkWorld (timer (quiet_world (mkWorld t h)))
      (notified label (map quiet cbs) args (host (quiet_world (mkWorld t h)))).
Proof.
  unfold quiet_world, notified. cbn [timer host next_handle intervals trace
    console]. now rewrite fired_quiet, caught_quiet.
Qed.

Lemma setState_w_quiet (s : value) (w : World) :
  quiet_world (setState_w s w) = setState_w s (quiet_world w).
Proof.
  destruct w as [[d r s0 i c] h]. unfold setState_w.
  cbn [timer host state quiet_world set_callbacks].
  destruct (strict_eq s0 s); [reflexivity|].
  rewrite notified_quiet. reflexivity.
Qed.

Lemma stop_w_quiet (w : World) :
  quiet_world (stop_w w) = stop_w (quiet_world w).
Proof.
  destruct w as [[d r s0 i c] h]. unfold stop_w.
  cbn [timer host intervalId quiet_world set_callbacks].
  destruct i as [[|n]|]; reflexivity.
Qed.

Lemma complete_w_quiet (w : World) :
  quiet_world (complete_w w) = complete_w (quiet_world w).
Proof.
  unfold complete_w. cbv zeta.
  rewrite <- stop_w_quiet, <- setState_w_quiet.
  destruct (setState_w COMPLETED (stop_w w)) as [t h].
  rewrite notified_quiet. reflexivity.
Qed.

Lemma tick_w_quiet (w : World) :
  quiet_world (tick_w w) = tick_w (quiet_world w).
Proof.
  unfold tick_w. cbv zeta.
  replace (remainingTime (timer (quiet_world w)))
    with (remainingTime (timer w)) by now destruct w as [[d r s0 i c] h].
  destruct (remainingTime (timer w) <=? 0); [apply complete_w_quiet|].
  rewrite notified_quiet. destruct w as [[d r s0 i c] h]. reflexivity.
Qed.

Lemma start_w_quiet (w : World) :
  quiet_world (start_w w) = start_w (quiet_world w).
Proof.
  unfold start_w.
  replace (state (timer (quiet_world w)))
    with (state (timer w)) by now destruct w as [[d r s0 i c] h].
  destruct (strict_eq (state (timer w)) RUNNING); [reflexivity|].
  rewrite <- setState_w_quiet.
  now destruct (setState_w RUNNING w) as [[d r s0 i c] h].
Qed.

Lemma pause_w_quiet (w : World) :
  quiet_world (pause_w w) = pause_w (quiet_world w).
Proof.
  unfold pause_w.
  replace (state (timer (quiet_world w)))
    with (state (timer w)) by now destruct w as [[d r s0 i c] h].
  destruct (strict_eq (state (timer w)) RUNNING); [|reflexivity].
  now rewrite stop_w_quiet, setState_w_quiet.
Qed.

Lemma reset_w_quiet (w : World) :
  quiet_world (reset_w w) = reset_w (quiet_world w).
Proof.
  unfold reset_w. rewrite stop_w_quiet, setState_w_quiet.
  now destruct w as [[d r s0 i c] h].
Qed.

Lemma setDuration_w_quiet (s : Z) (w : World) :
  quiet_world (setDuration_w s w) = setDuration_w s (quiet_world w).
Proof.
  unfold setDuration_w. rewrite reset_w_quiet.
  now destruct w as [[d r s0 i c] h].
Qed.

Lemma on_w_quiet (event : string) (cb : Callback) (w : World) :
  quiet_world (on_w event cb w) = on_w event (quiet cb) (quiet_world w).
Proof.
  destruct w as [[d r s0 i [tk cp sc]] h]. unfold on_w, quiet_world.
  cbn [timer host callbacks set_callbacks].
  destruct (callbacks_get event);
    unfold set_callbacks, quiet_callbacks, push_callback; cbn;
    rewrite ?map_app; reflexivity.
Qed.

Lemma fire_quiet (ids : list nat) :
  forall w, quiet_world (fire ids w) = fire ids (quiet_world w).
Proof.
  induction ids as [|id ids IH]; intros w; [reflexivity|].
  cbn [fire]. rewrite IH.
  replace (intervals (host (quiet_world w))) with (intervals (host w))
    by reflexivity.
  destruct (existsb (Nat.eqb id) (intervals (host w)));
    [now rewrite tick_w_quiet|reflexivity].
Qed.

Lemma after_w_quiet (op : Op) (w : World) :
  quiet_world (after_w op w) = after_w (quiet_op op) (quiet_world w).
Proof.
  destruct op; cbn [after_w quiet_op].
  - apply start_w_quiet.
  - apply pause_w_quiet.
  - apply reset_w_quiet.
  - apply setDuration_w_quiet.
  - apply on_w_quiet.
  - unfold clock_w. rewrite fire_quiet. reflexivity.
Qed.

Lemma exec_status (op : Op) (w : World) :
  fst (exec op w)
  = match op with
    | On e _ =>
        match callbacks_get e with
        | Inherited =>
            Throw (TypeError "this.#callbacks[event].push is not a function")
        | _ => Normal tt
        end
    | _ => Normal tt
    end.
Proof.
  destruct op; cbn [exec].
  - now rewrite start_eq.
  - now rewrite pause_eq.
  - now rewrite reset_eq.
  - now rewrite setDuration_eq.
  - now rewrite on_eq.
  - now rewrite clock_eq.
Qed.

Lemma same_engine_quiet (w : World) : same_engine w (quiet_world w).
Proof. unfold same_engine. now destruct w as [[d r s0 i c] h]. Qed.

(** C4. Whatever the registered observers do, in every world:
    - a loop of the shape of the three loops of [Timer.js] (each
      callback in its own [try]/[catch]) returns normally, leaves the
      timer untouched and invokes all the callbacks of the list in
      registration order, the throwing ones and those after them
      included;
    - the dispatch of [tick] by [#tick()], when time is left, returns
      normally, takes one second off and invokes every tick observer
      once, in registration order, each with the time that is left;
      what an observer throws is logged, one entry per throwing
      observer, and changes nothing else;
    - the dispatch of [complete] by [#complete()] returns normally,
      leaves the engine Completed with its duration and remaining time
      as they were, and invokes every stateChange observer (if the
      state was another) and then every complete observer, in
      registration order;
    - the dispatch of [stateChange] by [#setState(s)] returns normally,
      leaves the state [s] and invokes every stateChange observer with
      the new and the old state, if they differ;
    - a tick of the clock with one interval scheduled is [#tick()], and
      [#tick()] with no time left is [#complete()];
    - every operation completes as it does when no callback throws
      (normally, for every operation of the engine other than [on]), and
      the private fields, the scheduler and the order of invocations
      after it are those of the run in which no callback throws. *)
Theorem observer_failure_isolated (op : Op) (w : World) :
  (forall label (args : Timer -> Args) cbs w0,
     forEach cbs (fun callback => fun w2 =>
       try_catch (call callback (args (timer w2))) (console_error label) w2)
       w0
     = (Normal tt,
        mkWorld (timer w0)
          (notified label cbs (args (timer w0)) (host w0))) /\
     trace (notified label cbs (args (timer w0)) (host w0))
     = (trace (host w0)
        ++ map (fun cb => (cb_id cb, args (timer w0))) cbs)%list) /\
  (0 < remainingTime (timer w) ->
   let t := set_remainingTime (remainingTime (timer w) - 1) (timer w) in
   let args := TickArgs (fst (getRemainingTime t)) (snd (getRemainingTime t))
                 (getProgress t) in
   fst (priv_tick w) = Normal tt /\
   timer (snd (priv_tick w)) = t /\
   trace (host (snd (priv_tick w)))
   = (trace (host w)
      ++ map (fun cb => (cb_id cb, args))
           (tick (callbacks (timer w))))%list /\
   console (host (snd (priv_tick w)))
   = (console (host w)
      ++ caught "Error in tick callback:" (tick (callbacks (timer w)))
           args)%list /\
   intervals (host (snd (priv_tick w))) = intervals (host w)) /\
  (fst (priv_complete w) = Normal tt /\
   state (timer (snd (priv_complete w))) = COMPLETED /\
   duration (timer (snd (priv_complete w))) = duration (timer w) /\
   remainingTime (timer (snd (priv_complete w)))
   = remainingTime (timer w) /\
   callbacks (timer (snd (priv_complete w))) = callbacks (timer w) /\
   trace (host (snd (priv_complete w)))
   = (trace (host w)
      ++ (if strict_eq (state (timer w)) COMPLETED then []
          else map (fun cb =>
                      (cb_id cb,
                       StateChangeArgs COMPLETED (state (timer w))))
                 (stateChange (callbacks (timer w))))
      ++ map (fun cb => (cb_id cb, CompleteArgs))
           (complete (callbacks (timer w))))%list /\
   console (host (snd (priv_complete w)))
   = (console (host w)
      ++ (if strict_eq (state (timer w)) COMPLETED then []
          else caught "Error in stateChange callback:"
                 (stateChange (callbacks (timer w)))
                 (StateChangeArgs COMPLETED (state (timer w))))
      ++ caught "Error in complete callback:"
           (complete (callbacks (timer w))) CompleteArgs)%list) /\
  (forall s,
     fst (setState s w) = Normal tt /\
     state (timer (snd (setState s w))) = s /\
     duration (timer (snd (setState s w))) = duration (timer w) /\
     remainingTime (timer (snd (setState s w))) = remainingTime (timer w) /\
     trace (host (snd (setState s w)))
     = (trace (host w)
        ++ if strict_eq (state (timer w)) s then []
           else map (fun cb =>
                       (cb_id cb, StateChangeArgs s (state (timer w))))
                  (stateChange (callbacks (timer w))))%list /\
     console (host (snd (setState s w)))
     = (console (host w)
        ++ if strict_eq (state (timer w)) s then []
           else caught "Error in stateChange callback:"
                  (stateChange (callbacks (timer w)))
                  (StateChangeArgs s (state (timer w))))%list) /\
  (forall id, intervals (host w) = [id] -> exec ClockTick w = priv_tick w) /\
  (remainingTime (timer w) <= 0 -> priv_tick w = priv_complete w) /\
  fst (exec op w) = fst (exec (quiet_op op) (quiet_world w)) /\
  match op with On _ _ => True | _ => fst (exec op w) = Normal tt end /\
  same_engine (after op w) (after (quiet_op op) (quiet_world w)).
Proof.
  assert (Hset : forall s,
             fst (setState s w) = Normal tt /\
             state (timer (snd (setState s w))) = s /\
             duration (timer (snd (setState s w))) = duration (timer w) /\
             remainingTime (timer (snd (setState s w)))
             = remainingTime (timer w) /\
             trace (host (snd (setState s w)))
             = (trace (host w)
                ++ if strict_eq (state (timer w)) s then []
                   else map (fun cb =>
                               (cb_id cb,
                                StateChangeArgs s (state (timer w))))
                          (stateChange (callbacks (timer w))))%list /\
             console (host (snd (setState s w)))
             = (console (host w)
                ++ if strict_eq (state (timer w)) s then []
                   else caught "Error in stateChange callback:"
                          (stateChange (callbacks (timer w)))
                          (StateChangeArgs s (state (timer w))))%list).
  { intros s. rewrite setState_eq. cbn [fst snd]. unfold setState_w.
    destruct (strict_eq (state (timer w)) s) eqn:E.
    - apply strict_eq_true in E. rewrite !app_nil_r. repeat split; easy.
    - destruct w as [[d r s0 i c] h]. cbn. repeat split. }
  split; [|split; [|split; [|split; [exact Hset|]]]].
  - intros label args cbs w0. split; [apply forEach_guarded|].
    reflexivity.
  - intros Hr t args. rewrite priv_tick_eq. cbn [fst snd].
    unfold tick_w.
    destruct (remainingTime (timer w) <=? 0) eqn:E;
      [apply Z.leb_le in E; lia|].
    destruct w as [[d r s0 i c] h]. cbn. repeat split.
  - rewrite priv_complete_eq. cbn [fst snd]. unfold complete_w. cbv zeta.
    unfold setState_w.
    replace (state (timer (stop_w w))) with (state (timer w))
      by (unfold stop_w; now destruct (intervalId (timer w)) as [[|n]|]).
    destruct (strict_eq (state (timer w)) COMPLETED) eqn:E.
    + apply strict_eq_true in E.
      unfold stop_w. destruct w as [[d r s0 i c] h].
      cbn [timer state] in E. subst s0.
      destruct i as [[|n]|]; cbn; rewrite ?app_nil_r; repeat split.
    + unfold stop_w. destruct w as [[d r s0 i c] h].
      destruct i as [[|n]|]; cbn; rewrite <- ?app_assoc; repeat split.
  - split; [|split].
    + intros id Hi. unfold exec, clock. rewrite Hi. cbn [forEach].
      unfold bind. rewrite Hi. cbn [existsb]. rewrite Nat.eqb_refl.
      cbn [orb]. rewrite priv_tick_eq. reflexivity.
    + intros Hr. unfold priv_tick.
      destruct (remainingTime (timer w) <=? 0) eqn:E; [reflexivity|].
      apply Z.leb_gt in E. lia.
    + split; [|split].
      * rewrite !exec_status. destruct op; reflexivity.
      * rewrite exec_status. destruct op; reflexivity || exact I.
      * rewrite !after_eq, <- after_w_quiet. apply same_engine_quiet.
Qed.

(** A tick dispatched to a throwing observer followed by a sound one:
    both are invoked, in registration order, and the countdown goes on. *)
Example faulty_observer_dispatch :
  let boom := mkCallback 1 (fun _ => Some (Error "boom")) in
  let fine := mkCallback 2 (fun _ => None) in
  let w := run [Start; ClockTick] (observed 3 [boom; fine] [] []) in
  remainingTime (timer w) = 2 /\ state (timer w) = RUNNING /\
  map fst (trace (host w)) = [1%nat; 2%nat] /\
  console (host w) = [("Error in tick callback:", Error "boom")].
Proof. repeat split. Qed.

(** ** The state machine *)

Lemma run_cons (op : Op) (ops : list Op) (w : World) :
  run (op :: ops) w = run ops (after op w).
Proof. reflexivity. Qed.

Lemma observed_reachable (d : Z) (ticks completes changes : list Callback) :
  observed d ticks completes changes
  = run (register ticks completes changes) (World_new d).
Proof.
  unfold register, observed, World_new, Timer_new.
  assert (Ht : forall l ct cc cs h,
    run (map (On "tick") l) (mkWorld (mkTimer d d IDLE None
                                        (mkCallbacks ct cc cs)) h)
    = mkWorld (mkTimer d d IDLE None (mkCallbacks (ct ++ l) cc cs)) h).
  { induction l as [|x l IH]; intros; cbn [map].
    - cbn [run fold_left]. now rewrite app_nil_r.
    - rewrite run_cons, after_eq. cbn [after_w]. unfold on_w, set_callbacks.
      cbn [timer host callbacks duration remainingTime state intervalId].
      change (callbacks_get "tick") with OwnTick.
      cbn [push_callback tick complete stateChange].
      rewrite IH. now rewrite <- app_assoc. }
  assert (Hc : forall l ct cc cs h,
    run (map (On "complete") l) (mkWorld (mkTimer d d IDLE None
                                            (mkCallbacks ct cc cs)) h)
    = mkWorld (mkTimer d d IDLE None (mkCallbacks ct (cc ++ l) cs)) h).
  { induction l as [|x l IH]; intros; cbn [map].
    - cbn [run fold_left]. now rewrite app_nil_r.
    - rewrite run_cons, after_eq. cbn [after_w]. unfold on_w, set_callbacks.
      cbn [timer host callbacks duration remainingTime state intervalId].
      change (callbacks_get "complete") with OwnComplete.
      cbn [push_callback tick complete stateChange].
      rewrite IH. now rewrite <- app_assoc. }
  assert (Hs : forall l ct cc cs h,
    run (map (On "stateChange") l) (mkWorld (mkTimer d d IDLE None
                                               (mkCallbacks ct cc cs)) h)
    = mkWorld (mkTimer d d IDLE None (mkCallbacks ct cc (cs ++ l))) h).
  { induction l as [|x l IH]; intros; cbn [map].
    - cbn [run fold_left]. now rewrite app_nil_r.
    - rewrite run_cons, after_eq. cbn [after_w]. unfold on_w, set_callbacks.
      cbn [timer host callbacks duration remainingTime state intervalId].
      change (callbacks_get "stateChange") with OwnStateChange.
      cbn [push_callback tick complete stateChange].
      rewrite IH. now rewrite <- app_assoc. }
  rewrite !run_app, Ht, Hc, Hs. reflexivity.
Qed.




(** ** The countdown *)

Lemma count_tick_app (a b : list (nat * Args)) :
  count_tick (a ++ b) = (count_tick a + count_tick b)%nat.
Proof. unfold count_tick. now rewrite filter_app, length_app. Qed.

Lemma count_complete_app (a b : list (nat * Args)) :
  count_complete (a ++ b) = (count_complete a + count_complete b)%nat.
Proof. unfold count_complete. now rewrite filter_app, length_app. Qed.

Lemma count_tick_fired (cbs : list Callback) (args : Args) :
  count_tick (fired cbs args)
  = match args with TickArgs _ _ _ => List.length cbs | _ => 0%nat end.
Proof.
  unfold count_tick, fired.
  induction cbs as [|cb cbs IH]; [now destruct args|].
  destruct args; cbn in *; now rewrite ?IH.
Qed.

Lemma count_complete_fired (cbs : list Callback) (args : Args) :
  count_complete (fired cbs args)
  = match args with CompleteArgs => List.length cbs | _ => 0%nat end.
Proof.
  unfold count_complete, fired.
  induction cbs as [|cb cbs IH]; [now destruct args|].
  destruct args; cbn in *; now rewrite ?IH.
Qed.

Lemma count_tick_countdown (cbs : list Callback) (d : Z) (k : nat) :
  forall r, count_tick (countdown_trace cbs d r k)
            = (k * List.length cbs)%nat.
Proof.
  induction k as [|k IH]; intros r; [reflexivity|].
  cbn [countdown_trace]. rewrite count_tick_app, IH, count_tick_fired.
  unfold tick_args. cbn. lia.
Qed.

Lemma count_complete_countdown (cbs : list Callback) (d : Z) (k : nat) :
  forall r, count_complete (countdown_trace cbs d r k) = 0%nat.
Proof.
  induction k as [|k IH]; intros r; [reflexivity|].
  cbn [countdown_trace]. rewrite count_complete_app, IH, count_complete_fired.
  reflexivity.
Qed.

(** [k] ticks of a Running timer that has at least [k] seconds left. *)
Lemma countdown_running (k : nat) :
  forall w n,
    state (timer w) = RUNNING ->
    intervalId (timer w) = Some (S n) ->
    intervals (host w) = [S n] ->
    Z.of_nat k <= remainingTime (timer w) ->
    timer (run (repeat ClockTick k) w)
    = set_remainingTime (remainingTime (timer w) - Z.of_nat k) (timer w) /\
    intervals (host (run (repeat ClockTick k) w)) = [S n] /\
    trace (host (run (repeat ClockTick k) w))
    = (trace (host w)
       ++ countdown_trace (tick (callbacks (timer w)))
            (duration (timer w)) (remainingTime (timer w)) k)%list.
Proof.
  induction k as [|k IH]; intros w n Hs Hi Hv Hk.
  - cbn [repeat run fold_left countdown_trace]. rewrite app_nil_r.
    destruct w as [[d r s i c] h]. unfold set_remainingTime. cbn.
    now rewrite Z.sub_0_r.
  - cbn [repeat]. rewrite run_cons, after_eq. cbn [after_w].
    unfold clock_w. rewrite Hv. cbn [fire existsb].
    rewrite Hv. cbn [existsb]. rewrite Nat.eqb_refl. cbn [orb].
    unfold tick_w.
    destruct (remainingTime (timer w) <=? 0) eqn:Hr;
      [apply Z.leb_le in Hr; lia|]. cbv zeta.
    destruct w as [[d r s i c] [nh ivs tr co]].
    cbn [timer host state intervalId intervals remainingTime duration
         callbacks trace set_remainingTime] in *.
    specialize (IH (mkWorld (mkTimer d (r - 1) s i c)
      (notified "Error in tick callback:" (tick c)
         (TickArgs (fst (getRemainingTime (mkTimer d (r - 1) s i c)))
            (snd (getRemainingTime (mkTimer d (r - 1) s i c)))
            (getProgress (mkTimer d (r - 1) s i c)))
         (mkHost nh ivs tr co))) n Hs Hi Hv).
    cbn [timer host state intervalId intervals remainingTime duration
         callbacks trace set_remainingTime notified] in IH.
    destruct IH as [IH1 [IH2 IH3]]; [lia|].
    unfold set_remainingTime in *. cbn [timer host state intervalId
      intervals remainingTime duration callbacks trace notified] in *.
    rewrite IH1, IH2, IH3. repeat split.
    + f_equal. lia.
    + cbn [countdown_trace]. now rewrite <- app_assoc.
Qed.

Lemma ticks_when_stopped (k : nat) (w : World) :
  intervals (host w) = [] -> run (repeat ClockTick k) w = w.
Proof.
  intros Hv. induction k as [|k IH]; [reflexivity|].
  cbn [repeat]. rewrite run_cons, after_eq. cbn [after_w].
  unfold clock_w. rewrite Hv. exact IH.
Qed.

(** C1, as the code has it.  For every duration [d > 0] and all
    registered observers: after [start()] and [d] ticks the engine is
    still Running with no second left, every tick observer has been
    invoked [d] times and no complete observer yet; the next tick, the
    [d+1]-th, makes the engine Completed and invokes every complete
    observer once and no tick observer (the invocations are, in order:
    the state change to Running, the [d] rounds of tick observers with
    [d-1], ..., [0] seconds remaining, the state change to Completed,
    the complete observers); further ticks change nothing. *)
Theorem expiry_after_countdown (d : Z)
  (ticks completes changes : list Callback) :
  0 < d ->
  let w0 := observed d ticks completes changes in
  let wd := run (Start :: repeat ClockTick (Z.to_nat d)) w0 in
  let w := after ClockTick wd in
  (state (timer wd) = RUNNING /\ remainingTime (timer wd) = 0 /\
   count_tick (trace (host wd)) = (Z.to_nat d * List.length ticks)%nat /\
   count_complete (trace (host wd)) = 0%nat) /\
  (state (timer w) = COMPLETED /\
   count_tick (trace (host w)) = (Z.to_nat d * List.length ticks)%nat /\
   count_complete (trace (host w)) = List.length completes /\
   trace (host w)
   = (fired changes (StateChangeArgs RUNNING IDLE)
      ++ countdown_trace ticks d d (Z.to_nat d)
      ++ fired changes (StateChangeArgs COMPLETED RUNNING)
      ++ fired completes CompleteArgs)%list) /\
  (forall k, run (repeat ClockTick k) w = w).
Proof.
  intros Hd w0 wd w.
  assert (Es : after Start w0
               = mkWorld
                   (mkTimer d d RUNNING (Some 1%nat)
                      (mkCallbacks ticks completes changes))
                   (mkHost 2 [1%nat]
                      (fired changes (StateChangeArgs RUNNING IDLE))
                      (caught "Error in stateChange callback:" changes
                         (StateChangeArgs RUNNING IDLE))))
    by (rewrite after_eq; reflexivity).
  assert (Ewd : wd = run (repeat ClockTick (Z.to_nat d)) (after Start w0))
    by reflexivity.
  rewrite Es in Ewd.
  destruct (countdown_running (Z.to_nat d)
              (mkWorld
                 (mkTimer d d RUNNING (Some 1%nat)
                    (mkCallbacks ticks completes changes))
                 (mkHost 2 [1%nat]
                    (fired changes (StateChangeArgs RUNNING IDLE))
                    (caught "Error in stateChange callback:" changes
                       (StateChangeArgs RUNNING IDLE)))) 0%nat)
    as [Ht [Hv Htr]]; try reflexivity.
  { cbn [timer remainingTime]. lia. }
  rewrite <- Ewd in Ht, Hv, Htr.
  cbn [timer host trace callbacks tick duration remainingTime
       set_remainingTime state intervalId] in Ht, Htr.
  rewrite Z2Nat.id in Ht by lia. rewrite Z.sub_diag in Ht.
  assert (Ew : w = complete_w wd).
  { unfold w. rewrite after_eq. cbn [after_w]. unfold clock_w.
    rewrite Hv. cbn [fire]. rewrite Hv. cbn [existsb].
    rewrite Nat.eqb_refl. cbn [orb]. unfold tick_w. now rewrite Ht. }
  assert (Hw : timer w = set_state COMPLETED
                           (set_intervalId None (timer wd)) /\
               intervals (host w) = [] /\
               trace (host w)
               = (trace (host wd)
                  ++ fired changes (StateChangeArgs COMPLETED RUNNING)
                  ++ fired completes CompleteArgs)%list).
  { rewrite Ew. destruct wd as [[d' r' s' i' c'] [nh ivs tr co]].
    cbn [timer host intervals trace] in *. subst ivs.
    injection Ht as -> -> -> -> ->.
    unfold complete_w, stop_w, setState_w. cbn. rewrite <- app_assoc.
    repeat split. }
  destruct Hw as [Hw1 [Hw2 Hw3]].
  split; [|split].
  - rewrite Ht, Htr. cbn [state remainingTime set_remainingTime].
    rewrite count_tick_app, count_complete_app, count_tick_countdown,
      count_complete_countdown, count_tick_fired, count_complete_fired.
    repeat split.
  - rewrite Hw1, Hw3, Htr. cbn [state set_state].
    rewrite !count_tick_app, !count_complete_app, count_tick_countdown,
      count_complete_countdown, !count_tick_fired, !count_complete_fired.
    rewrite <- !app_assoc. repeat split; lia.
  - intros k. now apply ticks_when_stopped.
Qed.

Lemma expiry_after_countdown_witness :
  state (timer (run (Start :: repeat ClockTick 6)
                  (observed 5 [mkCallback 1 (fun _ => None)]
                     [mkCallback 2 (fun _ => None)] []))) = COMPLETED.
Proof.
  pose proof (expiry_after_countdown 5 [mkCallback 1 (fun _ => None)]
                [mkCallback 2 (fun _ => None)] [] eq_refl) as H.
  cbv zeta in H. destruct H as [_ [[H _] _]]. exact H.
Defined.

(** The scenario with [d = 5]: five ticks leave the engine Running, the
    tick observer having seen 4, 3, 2, 1 and 0 seconds; the sixth tick
    completes. *)
Example five_second_timer :
  let w0 := observed 5 [mkCallback 1 (fun _ => None)]
              [mkCallback 2 (fun _ => None)] [] in
  let w5 := run (Start :: repeat ClockTick 5) w0 in
  let w6 := after ClockTick w5 in
  state (timer w5) = RUNNING /\
  map (fun e => match snd e with TickArgs m s _ => (m, s) | _ => (-1, -1) end)
    (trace (host w5)) = [(0, 4); (0, 3); (0, 2); (0, 1); (0, 0)] /\
  state (timer w6) = COMPLETED /\
  map fst (trace (host w6)) = [1; 1; 1; 1; 1; 2]%nat.
Proof. repeat split. Qed.

(** The scenario as the specification words it does not hold: after
    five ticks the engine is not Completed. *)
Lemma expiry_as_specified_counterexample :
  ~ expiry_as_specified 5
      (observed 5 [mkCallback 1 (fun _ => None)]
         [mkCallback 2 (fun _ => None)] []).
Proof. intros [H _]. vm_compute in H. discriminate H. Qed.

(** ** Progress *)

Lemma getProgress_pos (t : Timer) :
  0 < duration t ->
  (getProgress t
   == (100 * (duration t - remainingTime t)) # (Z.to_pos (duration t)))%Q.
Proof.
  intros Hd. unfold getProgress.
  destruct (duration t =? 0) eqn:E; [apply Z.eqb_eq in E; lia|].
  destruct (duration t) as [|p|p] eqn:Ed; try lia.
  unfold Qeq, Qdiv, Qmult, Qinv, inject_Z. cbn [Qnum Qden Z.to_pos]. lia.
Qed.

Lemma getProgress_start (t : Timer) :
  remainingTime t = duration t -> (getProgress t == 0)%Q.
Proof.
  intros Hr. unfold getProgress. rewrite Hr, Z.sub_diag.
  destruct (duration t =? 0); [reflexivity|].
  unfold Qeq, Qdiv, Qmult, Qinv, inject_Z. cbn [Qnum Qden]. lia.
Qed.

Lemma getProgress_zero_duration (t : Timer) :
  duration t = 0 -> getProgress t = 0%Q.
Proof. intros Hd. unfold getProgress. now rewrite Hd. Qed.

Lemma getProgress_range (t : Timer) :
  (0 < duration t -> 0 <= remainingTime t <= duration t) ->
  (duration t <= 0 -> remainingTime t = duration t) ->
  (0 <= getProgress t <= 100)%Q.
Proof.
  intros Hpos Hnp.
  destruct (Z.lt_ge_cases 0 (duration t)) as [Hd|Hd].
  - rewrite (getProgress_pos t Hd). specialize (Hpos Hd).
    destruct (duration t) as [|p|p]; try lia.
    unfold Qle. cbn [Qnum Qden Z.to_pos]. split; nia.
  - rewrite (getProgress_start t (Hnp Hd)). split; discriminate.
Qed.

Lemma getProgress_full (t : Timer) :
  (0 < duration t -> 0 <= remainingTime t <= duration t) ->
  (duration t <= 0 -> remainingTime t = duration t) ->
  (getProgress t == 100)%Q <-> (remainingTime t = 0 /\ duration t <> 0).
Proof.
  intros Hpos Hnp.
  destruct (Z.lt_ge_cases 0 (duration t)) as [Hd|Hd].
  - rewrite (getProgress_pos t Hd). specialize (Hpos Hd).
    destruct (duration t) as [|p|p]; try lia.
    unfold Qeq. cbn [Qnum Qden Z.to_pos inject_Z].
    split; [intros H; split; nia|intros [H _]; nia].
  - rewrite (getProgress_start t (Hnp Hd)). split.
    + discriminate.
    + intros [H1 H2]. specialize (Hnp Hd). lia.
Qed.

Lemma getProgress_decrement (t : Timer) :
  0 < duration t ->
  (getProgress t
   <= getProgress (set_remainingTime (remainingTime t - 1) t))%Q.
Proof.
  intros Hd. rewrite (getProgress_pos t Hd).
  rewrite (getProgress_pos (set_remainingTime (remainingTime t - 1) t) Hd).
  cbn [duration remainingTime set_remainingTime].
  destruct (duration t) as [|p|p]; try lia.
  unfold Qle. cbn [Qnum Qden Z.to_pos]. nia.
Qed.

Lemma clock_progress (w : World) :
  Inv w ->
  (getProgress (timer w) <= getProgress (timer (after ClockTick w)))%Q.
Proof.
  intros H. rewrite after_eq. cbn [after_w]. unfold clock_w.
  destruct H as [Hs Hrun Hstop Hh Hpos Hnp Hcomp].
  destruct (strict_eq (state (timer w)) RUNNING) eqn:E.
  - apply strict_eq_true in E. destruct (Hrun E) as [n [Hi Hv]].
    rewrite Hv. cbn [fire]. rewrite Hv. cbn [existsb].
    rewrite Nat.eqb_refl. cbn [orb]. unfold tick_w.
    destruct (remainingTime (timer w) <=? 0) eqn:Hr.
    + destruct w as [[d r s i c] [nh ivs tr co]].
      cbn [timer host state intervalId] in *. subst s i.
      unfold complete_w, stop_w, setState_w. cbn. apply Qle_refl.
    + apply Z.leb_gt in Hr. cbn [timer].
      apply getProgress_decrement.
      destruct (Z.lt_ge_cases 0 (duration (timer w))) as [Hd|Hd];
        [exact Hd|]. specialize (Hnp Hd). lia.
  - destruct Hstop as [_ Hv].
    + intros Hx. rewrite Hx in E. discriminate E.
    + rewrite Hv. cbn [fire]. apply Qle_refl.
Qed.

(** C6, as the code has it.  In every reachable world [getProgress()]
    is [(duration - remaining) / duration * 100] (0 when the duration is
    0), lies in [0, 100], does not decrease across a clock tick, is 0
    when the remaining time equals the duration, and is 100 exactly when
    no second remains of a non-zero duration: in particular it is 100 in
    the Completed state of a timer of positive duration, and already on
    the last second of the countdown, while the engine is Running. *)
Theorem progress_properties (w : World) :
  reachable w ->
  (duration (timer w) <> 0 ->
   getProgress (timer w)
   = (inject_Z (duration (timer w) - remainingTime (timer w))
      / inject_Z (duration (timer w)) * inject_Z 100)%Q) /\
  (duration (timer w) = 0 -> getProgress (timer w) = 0%Q) /\
  (0 <= getProgress (timer w) <= 100)%Q /\
  (getProgress (timer w) <= getProgress (timer (after ClockTick w)))%Q /\
  (remainingTime (timer w) = duration (timer w) ->
   (getProgress (timer w) == 0)%Q) /\
  ((getProgress (timer w) == 100)%Q <->
   remainingTime (timer w) = 0 /\ duration (timer w) <> 0) /\
  (state (timer w) = COMPLETED -> 0 < duration (timer w) ->
   (getProgress (timer w) == 100)%Q).
Proof.
  intros Hw. apply reachable_Inv in Hw.
  pose proof (inv_positive w Hw) as Hpos.
  pose proof (inv_nonpositive w Hw) as Hnp.
  repeat split.
  - unfold getProgress. destruct (duration (timer w) =? 0) eqn:E;
      [apply Z.eqb_eq in E; contradiction|reflexivity].
  - apply getProgress_zero_duration.
  - now apply getProgress_range.
  - now apply getProgress_range.
  - now apply clock_progress.
  - apply getProgress_start.
  - now apply getProgress_full.
  - now apply getProgress_full.
  - apply getProgress_full; tauto.
  - intros Hc Hd. apply getProgress_full; auto.
    pose proof (inv_completed w Hw Hc). specialize (Hpos Hd). lia.
Qed.

Lemma progress_properties_witness :
  (getProgress (timer (run [Start; ClockTick] (World_new 1))) == 100)%Q /\
  state (timer (run [Start; ClockTick] (World_new 1))) = RUNNING.
Proof.
  destruct (progress_properties (run [Start; ClockTick] (World_new 1))
              (reachable_run _ _ (reach_new 1)))
    as [_ [_ [_ [_ [_ [H _]]]]]].
  split; [apply H; split; [reflexivity|discriminate]|reflexivity].
Defined.

(** A timer of one second, started, after one tick: the progress is 100
    and the engine is Running, never having been Completed. *)
Lemma full_before_completed_counterexample :
  ~ full_only_after_completed 1 [Start; ClockTick].
Proof.
  intros H. destruct H as [k [Hk Hs]]; [reflexivity|].
  destruct k as [|[|[|k]]]; cbn in Hk; try lia;
    vm_compute in Hs; discriminate Hs.
Qed.

(** ** The Task ledger *)

Module TaskManagerFacts.

Import Runtime TaskManager.

Lemma trimEnd_idempotent (s : string) : trimEnd (trimEnd s) = trimEnd s.
Proof.
  induction s as [|c s IH]; [reflexivity|].
  cbn [trimEnd]. destruct (trimEnd s) as [|c' r] eqn:E.
  - destruct (is_whitespace c) eqn:Hc; [reflexivity|].
    cbn [trimEnd]. now rewrite Hc.
  - cbn [trimEnd]. cbn [trimEnd] in IH. rewrite IH. reflexivity.
Qed.

Lemma trimStart_head (s : string) (c : ascii) (r : string) :
  trimStart s = String c r -> is_whitespace c = false.
Proof.
  induction s as [|c0 s IH]; [discriminate|].
  cbn [trimStart]. destruct (is_whitespace c0) eqn:Hc; [exact IH|].
  intros H. injection H as -> _. exact Hc.
Qed.

Lemma trimEnd_head (c : ascii) (r : string) :
  is_whitespace c = false ->
  exists r', trimEnd (String c r) = String c r'.
Proof.
  intros Hc. cbn [trimEnd].
  destruct (trimEnd r) as [|c' r'']; [rewrite Hc|]; eauto.
Qed.

Lemma trim_idempotent (s : string) : trim (trim s) = trim s.
Proof.
  unfold trim. destruct (trimStart s) as [|c r] eqn:E; [reflexivity|].
  pose proof (trimStart_head s c r E) as Hc.
  destruct (trimEnd_head c r Hc) as [r' Hr]. rewrite Hr.
  cbn [trimStart]. rewrite Hc, <- Hr. apply trimEnd_idempotent.
Qed.

Lemma trim_whitespace_only (s : string) :
  whitespace_only s = true -> trim s = "".
Proof.
  unfold trim. induction s as [|c s IH]; [reflexivity|].
  cbn [whitespace_only trimStart]. intros H.
  apply andb_prop in H. destruct H as [Hc Hs]. rewrite Hc. now apply IH.
Qed.

Lemma validate_whitespace_only (s : string) :
  whitespace_only s = true -> validateTaskName (Str s) = false.
Proof.
  intros H. unfold validateTaskName. rewrite (trim_whitespace_only s H).
  apply andb_false_r.
Qed.

Lemma validate_trimmed (s : string) :
  trim s = s -> s <> "" -> validateTaskName (Str s) = true.
Proof.
  intros Ht Hs. unfold validateTaskName. rewrite Ht. cbn [truthy].
  destruct s as [|c s]; [contradiction|]. cbn [String.length].
  destruct (String.eqb (String c s) "") eqn:E;
    [apply String.eqb_eq in E; discriminate|].
  cbn [negb andb]. apply Z.ltb_lt. lia.
Qed.

Lemma wf_new : wf TaskManager.new.
Proof. exact I. Qed.

Lemma wf_setCurrentTask (env : Env) (taskName : value) (tm : t) :
  wf tm -> wf (snd (setCurrentTask env taskName tm)).
Proof.
  intros Hwf. unfold setCurrentTask.
  destruct (validateTaskName taskName) eqn:Hv; cbn [negb snd]; [|exact Hwf].
  destruct taskName as [| |b|n| |s]; try discriminate Hv.
  unfold wf. cbn [currentTask current_name string_of]. split.
  - apply trim_idempotent.
  - unfold validateTaskName in Hv. apply andb_prop in Hv.
    destruct Hv as [_ Hl]. apply Z.ltb_lt in Hl.
    intros E. rewrite E in Hl. cbn in Hl. lia.
Qed.

Lemma wf_clearCurrentTask (tm : t) : wf (snd (clearCurrentTask tm)).
Proof. exact I. Qed.

Lemma wf_completeTask (env : Env) (taskName duration : value) (tm : t) :
  wf tm -> wf (snd (completeTask env taskName duration tm)).
Proof.
  intros Hwf. unfold completeTask.
  destruct (negb (validateTaskName taskName)); [exact Hwf|].
  destruct (invalid_duration duration); exact Hwf.
Qed.

Lemma wf_completeCurrentTask (env : Env) (duration : value) (tm : t) :
  wf tm -> wf (snd (completeCurrentTask env duration tm)).
Proof.
  intros Hwf. unfold completeCurrentTask.
  destruct (currentTask tm) as [cur|] eqn:Ec; [|exact Hwf].
  destruct (invalid_duration duration); [exact Hwf|].
  pose proof (wf_completeTask env (Str (current_name cur)) duration tm Hwf)
    as H.
  destruct (completeTask env (Str (current_name cur)) duration tm)
    as [[record|e] tm1]; [exact I|exact H].
Qed.

(** C7, as the code has it.  On every ledger: without a current task
    [completeCurrentTask] throws the IllegalState error, whatever the
    duration; with a duration [<= 0] it always throws, and it is with a
    current task that the error is the InvalidInput one (the current
    task is looked at first);
    [setCurrentTask] throws an InvalidInput error for the empty text and
    for any text of white space only; none of these changes the ledger.
    With a current task stored by [setCurrentTask] and a positive
    duration, [completeCurrentTask] returns a record for that task name,
    with that duration, the instant of the call and the 1-based count of
    completions of that name, appends it to the history and clears the
    current task. *)
Theorem completeCurrentTask_contract (env : Env) (tm : t) :
  wf tm ->
  (currentTask tm = None ->
   forall duration,
     completeCurrentTask env duration tm
     = (Throw (Error "No active task to complete"), tm) /\
     classify (Error "No active task to complete") = Some IllegalState) /\
  (forall n, n <= 0 ->
     exists e, completeCurrentTask env (Number n) tm = (Throw e, tm)) /\
  (currentTask tm <> None ->
   forall n, n <= 0 ->
     completeCurrentTask env (Number n) tm
     = (Throw (Error "Duration must be a positive number"), tm) /\
     classify (Error "Duration must be a positive number")
     = Some InvalidInput) /\
  (forall s, whitespace_only s = true ->
     setCurrentTask env (Str s) tm
     = (Throw (Error "Task name must be a non-empty string"), tm) /\
     classify (Error "Task name must be a non-empty string")
     = Some InvalidInput) /\
  (forall current n,
     currentTask tm = Some current -> 0 < n ->
     let record :=
       mkCompletedTask (generateTaskId env) (current_name current) n
         (now env)
         (calculateSessionsForTask tm (current_name current) + 1) in
     fst (completeCurrentTask env (Number n) tm) = Normal record /\
     completedTasks (snd (completeCurrentTask env (Number n) tm))
     = (completedTasks tm ++ [record])%list /\
     currentTask (snd (completeCurrentTask env (Number n) tm)) = None).
Proof.
  intros Hwf.
  assert (Hinv : forall n, n <= 0 -> invalid_duration (Number n) = true).
  { intros n Hn. unfold invalid_duration. apply orb_true_iff. right.
    now apply Z.leb_le. }
  split; [|split; [|split; [|split]]].
  - intros Hc duration. unfold completeCurrentTask. rewrite Hc.
    split; reflexivity.
  - intros n Hn. unfold completeCurrentTask.
    destruct (currentTask tm) as [cur|]; [|eauto].
    rewrite (Hinv n Hn). eauto.
  - intros Hc n Hn. unfold completeCurrentTask.
    destruct (currentTask tm) as [cur|]; [|contradiction].
    rewrite (Hinv n Hn). split; reflexivity.
  - intros s Hs. unfold setCurrentTask.
    rewrite (validate_whitespace_only s Hs). split; reflexivity.
  - intros current n Hc Hn record. unfold completeCurrentTask.
    rewrite Hc.
    assert (E : invalid_duration (Number n) = false).
    { unfold invalid_duration. cbn [truthy].
      destruct (n =? 0) eqn:E0; [apply Z.eqb_eq in E0; lia|].
      destruct (n <=? 0) eqn:E1; [apply Z.leb_le in E1; lia|reflexivity]. }
    rewrite E. unfold completeTask. rewrite E.
    unfold wf in Hwf. rewrite Hc in Hwf. destruct Hwf as [Ht Hne].
    rewrite (validate_trimmed _ Ht Hne). cbn [negb string_of number_of].
    rewrite Ht. repeat split.
Qed.

Lemma completeCurrentTask_contract_witness :
  fst (completeCurrentTask (mkEnv 1793577600000 "k3j9x0q2m") (Number 30)
         (snd (setCurrentTask (mkEnv 1793577600000 "k3j9x0q2m")
                 (Str "  Write report ") TaskManager.new)))
  = Normal (mkCompletedTask "task_1793577600000_k3j9x0q2m" "Write report"
              30 1793577600000 1).
Proof.
  destruct (completeCurrentTask_contract
              (mkEnv 1793577600000 "k3j9x0q2m")
              (snd (setCurrentTask (mkEnv 1793577600000 "k3j9x0q2m")
                      (Str "  Write report ") TaskManager.new))
              (wf_setCurrentTask (mkEnv 1793577600000 "k3j9x0q2m")
                 (Str "  Write report ") TaskManager.new wf_new))
    as [_ [_ [_ [_ H]]]].
  destruct (H (mkCurrentTask "Write report" 1793577600000
                 "task_1793577600000_k3j9x0q2m") 30 eq_refl eq_refl)
    as [H1 _].
  exact H1.
Defined.

(** The failures are not those that the specification words: on a new
    ledger, which has no current task, a duration of 0 fails with the
    IllegalState error, not with the InvalidInput one. *)
Lemma fails_as_specified_counterexample :
  ~ fails_as_specified (mkEnv 1793577600000 "k3j9x0q2m") 0 TaskManager.new /\
  completeCurrentTask (mkEnv 1793577600000 "k3j9x0q2m") (Number 0)
    TaskManager.new
  = (Throw (Error "No active task to complete"), TaskManager.new) /\
  classify (Error "No active task to complete") = Some IllegalState.
Proof.
  split; [|split; reflexivity].
  intros [_ H]. destruct (H ltac:(lia)) as [e [He Hc]].
  injection He as <-. discriminate Hc.
Qed.

(** The two rejected names of the specification. *)
Example setCurrentTask_rejects_blank (env : Env) :
  fst (setCurrentTask env (Str "") TaskManager.new)
  = Throw (Error "Task name must be a non-empty string") /\
  fst (setCurrentTask env (Str "  ") TaskManager.new)
  = Throw (Error "Task name must be a non-empty string").
Proof. split; reflexivity. Qed.

(** C5.  With completions on Friday 2 January 1970 and on the 3rd, the
    4th and the 6th (the dates D, D+1, D+2 and D+4), [getStreakInfo()]
    called on the 8th (D+6) goes through the dates in calendar order and
    returns a longest streak of 2, not 3, and a current streak of 0. *)
Theorem getStreakInfo_three_day_run :
  let info := getStreakInfo (noon 7) (streak_history 1) in
  sort (distinct []
          (map (fun task => toDateString (completedAt task))
             (completedTasks (streak_history 1))))
  = [ "Fri Jan 02 1970"; "Sat Jan 03 1970"; "Sun Jan 04 1970";
      "Tue Jan 06 1970" ] /\
  longestStreak info = 2 /\
  currentStreak info = 0.
Proof. vm_compute. repeat split. Qed.

(** The longest streak that [getStreakInfo()] returns for the same
    pattern of dates, D being a Thursday, a Friday, ..., a Wednesday:
    the dates are sorted as texts, by the name of the weekday. *)
Example getStreakInfo_by_weekday :
  map (fun D => longestStreak (getStreakInfo (noon (D + 6))
                                 (streak_history D)))
    [0; 1; 2; 3; 4; 5; 6]
  = [1; 2; 1; 1; 3; 2; 1].
Proof. vm_compute. reflexivity. Qed.

End TaskManagerFacts.

(** ** The session coordinator *)

Module AppFacts.

Import App.

Ltac run_step :=
  unfold completeSession, startBreak, updateStats, handleError, detached,
    try_catch, bind, call, console_error, modify, set_currentTask,
    set_isBreakMode, set_sessionCount;
  cbn [currentTask isBreakMode sessionCount settings calls console
       unhandled fst snd].

Ltac env_cases env :=
  repeat match goal with
         | H : env ?c = _ |- context [env ?c] => rewrite H
         | |- context [env ?c] =>
             let E := fresh "E" in
             destruct (env c) eqn:E;
             cbn [currentTask isBreakMode sessionCount settings calls
                  console unhandled fst snd]
         end.

Ltac only_break_list :=
  let d := fresh "d" in
  let H := fresh "H" in
  intros d H; cbn [In] in H;
  repeat (destruct H as [H|H]; [try discriminate H|]);
  try contradiction;
  try (injection H as <-; reflexivity).

(** What the handler does on every coordinator, whatever its
    collaborators do: the settings stay, the break mode is never left,
    a completed work session leaves the session counter as it is and a
    completed break adds at most one, and no duration is shown other
    than [settings.breakDuration]. *)
Lemma onTimerComplete_effect (env : Collaborators) (a : t) :
  settings (snd (onTimerComplete env a)) = settings a /\
  (isBreakMode a = true ->
   isBreakMode (snd (onTimerComplete env a)) = true) /\
  (isBreakMode a = false ->
   sessionCount (snd (onTimerComplete env a)) = sessionCount a) /\
  (sessionCount (snd (onTimerComplete env a)) = sessionCount a \/
   sessionCount (snd (onTimerComplete env a)) = sessionCount a + 1) /\
  (exists l, calls (snd (onTimerComplete env a)) = (calls a ++ l)%list /\
             only_break (settings a) l).
Proof.
  destruct a as [task bm n s cs co un]. unfold onTimerComplete. run_step.
  destruct task as [task|], bm; env_cases env;
    (split; [reflexivity|]);
    (split; [intros H; try discriminate H; reflexivity|]);
    (split; [intros H; try discriminate H; reflexivity|]);
    (split; [auto|]);
    rewrite <- ?app_assoc; cbn [app];
    eexists; (split; [reflexivity|only_break_list]).
Qed.

(** The handler when its first calls return: the two branches are the
    wrong way round. *)
Lemma onTimerComplete_branches (env : Collaborators) (a : t) :
  env (audio_playSound "complete") = None ->
  (forall task, currentTask a = Some task ->
                env (taskManager_completeTask task) = None) ->
  env (ui_showNotification "Session completed!" "success") = None ->
  fst (onTimerComplete env a) = Normal tt /\
  currentTask (snd (onTimerComplete env a)) = None /\
  isBreakMode (snd (onTimerComplete env a)) = true /\
  sessionCount (snd (onTimerComplete env a))
  = (if isBreakMode a then sessionCount a + 1 else sessionCount a).
Proof.
  intros Ha Ht Hn. destruct a as [task bm n s cs co un].
  cbn [currentTask isBreakMode sessionCount] in *.
  unfold onTimerComplete. run_step.
  destruct task as [task|];
    [specialize (Ht task eq_refl)|clear Ht];
    destruct bm; env_cases env; repeat split.
Qed.

(** C3.  The handler of the Timer's [complete] event does not do what
    is specified, on any coordinator and whatever its collaborators do
    (return or throw):
    - the completion step is never the specified one;
    - a completed break never sets the mode back to work: no statement
      of [main.js] sets [isBreakMode] to [false];
    - a completed work session never increments the session counter:
      [completeSession()], documented as "Complete work session and
      switch to break", runs when a break completes, and
      [startBreak()] when a work session completes;
    - hence when the first calls of the handler return
      ([audio.playSound], the completion of a current task, the
      notification), a completed break is counted as a session and
      stays a break, and a completed work session is not counted;
    - the only duration shown is [settings.breakDuration]: there is no
      long break, and the settings are untouched;
    - with the classes of the repository as collaborators the handler
      stops at [audio.playSound], which [Audio] does not define: the
      mode, the session counter and the current task stay as they
      were. *)
Theorem onTimerComplete_not_as_specified (env : Collaborators) (a : t) :
  ~ completes_as_specified env a /\
  (isBreakMode a = true ->
   isBreakMode (snd (onTimerComplete env a)) = true) /\
  (isBreakMode a = false ->
   sessionCount (snd (onTimerComplete env a)) = sessionCount a) /\
  (env (audio_playSound "complete") = None ->
   (forall task, currentTask a = Some task ->
                 env (taskManager_completeTask task) = None) ->
   env (ui_showNotification "Session completed!" "success") = None ->
   isBreakMode (snd (onTimerComplete env a)) = true /\
   sessionCount (snd (onTimerComplete env a))
   = (if isBreakMode a then sessionCount a + 1 else sessionCount a)) /\
  settings (snd (onTimerComplete env a)) = settings a /\
  (forall d, In (ui_updateTimer d) (calls (snd (onTimerComplete env a))) ->
             In (ui_updateTimer d) (calls a) \/
             d = breakDuration (settings a)) /\
  (currentTask (snd (onTimerComplete shipped a)) = currentTask a /\
   isBreakMode (snd (onTimerComplete shipped a)) = isBreakMode a /\
   sessionCount (snd (onTimerComplete shipped a)) = sessionCount a /\
   calls (snd (onTimerComplete shipped a))
   = (calls a
      ++ [audio_playSound "complete";
          ui_showNotification "Failed to complete session" "error"])%list).
Proof.
  destruct (onTimerComplete_effect env a)
    as [Hs [Hb [Hw [_ [l [Hl Ho]]]]]].
  split; [|split; [exact Hb|split; [exact Hw|split; [|split;
    [exact Hs|split]]]]].
  - unfold completes_as_specified. cbv zeta.
    destruct (isBreakMode a) eqn:E.
    + intros [H _]. rewrite (Hb eq_refl) in H. discriminate H.
    + intros [H _]. rewrite (Hw eq_refl) in H. lia.
  - intros Ha Ht Hn.
    destruct (onTimerComplete_branches env a Ha Ht Hn)
      as [_ [_ [H3 H4]]].
    split; assumption.
  - intros d Hd. rewrite Hl, in_app_iff in Hd.
    destruct Hd as [Hd|Hd]; [now left|right; now apply Ho].
  - destruct a as [task bm n s cs co un].
    unfold onTimerComplete. run_step. cbn. rewrite <- app_assoc.
    repeat split.
Qed.

(** The first work session of a coordinator with the fields its
    constructor assigns.  Were every call of a collaborator to return,
    the coordinator would enter the break without counting the session,
    and the completion of that break would count a session and stay in
    the break; with the classes of the repository the handler stops at
    its first call. *)
Example onTimerComplete_first_session :
  let a := mkApp None false 0 (mkSettings 25 5 true false) [] [] [] in
  let a1 := snd (onTimerComplete cooperative a) in
  let a2 := snd (onTimerComplete cooperative a1) in
  let a' := snd (onTimerComplete shipped a) in
  (isBreakMode a1 = true /\ sessionCount a1 = 0 /\
   calls a1
   = [ audio_playSound "complete";
       ui_showNotification "Session completed!" "success";
       ui_updateMode "break"; ui_updateTimer 5;
       ui_showNotification "Break time!" "info" ]) /\
  (isBreakMode a2 = true /\ sessionCount a2 = 1) /\
  (isBreakMode a' = false /\ sessionCount a' = 0 /\
   console a'
   = [ ("Error handling timer completion:",
        TypeError "this.audio.playSound is not a function");
       ("Failed to complete session",
        TypeError "this.audio.playSound is not a function") ]).
Proof. repeat split. Qed.

End AppFacts.

(** ** More of the Timer engine *)



(** X2. [setDuration(seconds)] discards whatever countdown is in progress:
    afterwards the timer is Idle, duration and remaining time are the
    new value, the progress is 0 and nothing is scheduled. *)
Theorem setDuration_discards_countdown (seconds : Z) (w : World) :
  reachable w ->
  exec (SetDuration seconds) w = (Normal tt, after (SetDuration seconds) w) /\
  state (timer (after (SetDuration seconds) w)) = IDLE /\
  duration (timer (after (SetDuration seconds) w)) = seconds /\
  remainingTime (timer (after (SetDuration seconds) w)) = seconds /\
  intervalId (timer (after (SetDuration seconds) w)) = None /\
  intervals (host (after (SetDuration seconds) w)) = [] /\
  (getProgress (timer (after (SetDuration seconds) w)) == 0)%Q.
Proof.
  intros Hw.
  pose proof (reachable_Inv _ (reach_step (SetDuration seconds) w Hw)) as Hi.
  assert (Hst : state (timer (after (SetDuration seconds) w)) = IDLE /\
                duration (timer (after (SetDuration seconds) w)) = seconds /\
                remainingTime (timer (after (SetDuration seconds) w))
                = seconds).
  { rewrite after_eq. cbn [after_w].
    destruct w as [[d r s i c] h].
    unfold setDuration_w, reset_w, setState_w, stop_w.
    cbn [timer host duration state set_remainingTime set_duration].
    destruct (strict_eq s IDLE) eqn:Hs.
    - apply strict_eq_true in Hs. subst s.
      destruct i as [[|n]|]; repeat split.
    - destruct i as [[|n]|]; repeat split. }
  destruct Hst as [H1 [H2 H3]].
  destruct (inv_stopped _ Hi) as [H4 H5]; [rewrite H1; discriminate|].
  split; [cbn [exec]; now rewrite after_eq, setDuration_eq|].
  repeat split; try assumption.
  apply getProgress_start. congruence.
Qed.

Lemma setDuration_discards_countdown_witness :
  state (timer (after (SetDuration 90)
                  (run [Start; ClockTick] (World_new 5)))) = IDLE /\
  remainingTime (timer (after (SetDuration 90)
                          (run [Start; ClockTick] (World_new 5)))) = 90.
Proof.
  destruct (setDuration_discards_countdown 90
              (run [Start; ClockTick] (World_new 5))
              (reachable_run _ _ (reach_new 5)))
    as [_ [H1 [_ [H3 _]]]].
  split; assumption.
Defined.

(** X3. For a timer of positive duration, [getRemainingTime()] splits the
    remaining seconds into minutes and seconds below 60. *)
Theorem getRemainingTime_splits (w : World) :
  reachable w ->
  0 < duration (timer w) ->
  fst (getRemainingTime (timer w)) * 60 + snd (getRemainingTime (timer w))
  = remainingTime (timer w) /\
  0 <= fst (getRemainingTime (timer w)) /\
  0 <= snd (getRemainingTime (timer w)) < 60.
Proof.
  intros Hw Hd. apply reachable_Inv in Hw.
  destruct (inv_positive w Hw Hd) as [Hr _].
  unfold getRemainingTime. cbn [fst snd].
  rewrite Z.rem_mod_nonneg by lia.
  pose proof (Z.div_mod (remainingTime (timer w)) 60).
  pose proof (Z.mod_pos_bound (remainingTime (timer w)) 60).
  pose proof (Z.div_pos (remainingTime (timer w)) 60).
  lia.
Qed.

Lemma getRemainingTime_splits_witness :
  fst (getRemainingTime (timer (run [Start; ClockTick] (World_new 125)))) * 60
  + snd (getRemainingTime (timer (run [Start; ClockTick] (World_new 125))))
  = remainingTime (timer (run [Start; ClockTick] (World_new 125))).
Proof.
  exact (proj1 (getRemainingTime_splits
                  (run [Start; ClockTick] (World_new 125))
                  (reachable_run _ _ (reach_new 125)) eq_refl)).
Defined.

(** With a duration below zero the split is not one: [Math.floor] and
    [%] round differently. *)
Example getRemainingTime_negative :
  getRemainingTime (Timer_new (-5)) = (-1, -5).
Proof. reflexivity. Qed.

(** X4. State-change observers are notified exactly when the state changes:
    after [start()], [pause()], [reset()] or [setDuration()] the trace
    has grown by one invocation of every stateChange observer, in
    registration order and with (new state, old state), if the state is
    not the one before, and has not grown otherwise. *)
Theorem stateChange_fired_on_change (w : World) :
  reachable w ->
  forall op,
    match op with
    | On _ _ | ClockTick => True
    | _ =>
        trace (host (after op w))
        = (trace (host w)
           ++ if strict_eq (state (timer w)) (state (timer (after op w)))
              then []
              else fired (stateChange (callbacks (timer w)))
                     (StateChangeArgs (state (timer (after op w)))
                        (state (timer w))))%list
    end.
Proof.
  intros Hw op. apply reachable_Inv in Hw.
  destruct op; try exact I; rewrite after_eq; cbn [after_w];
    world_cases w Hw; cbn; rewrite ?app_nil_r; reflexivity.
Qed.

Lemma stateChange_fired_on_change_witness :
  trace (host (after Start (observed 5 [] [] [mkCallback 7 (fun _ => None)])))
  = [(7%nat, StateChangeArgs RUNNING IDLE)].
Proof.
  pose proof (stateChange_fired_on_change
                (observed 5 [] [] [mkCallback 7 (fun _ => None)])) as H.
  rewrite observed_reachable in H.
  specialize (H (reachable_run _ _ (reach_new 5)) Start).
  rewrite <- observed_reachable in H. exact H.
Defined.

Opaque fired caught count_tick count_complete.

(** X5. A timer whose duration is not positive expires on its first tick:
    no tick observer is ever invoked, the complete observers are invoked
    once, and the remaining time stays what it was. *)
Theorem nonpositive_duration_expires_at_once (d : Z)
  (ticks completes changes : list Callback) :
  d <= 0 ->
  state (timer (run [Start; ClockTick] (observed d ticks completes changes)))
  = COMPLETED /\
  remainingTime
    (timer (run [Start; ClockTick] (observed d ticks completes changes))) = d /\
  intervals
    (host (run [Start; ClockTick] (observed d ticks completes changes))) = [] /\
  count_tick
    (trace (host (run [Start; ClockTick]
                    (observed d ticks completes changes)))) = 0%nat /\
  count_complete
    (trace (host (run [Start; ClockTick]
                    (observed d ticks completes changes))))
  = List.length completes.
Proof.
  intros Hd. apply Z.leb_le in Hd.
  cbn [run fold_left]. rewrite !after_eq. cbn [after_w].
  unfold observed, start_w, setState_w, scheduled, notified.
  cbn. unfold tick_w, set_intervalId, set_state.
  cbn [timer remainingTime]. rewrite Hd.
  unfold complete_w, stop_w, setState_w, notified, set_intervalId, set_state.
  cbn.
  rewrite !count_tick_app, !count_complete_app, !count_tick_fired,
    !count_complete_fired. repeat split.
Qed.

Transparent fired caught count_tick count_complete.

Lemma nonpositive_duration_expires_at_once_witness :
  state (timer (run [Start; ClockTick]
                  (observed 0 [mkCallback 1 (fun _ => None)] [] [])))
  = COMPLETED.
Proof.
  apply (nonpositive_duration_expires_at_once 0
           [mkCallback 1 (fun _ => None)] [] []).
  discriminate.
Defined.

(** X6. The remaining time changes in two ways only: a tick of a Running
    timer that has time left takes one second off, and [reset()] and
    [setDuration()] set it to the duration; the duration is changed by
    [setDuration()] alone. *)
Theorem remaining_time_changes (w : World) :
  reachable w ->
  forall op,
    (match op with
     | SetDuration s => duration (timer (after op w)) = s
     | _ => duration (timer (after op w)) = duration (timer w)
     end) /\
    (match op with
     | Reset | SetDuration _ =>
         remainingTime (timer (after op w)) = duration (timer (after op w))
     | ClockTick =>
         if strict_eq (state (timer w)) RUNNING
            && (0 <? remainingTime (timer w))
         then remainingTime (timer (after op w)) = remainingTime (timer w) - 1
         else remainingTime (timer (after op w)) = remainingTime (timer w)
     | _ => remainingTime (timer (after op w)) = remainingTime (timer w)
     end).
Proof.
  intros Hw op. apply reachable_Inv in Hw.
  destruct op; rewrite ?after_eq; cbn [after_w].
  - world_cases w Hw; cbn; split; reflexivity.
  - world_cases w Hw; cbn; split; reflexivity.
  - world_cases w Hw; cbn; split; reflexivity.
  - world_cases w Hw; cbn; split; reflexivity.
  - destruct w as [[d r s i c] h]. split; reflexivity.
  - world_cases w Hw; unfold clock_w; cbn [fire host intervals existsb];
      rewrite ?Nat.eqb_refl; cbn [orb]; try (split; reflexivity).
    unfold tick_w. cbn [timer remainingTime].
    destruct (r <=? 0) eqn:Hr.
    + apply Z.leb_le in Hr.
      destruct (0 <? r) eqn:Hr'; [apply Z.ltb_lt in Hr'; lia|].
      cbn. split; reflexivity.
    + apply Z.leb_gt in Hr.
      destruct (0 <? r) eqn:Hr'; [|apply Z.ltb_ge in Hr'; lia].
      cbn. split; reflexivity.
Qed.

Lemma remaining_time_changes_witness :
  remainingTime (timer (after ClockTick (run [Start] (World_new 5)))) = 4.
Proof.
  exact (proj2 (remaining_time_changes (run [Start] (World_new 5))
                  (reachable_run _ _ (reach_new 5)) ClockTick)).
Defined.

(** X7. An observer registered while the countdown runs is served from the
    next tick on, after the observers registered before it. *)
Theorem on_registers_last (cb : Callback) (w : World) :
  reachable w ->
  state (timer w) = RUNNING ->
  0 < remainingTime (timer w) ->
  exec (On "tick" cb) w = (Normal tt, after (On "tick" cb) w) /\
  trace (host (after ClockTick (after (On "tick" cb) w)))
  = (trace (host w)
     ++ fired (tick (callbacks (timer w)) ++ [cb])
          (tick_args (duration (timer w)) (remainingTime (timer w) - 1)))%list.
Proof.
  intros Hw Hs Hr. apply reachable_Inv in Hw.
  destruct (inv_running w Hw Hs) as [n [Hi Hv]].
  split; [reflexivity|].
  rewrite !after_eq. cbn [after_w].
  destruct w as [[d r s i c] [nh ivs tr co]].
  cbn [timer host state intervalId intervals remainingTime] in *.
  subst s i ivs. unfold clock_w, on_w.
  cbn [fire host intervals existsb timer]. rewrite Nat.eqb_refl.
  cbn [orb]. unfold tick_w. cbn [timer remainingTime set_callbacks].
  destruct (r <=? 0) eqn:E; [apply Z.leb_le in E; lia|].
  destruct c as [tk cp sc]. reflexivity.
Qed.

Lemma on_registers_last_witness :
  map fst
    (trace (host (after ClockTick
                    (after (On "tick" (mkCallback 9 (fun _ => None)))
                       (run [On "tick" (mkCallback 1 (fun _ => None)); Start]
                          (World_new 5))))))
  = [1%nat; 9%nat].
Proof.
  pose proof (proj2 (on_registers_last (mkCallback 9 (fun _ => None))
                (run [On "tick" (mkCallback 1 (fun _ => None)); Start]
                   (World_new 5))
                (reachable_run _ _ (reach_new 5)) eq_refl eq_refl)) as H.
  rewrite H. reflexivity.
Defined.

Opaque fired caught.

(** X8. [start()] on a Completed timer runs it again with no time left: the
    next tick completes it once more, invoking the complete observers
    again and no tick observer. *)
Theorem restart_after_completion (w : World) :
  reachable w ->
  state (timer w) = COMPLETED ->
  state (timer (run [Start; ClockTick] w)) = COMPLETED /\
  remainingTime (timer (run [Start; ClockTick] w)) = remainingTime (timer w) /\
  trace (host (run [Start; ClockTick] w))
  = (trace (host w)
     ++ fired (stateChange (callbacks (timer w)))
          (StateChangeArgs RUNNING COMPLETED)
     ++ fired (stateChange (callbacks (timer w)))
          (StateChangeArgs COMPLETED RUNNING)
     ++ fired (complete (callbacks (timer w))) CompleteArgs)%list.
Proof.
  intros Hw Hs. apply reachable_Inv in Hw.
  pose proof (inv_completed w Hw Hs) as Hr.
  destruct (inv_stopped w Hw) as [Hi Hv]; [rewrite Hs; discriminate|].
  cbn [run fold_left]. rewrite !after_eq. cbn [after_w].
  destruct w as [[d r s i c] [nh ivs tr co]].
  cbn [timer host state intervalId intervals remainingTime] in *.
  subst s i ivs. destruct Hw as [_ _ _ Hh _ _ _]. cbn in Hh.
  destruct nh as [|nh]; [lia|].
  apply Z.leb_le in Hr.
  unfold clock_w, start_w, setState_w, scheduled, notified, set_intervalId,
    set_state.
  cbn. rewrite ?Nat.eqb_refl. cbn.
  unfold tick_w. cbn [timer remainingTime]. rewrite Hr.
  unfold complete_w, stop_w, setState_w, notified, cleared, set_intervalId,
    set_state.
  cbn. rewrite ?Nat.eqb_refl. cbn.
  rewrite <- !app_assoc. repeat split.
Qed.

Transparent fired caught.

Lemma restart_after_completion_witness :
  count_complete
    (trace (host (run [Start; ClockTick]
                    (run [Start; ClockTick; ClockTick]
                       (observed 1 [] [mkCallback 2 (fun _ => None)] [])))))
  = 2%nat.
Proof.
  assert (R : reachable (run [Start; ClockTick; ClockTick]
                           (observed 1 [] [mkCallback 2 (fun _ => None)] []))).
  { rewrite observed_reachable. apply reachable_run, reachable_run.
    apply reach_new. }
  destruct (restart_after_completion _ R eq_refl) as [_ [_ H]].
  rewrite H. reflexivity.
Defined.



(** ** Plain objects *)

Module PlainFacts.

Import Plain.

Lemma own_In {V} (o : object V) (k : string) (v : V) :
  own o k = Some v -> In (k, v) o.
Proof.
  induction o as [|[k0 x] o IH]; [discriminate|]. cbn [own].
  destruct (String.eqb k0 k) eqn:E.
  - apply String.eqb_eq in E. intros H. injection H as <-. subst. now left.
  - intros H. right. now apply IH.
Qed.

Lemma own_None {V} (o : object V) (k : string) :
  own o k = None <-> ~ In k (keys o).
Proof.
  induction o as [|[k0 x] o IH]; cbn [own keys map fst In]; [tauto|].
  destruct (String.eqb k0 k) eqn:E.
  - apply String.eqb_eq in E. split; [discriminate|]. intros H. elim H. auto.
  - apply String.eqb_neq in E. rewrite IH. unfold keys. tauto.
Qed.

Lemma In_own {V} (o : object V) (k : string) (v : V) :
  NoDup (keys o) -> In (k, v) o -> own o k = Some v.
Proof.
  induction o as [|[k0 x] o IH]; [contradiction|].
  cbn [keys map fst own]. intros Hn [H|H].
  - injection H as -> ->. now rewrite String.eqb_refl.
  - inversion Hn as [|? ? Hk Hn']; subst.
    destruct (String.eqb k0 k) eqn:E.
    + apply String.eqb_eq in E. subst. elim Hk.
      change (In k (keys o)). unfold keys.
      apply (in_map fst) in H. exact H.
    + now apply IH.
Qed.

Lemma keys_replace {V} (k : string) (v : V) (o : object V) :
  keys (replace k v o) = keys o.
Proof.
  induction o as [|[k0 x] o IH]; [reflexivity|]. cbn [replace].
  destruct (String.eqb k0 k); cbn [keys map fst]; [reflexivity|].
  f_equal. exact IH.
Qed.

Lemma own_replace {V} (k k' : string) (v : V) (o : object V) :
  own (replace k v o) k'
  = if String.eqb k k' then option_map (fun _ => v) (own o k) else own o k'.
Proof.
  induction o as [|[k0 x] o IH]; cbn [replace own].
  - now destruct (String.eqb k k').
  - destruct (String.eqb k0 k) eqn:E; cbn [own].
    + apply String.eqb_eq in E. subst k0.
      destruct (String.eqb k k'); reflexivity.
    + rewrite IH. destruct (String.eqb k k') eqn:E'.
      * apply String.eqb_eq in E'. subst k'. now rewrite E.
      * reflexivity.
Qed.

Lemma keys_insert_index {V} (k : string) (i : N) (v : V) (o : object V) :
  Permutation (keys (insert_index k i v o)) (k :: keys o).
Proof.
  induction o as [|[k0 x] o IH]; [reflexivity|]. cbn [insert_index].
  destruct (array_index k0) as [j|]; [|reflexivity].
  destruct (j <? i)%N; [|reflexivity].
  cbn [keys map fst]. rewrite perm_swap. apply perm_skip. exact IH.
Qed.

Lemma own_insert_index {V} (k k' : string) (i : N) (v : V) (o : object V) :
  own o k = None ->
  own (insert_index k i v o) k'
  = if String.eqb k k' then Some v else own o k'.
Proof.
  induction o as [|[k0 x] o IH]; cbn [insert_index own]; [reflexivity|].
  destruct (String.eqb k0 k) eqn:E; [discriminate|]. intros Hk.
  destruct (array_index k0) as [j|]; [destruct (j <? i)%N|];
    cbn [own]; try reflexivity.
  rewrite (IH Hk). destruct (String.eqb k k') eqn:E'; [|reflexivity].
  apply String.eqb_eq in E'. subst k'. now rewrite E.
Qed.

Lemma own_app {V} (k : string) (o1 o2 : object V) :
  own (o1 ++ o2)%list k = match own o1 k with Some v => Some v | None => own o2 k end.
Proof.
  induction o1 as [|[k0 x] o1 IH]; [reflexivity|]. cbn [app own].
  destruct (String.eqb k0 k); [reflexivity|exact IH].
Qed.

(** Writing a property and reading any property back. *)
Lemma own_set {V} (k k' : string) (v : V) (o : object V) :
  own (set k v o) k' = if String.eqb k k' then Some v else own o k'.
Proof.
  unfold set. destruct (own o k) as [x|] eqn:E.
  - rewrite own_replace, E. reflexivity.
  - destruct (array_index k) as [i|].
    + now apply own_insert_index.
    + rewrite own_app. cbn [own].
      destruct (String.eqb k k') eqn:E'.
      * apply String.eqb_eq in E'. subst k'. now rewrite E.
      * now destruct (own o k').
Qed.

Lemma keys_set {V} (k : string) (v : V) (o : object V) :
  NoDup (keys o) -> NoDup (keys (set k v o)).
Proof.
  intros Hn. unfold set. destruct (own o k) as [x|] eqn:E.
  - now rewrite keys_replace.
  - apply own_None in E. destruct (array_index k) as [i|].
    + eapply Permutation_NoDup;
        [symmetry; apply keys_insert_index|now constructor].
    + unfold keys. rewrite map_app. cbn [map fst].
      apply NoDup_app_remove_l with (l := []). cbn [app].
      eapply Permutation_NoDup;
        [apply Permutation_cons_append|now constructor].
Qed.

End PlainFacts.

(** ** The analytics of the Task ledger *)

Module TaskAnalyticsFacts.

Import Runtime TaskManager Plain PlainFacts TaskAnalytics.

Lemma tasks_named_snoc (k : string) (l : list CompletedTask)
  (task : CompletedTask) :
  tasks_named k (l ++ [task])%list
  = (tasks_named k l
     ++ if String.eqb (name task) k then [task] else [])%list.
Proof. unfold tasks_named. rewrite filter_app. reflexivity. Qed.

Lemma total_of_snoc (k : string) (l : list CompletedTask)
  (task : CompletedTask) :
  total_of k (l ++ [task])%list
  = total_of k l + if String.eqb (name task) k then duration task else 0.
Proof.
  unfold total_of. rewrite tasks_named_snoc.
  induction (tasks_named k l) as [|x xs IH]; cbn [app fold_right].
  - destruct (String.eqb (name task) k); cbn; lia.
  - rewrite IH. lia.
Qed.

Lemma count_of_snoc (k : string) (l : list CompletedTask)
  (task : CompletedTask) :
  count_of k (l ++ [task])%list
  = count_of k l + if String.eqb (name task) k then 1 else 0.
Proof.
  unfold count_of. rewrite tasks_named_snoc, length_app.
  destruct (String.eqb (name task) k); cbn [List.length]; lia.
Qed.

Lemma count_of_nonneg (k : string) (l : list CompletedTask) :
  0 <= count_of k l.
Proof. unfold count_of. lia. Qed.

Lemma total_of_none (k : string) (l : list CompletedTask) :
  count_of k l = 0 -> total_of k l = 0.
Proof.
  unfold count_of, total_of. destruct (tasks_named k l); [reflexivity|].
  cbn [List.length]. lia.
Qed.

Lemma aggregated_step (l : list CompletedTask) (o : object TaskTotal)
  (task : CompletedTask) :
  aggregated l o -> aggregated (l ++ [task])%list (add_task o task).
Proof.
  intros [Hn Ho]. unfold add_task, truthy_at.
  fold (inherited (name task)).
  pose proof (Ho (name task)) as Hk.
  pose proof (count_of_nonneg (name task) l) as Hc.
  destruct (own o (name task)) as [entry|] eqn:E.
  - cbn [negb]. rewrite E.
    destruct (inherited (name task)) eqn:Ei; [discriminate|].
    destruct (count_of (name task) l =? 0) eqn:Ec; [discriminate|].
    cbn [orb] in Hk. injection Hk as ->. cbn [total_name totalDuration
      total_sessionCount].
    split; [now apply keys_set|]. intros k.
    rewrite own_set, total_of_snoc, count_of_snoc, Ho.
    destruct (String.eqb (name task) k) eqn:Ek.
    + apply String.eqb_eq in Ek. subst k. rewrite Ei. cbn [orb].
      destruct (count_of (name task) l + 1 =? 0) eqn:E1;
        [apply Z.eqb_eq in E1; lia|reflexivity].
    + now rewrite !Z.add_0_r.
  - destruct (inherited (name task)) eqn:Ei; cbn [negb].
    + rewrite E. split; [exact Hn|]. intros k.
      rewrite total_of_snoc, count_of_snoc, Ho.
      destruct (String.eqb (name task) k) eqn:Ek.
      * apply String.eqb_eq in Ek. subst k. now rewrite Ei.
      * now rewrite !Z.add_0_r.
    + cbn [orb] in Hk.
      destruct (count_of (name task) l =? 0) eqn:Ec; [|discriminate].
      apply Z.eqb_eq in Ec.
      rewrite own_set, String.eqb_refl.
      cbn [total_name totalDuration total_sessionCount].
      split; [now apply keys_set, keys_set|]. intros k.
      rewrite !own_set, total_of_snoc, count_of_snoc, Ho.
      destruct (String.eqb (name task) k) eqn:Ek.
      * apply String.eqb_eq in Ek. subst k. rewrite Ei, Ec.
        rewrite (total_of_none _ _ Ec). reflexivity.
      * now rewrite !Z.add_0_r.
Qed.

Lemma aggregated_fold (l2 : list CompletedTask) :
  forall l1 o,
    aggregated l1 o -> aggregated (l1 ++ l2)%list (fold_left add_task l2 o).
Proof.
  induction l2 as [|task l2 IH]; intros l1 o H; cbn [fold_left].
  - now rewrite app_nil_r.
  - replace (l1 ++ task :: l2)%list with ((l1 ++ [task]) ++ l2)%list
      by now rewrite <- app_assoc.
    apply IH. now apply aggregated_step.
Qed.

Lemma aggregated_all (l : list CompletedTask) :
  aggregated l (fold_left add_task l []).
Proof.
  apply (aggregated_fold l [] []). split; [constructor|].
  intros k. cbn [own]. unfold count_of. cbn.
  now rewrite orb_true_r.
Qed.

Lemma aggregated_entry (l : list CompletedTask) (o : object TaskTotal)
  (k : string) (e : TaskTotal) :
  aggregated l o -> In (k, e) o ->
  e = mkTaskTotal k (total_of k l) (count_of k l) /\
  inherited k = false /\ 0 < count_of k l.
Proof.
  intros [Hn Ho] Hin. apply (In_own o k e Hn) in Hin.
  rewrite Ho in Hin. pose proof (count_of_nonneg k l).
  destruct (inherited k); [discriminate|]. cbn [orb] in Hin.
  destruct (count_of k l =? 0) eqn:E; [discriminate|].
  apply Z.eqb_neq in E. injection Hin as <-. repeat split. lia.
Qed.

Lemma aggregated_names (l : list CompletedTask) (o : object TaskTotal) :
  aggregated l o -> map total_name (values o) = keys o.
Proof.
  intros H. unfold values, keys. rewrite map_map.
  apply map_ext_in. intros [k e] Hin.
  destruct (aggregated_entry l o k e H Hin) as [-> _]. reflexivity.
Qed.

Lemma insert_by_total_perm (x : TaskTotal) (l : list TaskTotal) :
  Permutation (insert_by_total x l) (x :: l).
Proof.
  induction l as [|y l IH]; [reflexivity|]. cbn [insert_by_total].
  destruct (totalDuration x <? totalDuration y); [|reflexivity].
  rewrite perm_swap. now apply perm_skip.
Qed.

Lemma sort_by_total_perm (l : list TaskTotal) :
  Permutation (sort_by_total l) l.
Proof.
  induction l as [|x l IH]; [reflexivity|]. cbn [sort_by_total].
  rewrite insert_by_total_perm. now apply perm_skip.
Qed.

Lemma insert_by_total_sorted (x : TaskTotal) (l : list TaskTotal) :
  StronglySorted descending l ->
  StronglySorted descending (insert_by_total x l).
Proof.
  induction l as [|y l IH]; intros Hs; cbn [insert_by_total].
  - repeat constructor.
  - inversion Hs as [|? ? Hl Hy]; subst.
    destruct (totalDuration x <? totalDuration y) eqn:E.
    + apply Z.ltb_lt in E. constructor; [now apply IH|].
      eapply Permutation_Forall;
        [symmetry; apply insert_by_total_perm|].
      constructor; [unfold descending; lia|exact Hy].
    + apply Z.ltb_ge in E. constructor; [exact Hs|].
      constructor; [exact E|].
      eapply Forall_impl; [|exact Hy]. unfold descending. intros a Ha. lia.
Qed.

Lemma sort_by_total_sorted (l : list TaskTotal) :
  StronglySorted descending (sort_by_total l).
Proof.
  induction l as [|x l IH]; [constructor|].
  cbn [sort_by_total]. now apply insert_by_total_sorted.
Qed.

Lemma firstn_In {A} (n : nat) (l : list A) (x : A) :
  In x (firstn n l) -> In x l.
Proof.
  revert l. induction n as [|n IH]; intros [|y l]; cbn [firstn In];
    try tauto. intros [H|H]; auto.
Qed.

Lemma firstn_sorted {A} (R : A -> A -> Prop) (n : nat) (l : list A) :
  StronglySorted R l -> StronglySorted R (firstn n l).
Proof.
  revert l. induction n as [|n IH]; intros [|y l] Hs; cbn [firstn];
    try constructor.
  - inversion Hs; subst. now apply IH.
  - inversion Hs as [|? ? _ Hy]; subst. rewrite Forall_forall in *.
    intros x Hx. apply Hy. eapply firstn_In. exact Hx.
Qed.

Lemma firstn_NoDup {A} (n : nat) (l : list A) :
  NoDup l -> NoDup (firstn n l).
Proof.
  revert l. induction n as [|n IH]; intros [|y l] Hn; cbn [firstn];
    try constructor.
  - inversion Hn as [|? ? Hy _]; subst. intros Hx. apply Hy.
    eapply firstn_In. exact Hx.
  - inversion Hn; subst. now apply IH.
Qed.

Lemma firstn_short {A} (n : nat) (l : list A) :
  (List.length (firstn n l) < n)%nat -> firstn n l = l.
Proof.
  intros H. apply firstn_all2. rewrite length_firstn in H. lia.
Qed.

(** X10. [getMostProductiveTasks(limit)] rejects a limit that is not a
    positive number and otherwise returns at most [limit] entries, in
    descending order of total duration, one per task name; each entry
    carries the sum of the durations and the number of the completed
    tasks of its name.  Names that a plain object inherits (a task
    called ["toString"]) get no entry; any other name that has a
    completed task has its entry unless the limit cut the list. *)
Theorem getMostProductiveTasks_totals (tm : t) :
  (forall n, n <= 0 ->
     getMostProductiveTasks (Number n) tm
     = Throw (Error "Limit must be a positive number")) /\
  (forall limit,
     (forall n, limit <> Number n) -> limit <> Undefined ->
     getMostProductiveTasks limit tm
     = Throw (Error "Limit must be a positive number")) /\
  getMostProductiveTasks Undefined tm = getMostProductiveTasks (Number 5) tm /\
  (forall n, 0 < n ->
     exists l,
       getMostProductiveTasks (Number n) tm = Normal l /\
       Z.of_nat (List.length l) <= n /\
       StronglySorted descending l /\
       NoDup (map total_name l) /\
       (forall e, In e l ->
          inherited (total_name e) = false /\
          0 < total_sessionCount e /\
          total_sessionCount e = count_of (total_name e) (completedTasks tm) /\
          totalDuration e = total_of (total_name e) (completedTasks tm)) /\
       (forall k,
          inherited k = false -> 0 < count_of k (completedTasks tm) ->
          Z.of_nat (List.length l) < n ->
          In (mkTaskTotal k (total_of k (completedTasks tm))
                (count_of k (completedTasks tm))) l)).
Proof.
  split; [|split; [|split]].
  - intros n Hn. unfold getMostProductiveTasks, invalid_limit.
    assert (E : (n <=? 0) = true) by now apply Z.leb_le.
    rewrite E, orb_true_r. reflexivity.
  - intros limit Hl Hu. unfold getMostProductiveTasks.
    destruct limit; try reflexivity.
    + now elim Hu.
    + now elim (Hl n).
  - reflexivity.
  - intros n Hn. unfold getMostProductiveTasks, invalid_limit.
    cbn [truthy number_of].
    destruct (n =? 0) eqn:E0; [apply Z.eqb_eq in E0; lia|].
    destruct (n <=? 0) eqn:E1; [apply Z.leb_le in E1; lia|].
    cbn [negb orb]. eexists. split; [reflexivity|].
    pose proof (aggregated_all (completedTasks tm)) as Hagg.
    set (o := fold_left add_task (completedTasks tm) []) in *.
    assert (Hin : forall e, In e (sort_by_total (values o)) ->
                            In (total_name e, e) o).
    { intros e He.
      apply (Permutation_in _ (sort_by_total_perm (values o))) in He.
      unfold values in He. apply in_map_iff in He.
      destruct He as [[k e'] [Hs Hp]]. cbn [snd] in Hs. subst e'.
      destruct (aggregated_entry _ _ _ _ Hagg Hp) as [-> _]. exact Hp. }
    split; [|split; [|split; [|split]]].
    + rewrite length_firstn. lia.
    + apply firstn_sorted, sort_by_total_sorted.
    + rewrite <- firstn_map. apply firstn_NoDup.
      eapply Permutation_NoDup;
        [symmetry; apply Permutation_map, sort_by_total_perm|].
      rewrite (aggregated_names _ _ Hagg). apply Hagg.
    + intros e He. apply firstn_In, Hin in He.
      destruct (aggregated_entry _ _ _ _ Hagg He) as [Ee [Hi Hc]].
      destruct e as [k0 t0 c0].
      cbn [total_name totalDuration total_sessionCount] in *.
      injection Ee as -> ->. repeat split; auto.
    + intros k Hi Hc Hlen. rewrite firstn_short by lia.
      apply (Permutation_in _ (Permutation_sym (sort_by_total_perm _))).
      unfold values. apply in_map_iff.
      exists (k, mkTaskTotal k (total_of k (completedTasks tm))
                   (count_of k (completedTasks tm))).
      split; [reflexivity|]. apply own_In.
      destruct Hagg as [_ Ho]. rewrite Ho, Hi.
      destruct (count_of k (completedTasks tm) =? 0) eqn:E;
        [apply Z.eqb_eq in E; lia|reflexivity].
Qed.

Lemma getMostProductiveTasks_totals_witness :
  getMostProductiveTasks (Number 0)
    (run [CompleteTask (mkEnv 1 "r") (Str "Write report") (Number 20)]
       TaskManager.new)
  = Throw (Error "Limit must be a positive number").
Proof.
  apply (proj1 (getMostProductiveTasks_totals _)). discriminate.
Defined.

(** The second scenario of the ledger: two completions of one name. *)
Example getMostProductiveTasks_two_sessions :
  getMostProductiveTasks (Number 1)
    (run [CompleteTask (mkEnv 1 "r") (Str "Write report") (Number 20);
          CompleteTask (mkEnv 2 "r") (Str "Write report") (Number 40)]
       TaskManager.new)
  = Normal [mkTaskTotal "Write report" 60 2].
Proof. reflexivity. Qed.

(** A task called ["toString"] is missing from the list, and names that
    are array indices come first among equal totals. *)
Example getMostProductiveTasks_inherited_name :
  getMostProductiveTasks Undefined
    (run [CompleteTask (mkEnv 1 "r") (Str "b") (Number 20);
          CompleteTask (mkEnv 2 "r") (Str "toString") (Number 99);
          CompleteTask (mkEnv 3 "r") (Str "7") (Number 20)]
       TaskManager.new)
  = Normal [mkTaskTotal "7" 20 1; mkTaskTotal "b" 20 1].
Proof. reflexivity. Qed.

Lemma sum_fold_left (l : list CompletedTask) (a : Z) :
  fold_left (fun sum task => sum + duration task) l a
  = a + fold_right (fun task sum => duration task + sum) 0 l.
Proof.
  revert a. induction l as [|x l IH]; intros a; cbn [fold_left fold_right].
  - lia.
  - rewrite IH. lia.
Qed.

Lemma fold_max_ge (xs : list Z) (x : Z) :
  x <= fold_left Z.max xs x /\
  (forall y, In y xs -> y <= fold_left Z.max xs x) /\
  In (fold_left Z.max xs x) (x :: xs).
Proof.
  revert x. induction xs as [|y xs IH]; intros x; cbn [fold_left].
  - repeat split; [lia|contradiction|now left].
  - destruct (IH (Z.max x y)) as [H1 [H2 H3]]. repeat split.
    + lia.
    + intros z [<-|Hz]; [lia|now apply H2].
    + destruct H3 as [H3|H3].
      * destruct (Z.max_spec x y) as [[_ E]|[_ E]]; rewrite E in H3 |- *;
          rewrite <- H3; cbn [In]; auto.
      * cbn [In]. auto.
Qed.

Lemma validateTaskName_iff (v : value) :
  validateTaskName v = true <-> exists s, v = Str s /\ trim s <> "".
Proof.
  split.
  - destruct v as [| |b|n| |s]; try discriminate. cbn [validateTaskName].
    intros H. apply andb_prop in H. destruct H as [_ H].
    apply Z.ltb_lt in H. exists s. split; [reflexivity|].
    intros E. rewrite E in H. cbn in H. lia.
  - intros [s [-> Hs]]. unfold validateTaskName. cbn [truthy].
    destruct s as [|c s]; [now elim Hs|]. cbn [String.eqb negb andb].
    apply Z.ltb_lt. destruct (trim (String c s)); [now elim Hs|].
    cbn [String.length]. lia.
Qed.

Lemma invalid_duration_iff (v : value) :
  invalid_duration v = false <-> exists n, v = Number n /\ 0 < n.
Proof.
  split.
  - destruct v as [| |b|n| |s]; try discriminate. cbn [invalid_duration].
    intros H. apply orb_false_elim in H. destruct H as [_ H].
    apply Z.leb_gt in H. eauto.
  - intros [n [-> Hn]]. unfold invalid_duration. cbn [truthy].
    destruct (n =? 0) eqn:E0; [apply Z.eqb_eq in E0; lia|].
    destruct (n <=? 0) eqn:E1; [apply Z.leb_le in E1; lia|reflexivity].
Qed.

(** X11. [getTaskStats(taskName)] rejects a name that is not a text with a
    non-blank character; otherwise it returns, for the trimmed name, the
    sum of the durations and the number of the completed tasks of that
    name (an inherited name like ["toString"] included), with no last
    completion when there is none and else the latest instant of
    completion among them. *)
Theorem getTaskStats_totals (tm : t) :
  (forall v, validateTaskName v = false ->
     getTaskStats v tm
     = Throw (Error "Task name must be a non-empty string")) /\
  (forall s, trim s <> "" ->
     exists st,
       getTaskStats (Str s) tm = Normal st /\
       stats_name st = trim s /\
       stats_totalDuration st = total_of (trim s) (completedTasks tm) /\
       stats_sessionCount st = count_of (trim s) (completedTasks tm) /\
       (count_of (trim s) (completedTasks tm) = 0 ->
        lastCompleted st = None /\ averageDuration st = 0%float) /\
       (0 < count_of (trim s) (completedTasks tm) ->
        exists last,
          lastCompleted st = Some last /\
          (exists task, In task (tasks_named (trim s) (completedTasks tm)) /\
                        completedAt task = last) /\
          (forall task, In task (tasks_named (trim s) (completedTasks tm)) ->
                        completedAt task <= last))).
Proof.
  split.
  - intros v Hv. unfold getTaskStats. now rewrite Hv.
  - intros s Hs. unfold getTaskStats.
    assert (Hv : validateTaskName (Str s) = true)
      by (apply validateTaskName_iff; eauto).
    rewrite Hv. cbn [negb string_of].
    fold (tasks_named (trim s) (completedTasks tm)).
    unfold total_of, count_of.
    destruct (tasks_named (trim s) (completedTasks tm)) as [|x xs] eqn:E.
    + eexists. split; [reflexivity|]. cbn. repeat split; auto. lia.
    + eexists. split; [reflexivity|].
      cbn [stats_name stats_totalDuration stats_sessionCount lastCompleted
           averageDuration].
      rewrite sum_fold_left.
      split; [reflexivity|]. split; [lia|]. split; [reflexivity|].
      split; [cbn [List.length]; lia|].
      intros _. eexists. split; [reflexivity|].
      cbn [map Math_max].
      destruct (fold_max_ge (map completedAt xs) (completedAt x))
        as [H1 [H2 H3]].
      split.
      * change (completedAt x :: map completedAt xs)
          with (map completedAt (x :: xs)) in H3.
        apply in_map_iff in H3. destruct H3 as [task [Ht Hi]]. eauto.
      * intros task [<-|Ht]; [exact H1|].
        apply H2. now apply in_map.
Qed.

Lemma getTaskStats_totals_witness :
  getTaskStats (Str "   ") TaskManager.new
  = Throw (Error "Task name must be a non-empty string").
Proof.
  apply (proj1 (getTaskStats_totals TaskManager.new)). reflexivity.
Defined.

(** The scenario of the ledger: one completion of 30 minutes; and an
    average that the doubles round down: 201 minutes in 200 sessions. *)
Example getTaskStats_write_report :
  getTaskStats (Str "Write report")
    (run [SetCurrentTask (mkEnv 1 "r") (Str "Write report");
          CompleteCurrentTask (mkEnv 2 "r") (Number 30)] TaskManager.new)
  = Normal (mkTaskStats "Write report" 30 1 30%float (Some 2)).
Proof. vm_compute. reflexivity. Qed.

Example average_rounded_in_doubles :
  PrimFloat.div
    (float_of_Z
       (Math_round
          (PrimFloat.mul (PrimFloat.div (float_of_Z 201) (float_of_Z 200))
             100%float)))
    100%float
  = 1%float.
Proof. vm_compute. reflexivity. Qed.

(** X12. [getProductivityScore()] is 0 when no task of the history was
    completed on the calendar day of the call. *)
Theorem getProductivityScore_idle_day (now : Z) (tm : t) :
  (forall task, In task (completedTasks tm) ->
                toDateString (completedAt task) <> toDateString now) ->
  getProductivityScore now tm = 0.
Proof.
  intros H.
  assert (Hf : filter (fun task =>
                 String.eqb (toDateString (completedAt task))
                   (toDateString now)) (completedTasks tm) = []).
  { induction (completedTasks tm) as [|y ys IH]; [reflexivity|].
    cbn [filter].
    destruct (String.eqb (toDateString (completedAt y)) (toDateString now))
      eqn:Ey.
    - apply String.eqb_eq in Ey. elim (H y); [now left|exact Ey].
    - apply IH. intros task Ht. apply H. now right. }
  unfold getProductivityScore. cbv zeta. rewrite Hf.
  now destruct (completedTasks tm).
Qed.

Lemma getProductivityScore_idle_day_witness :
  getProductivityScore (noon 3)
    (run [CompleteTask (mkEnv (noon 1) "r") (Str "Write report") (Number 25)]
       TaskManager.new) = 0.
Proof.
  apply getProductivityScore_idle_day.
  intros task [<-|[]]. vm_compute. discriminate.
Defined.

(** Four sessions of 25 minutes on the day of the call score 90. *)
Example getProductivityScore_busy_day :
  getProductivityScore (noon 3 + 5)
    (run [CompleteTask (mkEnv (noon 3) "r") (Str "a") (Number 25);
          CompleteTask (mkEnv (noon 3 + 1) "r") (Str "b") (Number 25);
          CompleteTask (mkEnv (noon 3 + 2) "r") (Str "a") (Number 25);
          CompleteTask (mkEnv (noon 3 + 3) "r") (Str "c") (Number 25)]
       TaskManager.new) = 90.
Proof. vm_compute. reflexivity. Qed.

Lemma streak_loop_bounds (dates : list string) :
  forall tempStreak longest,
    0 <= tempStreak -> 0 <= longest -> dates <> [] ->
    1 <= fst (streak_loop dates tempStreak longest)
      <= snd (streak_loop dates tempStreak longest) /\
    snd (streak_loop dates tempStreak longest)
    <= Z.max longest (tempStreak + Z.of_nat (List.length dates)).
Proof.
  induction dates as [|current rest IH]; intros t l Ht Hl Hne;
    [now elim Hne|].
  destruct rest as [|next rest'].
  - cbn [streak_loop fst snd List.length].
    destruct (l <? t + 1) eqn:E;
      [apply Z.ltb_lt in E|apply Z.ltb_ge in E]; lia.
  - change (streak_loop (current :: next :: rest') t l)
      with (if match Date_parse next, Date_parse current with
               | Some n, Some c => n - c =? ms_per_day
               | _, _ => false
               end
            then streak_loop (next :: rest') (t + 1) l
            else streak_loop (next :: rest') 0
                   (if l <? t then t else l)).
    assert (Hlen : Z.of_nat (List.length (current :: next :: rest'))
                   = 1 + Z.of_nat (List.length (next :: rest')))
      by (cbn [List.length]; lia).
    rewrite Hlen.
    assert (Hne' : next :: rest' <> []) by discriminate.
    destruct (match Date_parse next, Date_parse current with
              | Some n, Some c => n - c =? ms_per_day
              | _, _ => false
              end).
    + destruct (IH (t + 1) l ltac:(lia) Hl Hne') as [H1 H2]. lia.
    + destruct (l <? t) eqn:E;
        [apply Z.ltb_lt in E|apply Z.ltb_ge in E].
      * destruct (IH 0 t ltac:(lia) Ht Hne') as [H1 H2]. lia.
      * destruct (IH 0 l ltac:(lia) Hl Hne') as [H1 H2]. lia.
Qed.

Lemma distinct_length (xs : list string) :
  forall seen, (List.length (distinct seen xs) <= List.length xs)%nat.
Proof.
  induction xs as [|x xs IH]; intros seen; cbn [distinct List.length];
    [lia|].
  destruct (existsb (String.eqb x) seen); cbn [List.length].
  - specialize (IH seen). lia.
  - specialize (IH (x :: seen)). lia.
Qed.

Lemma insert_sorted_length (x : string) (l : list string) :
  List.length (insert_sorted x l) = S (List.length l).
Proof.
  induction l as [|y l IH]; [reflexivity|]. cbn [insert_sorted].
  destruct (String.leb x y); cbn [List.length]; [reflexivity|now rewrite IH].
Qed.

Lemma sort_length (l : list string) :
  List.length (sort l) = List.length l.
Proof.
  induction l as [|x l IH]; [reflexivity|]. cbn [sort].
  now rewrite insert_sorted_length, IH.
Qed.

(** X13. Whatever the history and the day of the call, the streaks that
    [getStreakInfo()] returns are ordered: the current streak is at
    least 0 and at most the longest streak, which is at most the number
    of completed tasks; with an empty history both are 0 and there is no
    last active date, otherwise the longest streak is at least 1. *)
Theorem getStreakInfo_bounds (today : Z) (tm : t) :
  0 <= currentStreak (getStreakInfo today tm)
    <= longestStreak (getStreakInfo today tm) /\
  longestStreak (getStreakInfo today tm)
  <= Z.of_nat (List.length (completedTasks tm)) /\
  (completedTasks tm = [] ->
   getStreakInfo today tm = mkStreakInfo 0 0 None) /\
  (completedTasks tm <> [] -> 1 <= longestStreak (getStreakInfo today tm)).
Proof.
  unfold getStreakInfo.
  destruct (completedTasks tm) as [|x xs] eqn:E.
  - cbn. repeat split; try lia. intros H; now elim H.
  - set (dates := sort (distinct [] (map (fun task =>
                     toDateString (completedAt task)) (x :: xs)))).
    assert (Hne : dates <> []).
    { intros H. apply (f_equal (@List.length string)) in H.
      unfold dates in H. rewrite sort_length in H. cbn in H. lia. }
    assert (Hlen : (List.length dates <= List.length (x :: xs))%nat).
    { unfold dates. rewrite sort_length.
      etransitivity; [apply distinct_length|]. now rewrite length_map. }
    destruct (streak_loop_bounds dates 0 0 ltac:(lia) ltac:(lia) Hne)
      as [H1 H2].
    destruct (streak_loop dates 0 0) as [t l]. cbn [fst snd] in *.
    cbn [currentStreak longestStreak].
    destruct (match Date_parse (last dates "") with
              | Some l0 => today - l0 <=? ms_per_day
              | None => false
              end); repeat split; try lia; discriminate.
Qed.

Lemma completeTask_appends (env : Env) (s : string) (n : Z) (tm : t) :
  trim s <> "" -> 0 < n ->
  fst (completeTask env (Str s) (Number n) tm)
  = Normal (mkCompletedTask (generateTaskId env) (trim s) n (now env)
              (count_of (trim s) (completedTasks tm) + 1)) /\
  completedTasks (snd (completeTask env (Str s) (Number n) tm))
  = (completedTasks tm
     ++ [mkCompletedTask (generateTaskId env) (trim s) n (now env)
           (count_of (trim s) (completedTasks tm) + 1)])%list /\
  currentTask (snd (completeTask env (Str s) (Number n) tm))
  = currentTask tm /\
  TaskManager.console (snd (completeTask env (Str s) (Number n) tm))
  = (TaskManager.console tm
     ++ [("Failed to save tasks to storage:",
          TypeError "this.storage.saveTodayTasks is not a function")])%list.
Proof.
  intros Hs Hn. unfold completeTask.
  assert (H1 : validateTaskName (Str s) = true)
    by (apply validateTaskName_iff; eauto).
  assert (H2 : invalid_duration (Number n) = false)
    by (apply invalid_duration_iff; eauto).
  rewrite H1, H2. repeat split.
Qed.

(** X14. [completeTask(taskName, duration)] throws, and leaves the ledger as
    it is, unless the name is a text with a non-blank character and the
    duration a number above 0 ([NaN], [undefined] and texts are
    rejected); then it appends one record, with the trimmed name, the
    duration, the instant of the call and one more than the number of
    earlier records of that name, and it leaves the current task. *)
Theorem completeTask_contract (env : Env) (taskName duration : value)
  (tm : t) :
  (validateTaskName taskName = true <->
   exists s, taskName = Str s /\ trim s <> "") /\
  (invalid_duration duration = false <->
   exists n, duration = Number n /\ 0 < n) /\
  (validateTaskName taskName = false ->
   completeTask env taskName duration tm
   = (Throw (Error "Task name must be a non-empty string"), tm)) /\
  (validateTaskName taskName = true -> invalid_duration duration = true ->
   completeTask env taskName duration tm
   = (Throw (Error "Duration must be a positive number"), tm)) /\
  (forall s n, taskName = Str s -> trim s <> "" ->
               duration = Number n -> 0 < n ->
     fst (completeTask env taskName duration tm)
     = Normal (mkCompletedTask (generateTaskId env) (trim s) n (now env)
                 (count_of (trim s) (completedTasks tm) + 1)) /\
     completedTasks (snd (completeTask env taskName duration tm))
     = (completedTasks tm
        ++ [mkCompletedTask (generateTaskId env) (trim s) n (now env)
              (count_of (trim s) (completedTasks tm) + 1)])%list /\
     currentTask (snd (completeTask env taskName duration tm))
     = currentTask tm).
Proof.
  split; [apply validateTaskName_iff|].
  split; [apply invalid_duration_iff|].
  split; [|split].
  - intros H. unfold completeTask. now rewrite H.
  - intros H1 H2. unfold completeTask. now rewrite H1, H2.
  - intros s n -> Hs -> Hn.
    destruct (completeTask_appends env s n tm Hs Hn) as [H1 [H2 [H3 _]]].
    auto.
Qed.

Lemma completeTask_contract_witness :
  completeTask (mkEnv 5 "r") (Str "Write report") NaN TaskManager.new
  = (Throw (Error "Duration must be a positive number"), TaskManager.new).
Proof.
  destruct (completeTask_contract (mkEnv 5 "r") (Str "Write report") NaN
              TaskManager.new) as [_ [_ [_ [H _]]]].
  apply H; reflexivity.
Defined.

(** X15. [setCurrentTask(taskName)] accepts exactly the texts that have a
    non-blank character: it then stores the trimmed name with the
    instant of the call, replacing any current task, and returns true;
    otherwise it throws and nothing changes.  The history is never
    touched. *)
Theorem setCurrentTask_contract (env : Env) (taskName : value) (tm : t) :
  (forall s, taskName = Str s -> trim s <> "" ->
     setCurrentTask env taskName tm
     = (Normal true,
        mkTaskManager
          (Some (mkCurrentTask (trim s) (now env) (generateTaskId env)))
          (completedTasks tm) (TaskManager.console tm))) /\
  ((forall s, taskName = Str s -> trim s = "") ->
   setCurrentTask env taskName tm
   = (Throw (Error "Task name must be a non-empty string"), tm)) /\
  completedTasks (snd (setCurrentTask env taskName tm)) = completedTasks tm.
Proof.
  split; [|split].
  - intros s -> Hs. unfold setCurrentTask.
    assert (H1 : validateTaskName (Str s) = true)
      by (apply validateTaskName_iff; eauto).
    now rewrite H1.
  - intros H. unfold setCurrentTask.
    destruct (validateTaskName taskName) eqn:E; [|reflexivity].
    apply validateTaskName_iff in E. destruct E as [s [-> Hs]].
    elim Hs. now apply H.
  - unfold setCurrentTask.
    destruct (negb (validateTaskName taskName)); reflexivity.
Qed.

Lemma setCurrentTask_contract_witness :
  currentTask
    (snd (setCurrentTask (mkEnv 9 "r") (Str " Plan week ")
            (snd (setCurrentTask (mkEnv 5 "r") (Str "Write report")
                    TaskManager.new))))
  = Some (mkCurrentTask "Plan week" 9 "task_9_r").
Proof.
  destruct (setCurrentTask_contract (mkEnv 9 "r") (Str " Plan week ")
              (snd (setCurrentTask (mkEnv 5 "r") (Str "Write report")
                      TaskManager.new))) as [H _].
  rewrite (H " Plan week " eq_refl); [reflexivity|discriminate].
Defined.

Lemma wf_run (ops : list Op) :
  forall tm, wf tm -> wf (run ops tm).
Proof.
  induction ops as [|op ops IH]; intros tm Hwf; [exact Hwf|].
  cbn [run fold_left]. apply IH. destruct op; cbn [after].
  - now apply TaskManagerFacts.wf_setCurrentTask.
  - now apply TaskManagerFacts.wf_completeCurrentTask.
  - apply TaskManagerFacts.wf_clearCurrentTask.
  - now apply TaskManagerFacts.wf_completeTask.
  - exact Hwf.
Qed.

Lemma History_step (op : Op) (tm : t) :
  wf tm -> History (completedTasks tm) ->
  History (completedTasks (after op tm)).
Proof.
  intros Hwf Hh. destruct op as [env v|env d| |env v d| ]; cbn [after].
  - unfold setCurrentTask. destruct (negb (validateTaskName v)); exact Hh.
  - unfold completeCurrentTask.
    destruct (currentTask tm) as [cur|] eqn:Ec; [|exact Hh].
    destruct (invalid_duration d) eqn:Ed; [exact Hh|].
    unfold wf in Hwf. rewrite Ec in Hwf. destruct Hwf as [Ht Hne].
    apply invalid_duration_iff in Ed. destruct Ed as [n [-> Hn]].
    assert (Hcur : trim (current_name cur) <> "") by congruence.
    destruct (completeTask_appends env (current_name cur) n tm Hcur Hn)
      as [H1 [H2 _]].
    destruct (completeTask env (Str (current_name cur)) (Number n) tm)
      as [[record|e] tm1]; cbn [fst snd] in *; [|discriminate H1].
    cbn [clearCurrentTask snd completedTasks]. rewrite H2.
    constructor; cbn [name duration sessionCount]; try assumption.
    + apply TaskManagerFacts.trim_idempotent.
    + reflexivity.
  - exact Hh.
  - destruct (validateTaskName v) eqn:Ev.
    + destruct (invalid_duration d) eqn:Ed.
      * unfold completeTask. now rewrite Ev, Ed.
      * apply validateTaskName_iff in Ev. destruct Ev as [s [-> Hs]].
        apply invalid_duration_iff in Ed. destruct Ed as [n [-> Hn]].
        destruct (completeTask_appends env s n tm Hs Hn) as [_ [H2 _]].
        rewrite H2.
        constructor; cbn [name duration sessionCount]; try assumption.
        -- apply TaskManagerFacts.trim_idempotent.
        -- reflexivity.
    + unfold completeTask. now rewrite Ev.
  - exact Hh.
Qed.

Lemma History_nth (l : list CompletedTask) :
  History l ->
  forall l1 r l2,
    l = (l1 ++ r :: l2)%list ->
    trim (name r) = name r /\ name r <> "" /\ 0 < duration r /\
    sessionCount r = count_of (name r) l1 + 1.
Proof.
  induction 1 as [|l r0 Hl IH Ht Hn Hd Hs]; intros l1 r l2 E.
  - destruct l1; discriminate E.
  - destruct l2 as [|x l2] using rev_ind.
    + apply app_inj_tail in E. destruct E as [-> ->]. auto.
    + clear IHl2. rewrite app_comm_cons, app_assoc in E.
      apply app_inj_tail in E. destruct E as [-> _]. eapply IH. reflexivity.
Qed.

(** X16. The history is append-only and well numbered.  An operation leaves
    it as it is or appends one record; and in a ledger built by its
    operations every record has a trimmed name that is not empty and a
    positive duration, and its session count is its rank among the
    records of its name: one more than the number of earlier ones. *)
Theorem history_append_only (ops : list Op) :
  (forall op tm,
     completedTasks (after op tm) = completedTasks tm \/
     exists r, completedTasks (after op tm)
               = (completedTasks tm ++ [r])%list) /\
  (forall l1 r l2,
     completedTasks (run ops TaskManager.new) = (l1 ++ r :: l2)%list ->
     trim (name r) = name r /\ name r <> "" /\ 0 < duration r /\
     sessionCount r = count_of (name r) l1 + 1).
Proof.
  split.
  - intros op tm. destruct op as [env v|env d| |env v d| ]; cbn [after].
    + left. unfold setCurrentTask.
      destruct (negb (validateTaskName v)); reflexivity.
    + unfold completeCurrentTask.
      destruct (currentTask tm) as [cur|]; [|now left].
      destruct (invalid_duration d) eqn:Ed; [now left|].
      unfold completeTask. rewrite Ed.
      destruct (negb (validateTaskName (Str (current_name cur))));
        [now left|]. right. eexists. reflexivity.
    + now left.
    + unfold completeTask.
      destruct (negb (validateTaskName v)); [now left|].
      destruct (invalid_duration d); [now left|].
      right. eexists. reflexivity.
    + now left.
  - apply History_nth.
    assert (H : forall tm, wf tm -> History (completedTasks tm) ->
                           History (completedTasks (run ops tm))).
    { induction ops as [|op ops IH]; intros tm Hwf Hh; [exact Hh|].
      cbn [run fold_left]. apply IH.
      - apply (wf_run [op] tm Hwf).
      - now apply History_step. }
    apply H; [exact I|constructor].
Qed.

Lemma history_append_only_witness :
  sessionCount (mkCompletedTask "task_3_r" "a" 40 3 2)
  = count_of "a" [mkCompletedTask "task_1_r" "a" 20 1 1;
                  mkCompletedTask "task_2_r" "b" 5 2 1] + 1.
Proof.
  refine (proj2 (proj2 (proj2
            (proj2 (history_append_only
                      [CompleteTask (mkEnv 1 "r") (Str "a") (Number 20);
                       CompleteTask (mkEnv 2 "r") (Str "b") (Number 5);
                       CompleteTask (mkEnv 3 "r") (Str "a") (Number 40)])
               [mkCompletedTask "task_1_r" "a" 20 1 1;
                mkCompletedTask "task_2_r" "b" 5 2 1]
               (mkCompletedTask "task_3_r" "a" 40 3 2) [] _)))).
  vm_compute. reflexivity.
Defined.

Lemma ledger_log_step (op : Op) (tm : t) :
  wf tm ->
  exists extra,
    TaskManager.console (after op tm) = (TaskManager.console tm ++ extra)%list /\
    Forall (fun entry => entry = sync_failure \/ entry = save_failure) extra /\
    List.length (filter is_sync_failure extra) = syncs [op] /\
    (List.length (filter is_save_failure extra)
     + List.length (completedTasks tm))%nat
    = List.length (completedTasks (after op tm)).
Proof.
  intros Hwf.
  assert (Hsame : forall tm',
             TaskManager.console tm' = TaskManager.console tm ->
             completedTasks tm' = completedTasks tm ->
             exists extra,
               TaskManager.console tm'
               = (TaskManager.console tm ++ extra)%list /\
               Forall (fun entry => entry = sync_failure \/
                                    entry = save_failure) extra /\
               List.length (filter is_sync_failure extra) = 0%nat /\
               (List.length (filter is_save_failure extra)
                + List.length (completedTasks tm))%nat
               = List.length (completedTasks tm')).
  { intros tm' Hc Hh. exists []. rewrite app_nil_r, Hh.
    split; [exact Hc|]. split; [constructor|]. split; reflexivity. }
  assert (Hgrow : forall env s n,
             trim s <> "" -> 0 < n ->
             exists extra,
               TaskManager.console
                 (snd (completeTask env (Str s) (Number n) tm))
               = (TaskManager.console tm ++ extra)%list /\
               Forall (fun entry => entry = sync_failure \/
                                    entry = save_failure) extra /\
               List.length (filter is_sync_failure extra) = 0%nat /\
               (List.length (filter is_save_failure extra)
                + List.length (completedTasks tm))%nat
               = List.length
                   (completedTasks
                      (snd (completeTask env (Str s) (Number n) tm)))).
  { intros env s n Hs Hn.
    destruct (completeTask_appends env s n tm Hs Hn) as [_ [H2 [_ H4]]].
    exists [save_failure]. rewrite H2, H4, length_app.
    split; [reflexivity|]. split; [|split].
    - constructor; [now right|constructor].
    - reflexivity.
    - change (filter is_save_failure [save_failure]) with [save_failure].
      cbn [List.length]. lia. }
  destruct op as [env v|env d| |env v d| ]; cbn [after syncs filter].
  - apply Hsame; unfold setCurrentTask;
      destruct (negb (validateTaskName v)); reflexivity.
  - unfold completeCurrentTask.
    destruct (currentTask tm) as [cur|] eqn:Ec;
      [|apply Hsame; reflexivity].
    destruct (invalid_duration d) eqn:Ed; [apply Hsame; reflexivity|].
    unfold wf in Hwf. rewrite Ec in Hwf. destruct Hwf as [Ht Hne].
    apply invalid_duration_iff in Ed. destruct Ed as [n [-> Hn]].
    assert (Hcur : trim (current_name cur) <> "") by congruence.
    specialize (Hgrow env (current_name cur) n Hcur Hn).
    destruct (completeTask_appends env (current_name cur) n tm Hcur Hn)
      as [H1 _].
    destruct (completeTask env (Str (current_name cur)) (Number n) tm)
      as [[record|e] tm1]; cbn [fst snd] in *; [|discriminate H1].
    exact Hgrow.
  - apply Hsame; reflexivity.
  - destruct (validateTaskName v) eqn:Ev.
    + destruct (invalid_duration d) eqn:Ed.
      * apply Hsame; unfold completeTask; now rewrite Ev, Ed.
      * apply validateTaskName_iff in Ev. destruct Ev as [s [-> Hs]].
        apply invalid_duration_iff in Ed. destruct Ed as [n [-> Hn]].
        now apply Hgrow.
    + apply Hsame; unfold completeTask; now rewrite Ev.
  - exists [sync_failure]. split; [reflexivity|]. split; [|split].
    + constructor; [now left|constructor].
    + reflexivity.
    + reflexivity.
Qed.

Lemma ledger_log_run (ops : list Op) :
  forall tm,
    wf tm ->
    exists extra,
      TaskManager.console (run ops tm)
      = (TaskManager.console tm ++ extra)%list /\
      Forall (fun entry => entry = sync_failure \/ entry = save_failure)
        extra /\
      List.length (filter is_sync_failure extra) = syncs ops /\
      (List.length (filter is_save_failure extra)
       + List.length (completedTasks tm))%nat
      = List.length (completedTasks (run ops tm)).
Proof.
  induction ops as [|op ops IH]; intros tm Hwf.
  - exists []. rewrite app_nil_r.
    split; [reflexivity|]. split; [constructor|]. split; reflexivity.
  - cbn [run fold_left].
    destruct (ledger_log_step op tm Hwf) as [e1 [C1 [F1 [S1 L1]]]].
    destruct (IH (after op tm) (wf_run [op] tm Hwf))
      as [e2 [C2 [F2 [S2 L2]]]].
    exists (e1 ++ e2)%list. fold (run ops (after op tm)).
    rewrite C2, C1, <- app_assoc. split; [reflexivity|].
    split; [apply Forall_app; now split|].
    rewrite !filter_app, !length_app, S1, S2. split.
    + unfold syncs. cbn [filter]. destruct op; cbn [List.length]; lia.
    + lia.
Qed.

(** X17. The ledger is never stored.  The two methods that it calls on
    the storage, [getTodayTasks] and [saveTodayTasks], are not methods
    of [Storage]: [syncWithStorage()] returns false, logs its failure
    and changes nothing else; and after any sequence of calls of the
    methods that change the ledger ([syncWithStorage()] included) on a
    new one, the log begins with the failure to sync of the
    constructor and holds nothing but failures to sync and to save: one
    more failure to sync than there were calls of [syncWithStorage()],
    and one failure to save per record of the history. *)
Theorem ledger_never_stored (ops : list Op) :
  (forall tm,
     syncWithStorage tm
     = (false,
        mkTaskManager (currentTask tm) (completedTasks tm)
          (TaskManager.console tm ++ [sync_failure]))) /\
  hd_error (TaskManager.console (run ops TaskManager.new))
  = Some sync_failure /\
  Forall (fun entry => entry = sync_failure \/ entry = save_failure)
    (TaskManager.console (run ops TaskManager.new)) /\
  List.length
    (filter is_sync_failure (TaskManager.console (run ops TaskManager.new)))
  = S (syncs ops) /\
  List.length
    (filter is_save_failure (TaskManager.console (run ops TaskManager.new)))
  = List.length (completedTasks (run ops TaskManager.new)).
Proof.
  split; [reflexivity|].
  destruct (ledger_log_run ops TaskManager.new I)
    as [extra [C [F [S L]]]].
  rewrite C.
  change (TaskManager.console TaskManager.new) with [sync_failure].
  change ([sync_failure] ++ extra)%list with (sync_failure :: extra).
  change (filter is_sync_failure (sync_failure :: extra))
    with (sync_failure :: filter is_sync_failure extra).
  change (filter is_save_failure (sync_failure :: extra))
    with (filter is_save_failure extra).
  cbn [hd_error List.length].
  split; [reflexivity|]. split; [|split].
  - constructor; [now left|exact F].
  - now rewrite S.
  - rewrite <- L.
    change (completedTasks TaskManager.new) with (@nil CompletedTask).
    cbn [List.length]. lia.
Qed.

Example syncWithStorage_logs_again :
  TaskManager.console
    (run [SyncWithStorage;
          CompleteTask (mkEnv 1 "r") (Str "a") (Number 20);
          SyncWithStorage] TaskManager.new)
  = [sync_failure; sync_failure; save_failure; sync_failure].
Proof. vm_compute. reflexivity. Qed.

End TaskAnalyticsFacts.

(** ** [Storage.js] *)

Module StorageFacts.

Import Runtime Plain Storage.
Local Open Scope run_scope.

(** *** Keys and items *)

Lemma own_remove {V} (k k' : string) (o : object V) :
  own (remove k o) k' = if String.eqb k k' then None else own o k'.
Proof.
  unfold remove. induction o as [|[k0 x] o IH]; cbn [filter own fst].
  - now destruct (String.eqb k k').
  - destruct (String.eqb k0 k) eqn:E; cbn [negb own].
    + apply String.eqb_eq in E. subst k0. rewrite IH.
      now destruct (String.eqb k k').
    + rewrite IH. destruct (String.eqb k k') eqn:E'; [|reflexivity].
      apply String.eqb_eq in E'. subst k'. now rewrite E.
Qed.

(** *** Date keys *)

Lemma all_chars_app (p : ascii -> bool) (a b : string) :
  all_chars p (a ++ b) = all_chars p a && all_chars p b.
Proof.
  induction a as [|c a IH]; [reflexivity|]. cbn [append all_chars].
  rewrite IH. now rewrite andb_assoc.
Qed.

Lemma string_of_uint_digits (u : Decimal.uint) :
  all_chars date_char (NilEmpty.string_of_uint u) = true.
Proof. induction u; cbn [NilEmpty.string_of_uint all_chars]; auto. Qed.

Lemma decimal_chars (n : Z) : all_chars date_char (decimal n) = true.
Proof.
  unfold decimal.
  assert (H : forall u, all_chars date_char (NilZero.string_of_uint u) = true).
  { intros u. destruct u; try apply string_of_uint_digits. reflexivity. }
  destruct (Z.to_int n); cbn [NilZero.string_of_int all_chars]; auto.
  now rewrite H.
Qed.

Lemma decimal_not_empty (n : Z) : decimal n <> "".
Proof.
  unfold decimal.
  assert (H : forall u, NilZero.string_of_uint u <> "").
  { intros u. destruct u; discriminate. }
  destruct (Z.to_int n); cbn [NilZero.string_of_int]; [apply H|discriminate].
Qed.

Lemma zeros_chars (k : nat) :
  all_chars date_char (string_of_list_ascii (repeat "0"%char k)) = true.
Proof. induction k; cbn; auto. Qed.

Lemma pad_chars (w : nat) (n : Z) : all_chars date_char (pad w n) = true.
Proof.
  unfold pad. cbv zeta. rewrite all_chars_app, zeros_chars, decimal_chars.
  reflexivity.
Qed.

Lemma pad_not_empty (w : nat) (n : Z) : pad w n <> "".
Proof.
  unfold pad. cbv zeta.
  destruct (string_of_list_ascii _); [|discriminate].
  apply decimal_not_empty.
Qed.

Lemma year_text_chars (y : Z) : all_chars date_char (year_text y) = true.
Proof.
  unfold year_text. destruct ((0 <=? y) && (y <=? 9999)).
  - apply pad_chars.
  - rewrite all_chars_app, pad_chars. now destruct (y <? 0).
Qed.

Lemma year_text_not_empty (y : Z) : year_text y <> "".
Proof.
  unfold year_text. destruct ((0 <=? y) && (y <=? 9999)).
  - apply pad_not_empty.
  - now destruct (y <? 0).
Qed.

Lemma before_app (c : ascii) (a r : string) :
  all_chars (fun x => negb (Ascii.eqb x c)) a = true ->
  before c (a ++ String c r) = a.
Proof.
  induction a as [|x a IH]; cbn [append before all_chars].
  - now rewrite Ascii.eqb_refl.
  - intros H. apply andb_prop in H. destruct H as [Hx Ha].
    apply negb_true_iff in Hx. rewrite Hx. now rewrite IH.
Qed.

Lemma all_chars_weaken (p q : ascii -> bool) (s : string) :
  (forall c, p c = true -> q c = true) ->
  all_chars p s = true -> all_chars q s = true.
Proof.
  intros Hpq. induction s as [|c s IH]; [reflexivity|]. cbn [all_chars].
  intros H. apply andb_prop in H. destruct H as [Hc Hs].
  now rewrite (Hpq _ Hc), IH.
Qed.

Lemma date_char_not (c x : ascii) :
  date_char x = false -> date_char c = true -> negb (Ascii.eqb c x) = true.
Proof.
  intros Hx Hc. destruct (Ascii.eqb_spec c x); [|reflexivity]. congruence.
Qed.

Lemma uint_of_string_dash (a r : string) :
  NilEmpty.uint_of_string (a ++ String "-" r) = None.
Proof.
  induction a as [|c a IH]; cbn [append NilEmpty.uint_of_string].
  - now destruct (NilEmpty.uint_of_string r).
  - rewrite IH. reflexivity.
Qed.

Lemma array_index_dash (a r : string) :
  array_index (a ++ String "-" r) = None.
Proof. unfold array_index. now rewrite uint_of_string_dash. Qed.

Lemma append_assoc (a b c : string) : (a ++ b) ++ c = a ++ (b ++ c).
Proof.
  induction a as [|x a IH]; [reflexivity|]. cbn [append]. now rewrite IH.
Qed.

Lemma date_chars (y m d : Z) :
  all_chars date_char (year_text y ++ "-" ++ pad 2 m ++ "-" ++ pad 2 d)
  = true.
Proof.
  rewrite all_chars_app, year_text_chars.
  change ("-" ++ pad 2 m ++ "-" ++ pad 2 d)
    with (String "-" (pad 2 m ++ String "-" (pad 2 d))).
  cbn [all_chars andb]. rewrite all_chars_app, pad_chars.
  cbn [all_chars andb]. now rewrite pad_chars.
Qed.

(** The key of a day: the date of the ISO text. *)
Lemma date_key_eq (ms : Z) :
  date_key ms
  = (let '(y, m, d) := civil_from_days (ms / ms_per_day) in
     year_text y ++ "-" ++ pad 2 m ++ "-" ++ pad 2 d).
Proof.
  unfold date_key, iso_text. cbv zeta.
  destruct (civil_from_days (ms / ms_per_day)) as [[y m] d].
  set (time := pad 2 (ms mod ms_per_day / 3600000) ++ _).
  change (year_text y ++ "-" ++ pad 2 m ++ "-" ++ pad 2 d ++ "T" ++ time)
    with (year_text y ++ "-" ++ pad 2 m ++ "-" ++ pad 2 d
          ++ String "T" time).
  replace (year_text y ++ "-" ++ pad 2 m ++ "-" ++ pad 2 d
           ++ String "T" time)
    with ((year_text y ++ "-" ++ pad 2 m ++ "-" ++ pad 2 d)
          ++ String "T" time)
    by (rewrite !append_assoc; reflexivity).
  apply before_app.
  apply (all_chars_weaken date_char);
    [intros c; now apply date_char_not|].
  apply date_chars.
Qed.

Lemma date_like_of_chars (a r : string) :
  a <> "" -> all_chars date_char a = true ->
  date_like (a ++ String "-" r) = true.
Proof.
  intros Ha Hc. destruct a as [|c a]; [now elim Ha|].
  cbn [all_chars] in Hc. apply andb_prop in Hc. destruct Hc as [Hc _].
  unfold date_like. cbn [append].
  change (String c (a ++ String "-" r))
    with (String c a ++ String "-" r).
  rewrite array_index_dash. unfold date_char in Hc. now rewrite Hc.
Qed.

Lemma date_like_date_key (ms : Z) :
  date_like (date_key ms) = true.
Proof.
  rewrite date_key_eq.
  destruct (civil_from_days (ms / ms_per_day)) as [[y m] d].
  apply date_like_of_chars;
    [apply year_text_not_empty|apply year_text_chars].
Qed.

Lemma date_like_plain (key : string) :
  date_like key = true ->
  array_index key = None /\
  String.eqb key "length" = false /\
  String.eqb key "__proto__" = false /\
  String.eqb key "push" = false /\
  String.eqb key "filter" = false /\
  existsb (String.eqb key) Object_prototype = false.
Proof.
  unfold date_like. destruct key as [|c r]; [discriminate|].
  intros H. apply andb_prop in H. destruct H as [Hc Hi].
  split; [now destruct (array_index (String c r))|].
  assert (Hn : forall x s, date_char x = false ->
                           String.eqb (String c r) (String x s) = false).
  { intros x s Hx. cbn [String.eqb].
    destruct (Ascii.eqb_spec c x); [|reflexivity].
    subst. unfold date_char in Hx. congruence. }
  cbn [existsb Object_prototype].
  rewrite !Hn by reflexivity. repeat split.
Qed.


(** *** Texts read back *)

Lemma revive_defined (d : data) : d <> Undefined -> revive d <> Undefined.
Proof. destruct d; cbn [revive]; congruence. Qed.

Lemma revive_idempotent : forall d, revive (revive d) = revive d.
Proof.
  fix IH 1. intros [ | |b|n|s|elements named|properties];
    try reflexivity.
  - cbn [revive]. f_equal.
    induction elements as [|e l IHl]; [reflexivity|].
    cbn [map]. f_equal; [|exact IHl].
    pose proof (IH e) as He.
    destruct e; try reflexivity; cbn [revive] in He |- *; exact He.
  - cbn [revive]. f_equal.
    induction properties as [|[k v] l IHl]; [reflexivity|].
    cbn [filter_map fst snd].
    pose proof (IH v) as Hv.
    destruct v; try exact IHl;
      cbn [filter_map fst snd]; cbn [revive] in Hv |- *;
      try rewrite Hv; f_equal; exact IHl.
Qed.

Lemma own_revive (o : object data) (k : string) (v : data) :
  own o k = Some v -> v <> Undefined ->
  own (filter_map
         (fun p => let v := snd p in
                   match v with
                   | Undefined => None
                   | _ => Some (fst p, revive v)
                   end) o) k
  = Some (revive v).
Proof.
  induction o as [|[k0 x] o IH]; [discriminate|].
  cbn [own filter_map fst snd]. destruct (String.eqb k0 k) eqn:E.
  - intros H Hv. injection H as ->.
    destruct v; try (now elim Hv); cbn [own]; now rewrite E.
  - intros H Hv. specialize (IH H Hv).
    destruct x; try exact IH; cbn [own]; now rewrite E.
Qed.

(** *** Calls that leave the items as they are *)

Lemma quiet_ret {A} (a : A) : quiet (ret a).
Proof. intros h. reflexivity. Qed.

Lemma quiet_lift {A} (o : outcome A) : quiet (lift o).
Proof. intros h. reflexivity. Qed.

Lemma quiet_console_error (label : string) (e : error) :
  quiet (console_error label e).
Proof. intros h. reflexivity. Qed.

Lemma quiet_bind {A B} (m : Run A) (k : A -> Run B) :
  quiet m -> (forall a, quiet (k a)) -> quiet (bind m k).
Proof.
  intros Hm Hk h. unfold bind. specialize (Hm h).
  destruct (m h) as [[a|e|] h']; cbn [snd] in *; try exact Hm.
  now rewrite Hk.
Qed.

Lemma quiet_attempt {A} (m : Run A) (handler : error -> Run A) :
  quiet m -> (forall e, quiet (handler e)) -> quiet (attempt m handler).
Proof.
  intros Hm Hk h. unfold attempt. specialize (Hm h).
  destruct (m h) as [[a|e|] h']; cbn [snd] in *; try exact Hm.
  now rewrite Hk.
Qed.

Lemma quiet_getItem (env : Env) (key : string) : quiet (getItem env key).
Proof. intros h. unfold getItem. now destruct (denied env). Qed.

Lemma quiet_setItem (env : Env) (key : string) (value : text) :
  denied env || full env = true -> quiet (setItem env key value).
Proof.
  intros H h. unfold setItem.
  destruct (denied env); [reflexivity|].
  destruct (full env); [reflexivity|discriminate].
Qed.

Ltac quiet_step :=
  first
    [ apply quiet_ret | apply quiet_lift | apply quiet_console_error
    | apply quiet_getItem
    | apply quiet_setItem; assumption
    | apply quiet_bind; [|intros ?]
    | apply quiet_attempt; [|intros ?]
    | match goal with
      | |- quiet (if ?b then _ else _) => destruct b
      | |- quiet (match ?x with _ => _ end) => destruct x
      end ].

Ltac quiet_solve := cbv zeta; repeat quiet_step.

Lemma quiet_safeJsonParse (item : option text) (fallback : data) :
  quiet (safeJsonParse item fallback).
Proof. unfold safeJsonParse. quiet_solve. Qed.

Lemma quiet_getAllStats (env : Env) : quiet (getAllStats env).
Proof.
  unfold getAllStats. quiet_solve.
Qed.

Lemma quiet_getSettings (env : Env) (this : t) : quiet (getSettings env this).
Proof.
  unfold getSettings. quiet_solve.
Qed.

Lemma quiet_getAllTasks (env : Env) (this : t) : quiet (getAllTasks env this).
Proof.
  unfold getAllTasks. quiet_solve.
Qed.

Lemma quiet_getTodaysStats (env : Env) (this : t) :
  quiet (getTodaysStats env this).
Proof.
  unfold getTodaysStats. quiet_solve.
Qed.

Lemma quiet_getTodaysTasks (env : Env) (this : t) :
  quiet (getTodaysTasks env this).
Proof.
  unfold getTodaysTasks. quiet_solve; apply quiet_getAllTasks.
Qed.

Lemma quiet_getTasksByDateRange (env : Env) (this : t) (a b : Z) :
  quiet (getTasksByDateRange env this a b).
Proof.
  unfold getTasksByDateRange. quiet_solve; apply quiet_getAllTasks.
Qed.

Lemma quiet_getWeeklyStats (env : Env) (this : t) :
  quiet (getWeeklyStats env this).
Proof.
  unfold getWeeklyStats. quiet_solve.
Qed.

Section Failing.

Variable env : Env.
Hypothesis failing : denied env || full env = true.

Lemma quiet_saveSettings (this : t) (settings : data) :
  quiet (saveSettings env this settings).
Proof. unfold saveSettings. quiet_solve. Qed.

Lemma quiet_updateSetting (this : t) (key : string) (value : data) :
  quiet (updateSetting env this key value).
Proof.
  unfold updateSetting. quiet_solve; first [apply quiet_getSettings|apply quiet_saveSettings].
Qed.

Lemma quiet_saveTask (this : t) (task : data) :
  quiet (saveTask env this task).
Proof. unfold saveTask. quiet_solve; apply quiet_getAllTasks. Qed.

Lemma quiet_clearHistory (this : t) : quiet (clearHistory env this).
Proof. unfold clearHistory. quiet_solve. Qed.

Lemma quiet_incrementSessionCount (this : t) :
  quiet (incrementSessionCount env this).
Proof.
  unfold incrementSessionCount. quiet_solve; apply quiet_getTodaysStats.
Qed.

Lemma quiet_resetDailyStats (this : t) : quiet (resetDailyStats env this).
Proof. unfold resetDailyStats. quiet_solve. Qed.

Lemma quiet_new : quiet (new env).
Proof.
  intros h. unfold new, checkLocalStorageAvailability, attempt, bind, setItem.
  destruct (denied env); [reflexivity|].
  destruct (full env); [reflexivity|discriminate failing].
Qed.

End Failing.

Lemma quiet_after (env : Env) (this : t) (op : Op) (h : Host) :
  (reading op = true -> items (after (env, this, op) h) = items h) /\
  (isAvailable this = false -> op <> Construct ->
   after (env, this, op) h = h) /\
  (denied env || full env = true ->
   items (after (env, this, op) h) = items h).
Proof.
  split; [|split].
  - destruct op; try discriminate; intros _; cbn [after].
    + apply quiet_getSettings.
    + apply quiet_getTodaysTasks.
    + apply quiet_getAllTasks.
    + apply quiet_getTasksByDateRange.
    + apply quiet_getTodaysStats.
    + apply quiet_getWeeklyStats.
  - intros Ha Hop. destruct op; cbn [after]; try (now elim Hop);
      unfold saveSettings, getSettings, updateSetting, saveTask,
        getTodaysTasks, getAllTasks, clearHistory, getTasksByDateRange,
        incrementSessionCount, getTodaysStats, getWeeklyStats,
        resetDailyStats;
      rewrite Ha; reflexivity.
  - intros Hf. destruct op; cbn [after].
    + now apply quiet_new.
    + now apply quiet_saveSettings.
    + apply quiet_getSettings.
    + now apply quiet_updateSetting.
    + now apply quiet_saveTask.
    + apply quiet_getTodaysTasks.
    + apply quiet_getAllTasks.
    + now apply quiet_clearHistory.
    + apply quiet_getTasksByDateRange.
    + now apply quiet_incrementSessionCount.
    + apply quiet_getTodaysStats.
    + apply quiet_getWeeklyStats.
    + now apply quiet_resetDailyStats.
Qed.

(** X18. A method that only reads leaves the items of [localStorage] as they
    are; so does every call on an instance that found [localStorage]
    unavailable, which changes nothing at all; and so does every call,
    the constructor included, made while the platform denies access or
    the quota is used up. *)
Theorem reads_never_write (env : Env) (this : t) (op : Op) (h : Host) :
  (reading op = true -> items (after (env, this, op) h) = items h) /\
  (isAvailable this = false -> op <> Construct ->
   after (env, this, op) h = h) /\
  (denied env || full env = true ->
   items (after (env, this, op) h) = items h).
Proof.
  split; [|split].
  - destruct op; try discriminate; intros _; cbn [after].
    + apply quiet_getSettings.
    + apply quiet_getTodaysTasks.
    + apply quiet_getAllTasks.
    + apply quiet_getTasksByDateRange.
    + apply quiet_getTodaysStats.
    + apply quiet_getWeeklyStats.
  - intros Ha Hop. destruct op; cbn [after]; try (now elim Hop);
      unfold saveSettings, getSettings, updateSetting, saveTask,
        getTodaysTasks, getAllTasks, clearHistory, getTasksByDateRange,
        incrementSessionCount, getTodaysStats, getWeeklyStats,
        resetDailyStats;
      rewrite Ha; reflexivity.
  - intros Hf. destruct op; cbn [after].
    + now apply quiet_new.
    + now apply quiet_saveSettings.
    + apply quiet_getSettings.
    + now apply quiet_updateSetting.
    + now apply quiet_saveTask.
    + apply quiet_getTodaysTasks.
    + apply quiet_getAllTasks.
    + now apply quiet_clearHistory.
    + apply quiet_getTasksByDateRange.
    + now apply quiet_incrementSessionCount.
    + apply quiet_getTodaysStats.
    + apply quiet_getWeeklyStats.
    + now apply quiet_resetDailyStats.
Qed.


(** *** The key shared by the history and the statistics *)

Lemma shared_key : STATISTICS = TASK_HISTORY /\ TASK_HISTORY = "undefined".
Proof. split; reflexivity. Qed.

Lemma filed_revive (d : data) : filed d -> revive_element d = d.
Proof. intros [o [k [-> [_ H]]]]. exact H. Qed.

Lemma filed_list (tasks : list data) :
  Forall filed tasks -> map revive_element tasks = tasks.
Proof.
  induction 1 as [|d l Hd Hl IH]; [reflexivity|].
  cbn [map]. now rewrite IH, filed_revive.
Qed.

Lemma revive_array (tasks : list data) (named : object data) :
  Forall filed tasks -> revive (Array tasks named) = Array tasks [].
Proof.
  intros H. cbn [revive]. f_equal. now apply filed_list.
Qed.

Lemma filed_taskWithTimestamp (env : Env) (task : data) :
  filed (revive (taskWithTimestamp env task)).
Proof.
  unfold taskWithTimestamp. cbn [revive].
  eexists. exists (getDateKey env). split; [reflexivity|]. split.
  - apply (own_revive _ "date" (Str (getDateKey env)));
      [|discriminate].
    now rewrite PlainFacts.own_set, String.eqb_refl.
  - apply (revive_idempotent (Object _)).
Qed.

Lemma date_like_getDateKey (env : Env) : date_like (getDateKey env) = true.
Proof. apply date_like_date_key. Qed.

Lemma toISOString_valid (date : Z) :
  valid_time date = true -> toISOString date = Returns (iso_text date).
Proof. intros H. unfold toISOString. now rewrite H. Qed.

Lemma formatDateKey_valid (date : Z) :
  valid_time date = true -> formatDateKey date = Returns (date_key date).
Proof. intros H. unfold formatDateKey. now rewrite toISOString_valid. Qed.

Lemma formatDateKey_invalid (date : Z) :
  valid_time date = false ->
  formatDateKey date = Throws (Error "RangeError: Invalid time value").
Proof. intros H. unfold formatDateKey, toISOString. now rewrite H. Qed.

Local Opaque iso_text date_key getDateKey.

Section Working.

Variables (env : Env) (this : t) (h : Host) (tasks : list data).
Hypothesis available : isAvailable this = true.
Hypothesis granted : denied env = false.
Hypothesis history :
  own (items h) TASK_HISTORY = Some (Json (Array tasks [])).

Lemma getAllStats_array : getAllStats env h = (Returns (Array tasks []), h).
Proof.
  unfold getAllStats, attempt, bind, getItem, safeJsonParse, attempt.
  rewrite granted. change STATISTICS with TASK_HISTORY. rewrite history.
  reflexivity.
Qed.

Lemma getAllTasks_array :
  getAllTasks env this h = (Returns (Array tasks []), h).
Proof.
  unfold getAllTasks. rewrite available. cbn [negb].
  unfold attempt, bind, getItem, safeJsonParse, attempt.
  rewrite granted, history. reflexivity.
Qed.

Lemma getTodaysStats_array :
  getTodaysStats env this h
  = (Returns (defaultStats (iso_text (now env))), h).
Proof.
  unfold getTodaysStats. rewrite available. cbn [negb].
  unfold attempt, bind. rewrite getAllStats_array. unfold lift, get_property, put. cbn [own].
  destruct (date_like_plain (getDateKey env)) as [Hi [Hl [Hp _]]];
    [apply date_like_getDateKey|].
  rewrite date_like_getDateKey. cbn [truthy negb own].
  rewrite Hi, Hl, Hp. cbn [orb].
  rewrite PlainFacts.own_set, String.eqb_refl. reflexivity.
Qed.

Hypothesis roomy : full env = false.
Hypothesis all_filed : Forall filed tasks.

Lemma incrementSessionCount_array :
  incrementSessionCount env this h
  = (Returns true,
     mkHost (set STATISTICS (Json (Array tasks [])) (items h)) (console h)).
Proof.
  unfold incrementSessionCount. rewrite available. cbn [negb].
  unfold attempt, bind. rewrite getTodaysStats_array.
  unfold lift. cbn [get_property defaultStats own String.eqb Ascii.eqb
                    Bool.eqb add_one put set replace].
  rewrite getAllStats_array.
  destruct (date_like_plain (getDateKey env)) as [Hi [Hl [Hp _]]];
    [apply date_like_getDateKey|].
  unfold put. cbn [own]. rewrite Hi, Hl, Hp. cbn [orb].
  unfold setItem. rewrite granted, roomy.
  unfold stringify. rewrite revive_array by exact all_filed.
  reflexivity.
Qed.

Lemma resetDailyStats_array :
  resetDailyStats env this h
  = (Returns true,
     mkHost (set STATISTICS (Json (Array tasks [])) (items h)) (console h)).
Proof.
  unfold resetDailyStats. rewrite available. cbn [negb].
  unfold attempt, bind. rewrite getAllStats_array.
  unfold lift, put.
  destruct (date_like_plain (getDateKey env)) as [Hi [Hl [Hp _]]];
    [apply date_like_getDateKey|].
  cbn [own]. rewrite Hi, Hl, Hp. cbn [orb].
  unfold setItem. rewrite granted, roomy.
  unfold stringify. rewrite revive_array by exact all_filed.
  reflexivity.
Qed.

Lemma saveTask_array (task : data) :
  saveTask env this task h
  = (Returns true,
     mkHost
       (set TASK_HISTORY
          (Json (Array (tasks ++ [revive (taskWithTimestamp env task)]) []))
          (items h))
       (console h)).
Proof.
  unfold saveTask. rewrite available. cbn [negb].
  unfold attempt, bind. rewrite getAllTasks_array.
  unfold lift, push. cbn [own].
  unfold setItem. rewrite granted, roomy.
  unfold stringify. cbn [revive]. rewrite map_app. cbn [map].
  fold revive_element. rewrite filed_list by exact all_filed.
  reflexivity.
Qed.

End Working.

(** *** Calls that leave the history as it is *)

Lemma quiet_keeps {A} (m : Run A) : quiet m -> keeps m.
Proof. intros H h. now rewrite H. Qed.

Lemma keeps_bind {A B} (m : Run A) (k : A -> Run B) :
  keeps m -> (forall a, keeps (k a)) -> keeps (bind m k).
Proof.
  intros Hm Hk h. unfold bind. specialize (Hm h).
  destruct (m h) as [[a|e|] h']; cbn [snd] in *; try exact Hm.
  now rewrite Hk.
Qed.

Lemma keeps_attempt {A} (m : Run A) (handler : error -> Run A) :
  keeps m -> (forall e, keeps (handler e)) -> keeps (attempt m handler).
Proof.
  intros Hm Hk h. unfold attempt. specialize (Hm h).
  destruct (m h) as [[a|e|] h']; cbn [snd] in *; try exact Hm.
  now rewrite Hk.
Qed.

Lemma keeps_setItem (env : Env) (key : string) (value : text) :
  String.eqb key TASK_HISTORY = false -> keeps (setItem env key value).
Proof.
  intros H h. unfold setItem.
  destruct (denied env); [reflexivity|].
  destruct (full env); [reflexivity|]. cbn [snd items].
  now rewrite PlainFacts.own_set, H.
Qed.

Lemma keeps_removeItem (env : Env) (key : string) :
  String.eqb key TASK_HISTORY = false -> keeps (removeItem env key).
Proof.
  intros H h. unfold removeItem.
  destruct (denied env); [reflexivity|]. cbn [snd items].
  now rewrite own_remove, H.
Qed.

Lemma keeps_saveSettings (env : Env) (this : t) (settings : data) :
  keeps (saveSettings env this settings).
Proof.
  unfold saveSettings. destruct (negb (isAvailable this)).
  - apply quiet_keeps, quiet_ret.
  - apply keeps_attempt.
    + apply keeps_bind; [now apply keeps_setItem|].
      intros _. apply quiet_keeps, quiet_ret.
    + intros e. apply quiet_keeps. quiet_solve.
Qed.

Lemma keeps_updateSetting (env : Env) (this : t) (key : string)
  (value : data) :
  keeps (updateSetting env this key value).
Proof.
  unfold updateSetting. destruct (negb (isAvailable this)).
  - apply quiet_keeps, quiet_ret.
  - apply keeps_attempt.
    + apply keeps_bind; [apply quiet_keeps, quiet_getSettings|].
      intros settings. apply keeps_bind; [apply quiet_keeps, quiet_lift|].
      intros settings'. apply keeps_saveSettings.
    + intros e. apply quiet_keeps. quiet_solve.
Qed.

Lemma keeps_checkLocalStorageAvailability (env : Env) :
  keeps (checkLocalStorageAvailability env).
Proof.
  unfold checkLocalStorageAvailability. apply keeps_attempt.
  - apply keeps_bind; [now apply keeps_setItem|]. intros _.
    apply keeps_bind; [now apply keeps_removeItem|]. intros _.
    apply quiet_keeps, quiet_ret.
  - intros e. apply quiet_keeps. quiet_solve.
Qed.

(** The constructor leaves a history that is there. *)
Lemma new_keeps_history (env : Env) (h : Host) :
  present (own (items h) TASK_HISTORY) = true ->
  own (items (snd (new env h))) TASK_HISTORY = own (items h) TASK_HISTORY.
Proof.
  intros Hp. unfold new, bind.
  pose proof (keeps_checkLocalStorageAvailability env h) as Hc.
  destruct (checkLocalStorageAvailability env h) as [[[|]|e|] h1];
    cbn [snd] in *; try exact Hc.
  - rewrite <- Hc in Hp |- *.
    assert (Hi : own (items (snd (initializeStorage env h1))) TASK_HISTORY
                 = own (items h1) TASK_HISTORY).
    { unfold initializeStorage, attempt, bind.
      unfold getItem at 1. destruct (denied env) eqn:Ed; [reflexivity|].
      set (settings := own (items h1) SETTINGS).
      assert (H2 : (exists h2,
                 (if negb (present settings)
                  then setItem env SETTINGS (stringify defaultSettings)
                  else ret tt) h1 = (Returns tt, h2) /\
                 own (items h2) TASK_HISTORY = own (items h1) TASK_HISTORY)
                 \/
                 (exists e,
                   (if negb (present settings)
                    then setItem env SETTINGS (stringify defaultSettings)
                    else ret tt) h1 = (Throws e, h1))).
      { destruct (negb (present settings)).
        - unfold setItem. rewrite Ed. destruct (full env).
          + right. eexists. reflexivity.
          + left. eexists. split; [reflexivity|]. cbn [items].
            now rewrite PlainFacts.own_set.
        - left. exists h1. split; reflexivity. }
      destruct H2 as [[h2 [-> H2]]|[e ->]]; [|reflexivity].
      change STATISTICS with TASK_HISTORY.
      unfold getItem. rewrite Ed. unfold ret.
      rewrite H2, Hp. cbn [negb]. rewrite H2, Hp. cbn [negb snd].
      exact H2. }
    destruct (initializeStorage env h1) as [[[]|e|] h2];
      cbn [snd] in *; exact Hi.
Qed.

(** The history is kept as an array of filed tasks by every call. *)
Lemma history_is_array_after (call : Env * t * Op) (h : Host) :
  history_is_array h -> history_is_array (after call h).
Proof.
  destruct call as [[env this] op]. intros [tasks [Hh Hf]].
  destruct (denied env || full env) eqn:F.
  { destruct (quiet_after env this op h) as [_ [_ H]].
    exists tasks. now rewrite H. }
  apply orb_false_elim in F. destruct F as [Hd Hq].
  assert (Hread : reading op = true -> history_is_array (after (env, this, op) h)).
  { intros Hr. destruct (quiet_after env this op h) as [H _].
    exists tasks. now rewrite H. }
  assert (Hkeep : own (items (after (env, this, op) h)) TASK_HISTORY
                  = own (items h) TASK_HISTORY ->
                  history_is_array (after (env, this, op) h)).
  { intros H. exists tasks. now rewrite H. }
  destruct op; try (apply Hread; reflexivity).
  - apply Hkeep. cbn [after]. apply new_keeps_history. now rewrite Hh.
  - apply Hkeep. cbn [after]. apply keeps_saveSettings.
  - apply Hkeep. cbn [after]. apply keeps_updateSetting.
  - destruct (isAvailable this) eqn:A.
    + cbn [after]. rewrite (saveTask_array env this h tasks A Hd Hh Hq Hf).
      cbn [snd]. eexists. cbn [items]. split.
      * now rewrite PlainFacts.own_set, String.eqb_refl.
      * apply Forall_app. split; [exact Hf|].
        constructor; [apply filed_taskWithTimestamp|constructor].
    + destruct (quiet_after env this (SaveTask task) h)
        as [_ [H _]].
      rewrite H; [|exact A|discriminate]. now exists tasks.
  - destruct (isAvailable this) eqn:A.
    + cbn [after]. unfold clearHistory. rewrite A. cbn [negb].
      unfold attempt, bind, setItem. rewrite Hd, Hq. cbn [snd ret].
      exists []. cbn [items]. split; [|constructor].
      now rewrite PlainFacts.own_set, String.eqb_refl.
    + destruct (quiet_after env this ClearHistory h) as [_ [H _]].
      rewrite H; [|exact A|discriminate]. now exists tasks.
  - destruct (isAvailable this) eqn:A.
    + cbn [after].
      rewrite (incrementSessionCount_array env this h tasks A Hd Hh Hq Hf).
      cbn [snd]. exists tasks. cbn [items]. split; [|exact Hf].
      now rewrite PlainFacts.own_set, String.eqb_refl.
    + destruct (quiet_after env this IncrementSessionCount h)
        as [_ [H _]].
      rewrite H; [|exact A|discriminate]. now exists tasks.
  - destruct (isAvailable this) eqn:A.
    + cbn [after].
      rewrite (resetDailyStats_array env this h tasks A Hd Hh Hq Hf).
      cbn [snd]. exists tasks. cbn [items]. split; [|exact Hf].
      now rewrite PlainFacts.own_set, String.eqb_refl.
    + destruct (quiet_after env this ResetDailyStats h)
        as [_ [H _]].
      rewrite H; [|exact A|discriminate]. now exists tasks.
Qed.

Lemma history_is_array_run (calls : list (Env * t * Op)) :
  forall h, history_is_array h -> history_is_array (run calls h).
Proof.
  induction calls as [|call calls IH]; intros h Hh; [exact Hh|].
  cbn [run fold_left]. apply IH. now apply history_is_array_after.
Qed.

(** *** The constructor *)

Lemma new_working (env : Env) (h : Host) :
  denied env = false -> full env = false ->
  new env h = (Returns (mkStorage true), mkHost (initialised (items h)) (console h)).
Proof.
  intros Hd Hq.
  unfold new, checkLocalStorageAvailability, initializeStorage, attempt, bind,
    setItem, removeItem, getItem, ret.
  rewrite Hd, Hq. cbn [items console].
  unfold initialised. cbv zeta.
  set (i1 := remove "test" (set "test" (Malformed "test") (items h))).
  change STATISTICS with TASK_HISTORY.
  destruct (present (own i1 SETTINGS)); cbn [negb items console].
  - destruct (present (own i1 TASK_HISTORY)) eqn:E2; cbn [negb items console].
    + now rewrite E2.
    + rewrite PlainFacts.own_set, String.eqb_refl. reflexivity.
  - set (i2 := set SETTINGS (stringify defaultSettings) i1).
    change (set SETTINGS (Json defaultSettings) i1) with i2.
    destruct (present (own i2 TASK_HISTORY)) eqn:E2; cbn [negb items console].
    + now rewrite E2.
    + rewrite PlainFacts.own_set, String.eqb_refl. reflexivity.
Qed.

(** X19. [new Storage()] finds [localStorage] available when access is
    granted and the quota not used up.  It then removes any item
    ["test"], files the default settings and an empty history where
    there is none, and changes no other item.  The key of the statistics
    is the key of the history, so that the default statistics are never
    filed. *)
Theorem constructor_initialises (env : Env) (h : Host) :
  fst (new env h) = Returns (mkStorage (negb (denied env || full env))) /\
  STATISTICS = TASK_HISTORY /\
  (denied env || full env = false ->
   own (items (snd (new env h))) "test" = None /\
   own (items (snd (new env h))) SETTINGS
   = (if present (own (items h) SETTINGS) then own (items h) SETTINGS
      else Some (Json defaultSettings)) /\
   own (items (snd (new env h))) TASK_HISTORY
   = (if present (own (items h) TASK_HISTORY)
      then own (items h) TASK_HISTORY
      else Some (Json (Array [] []))) /\
   (forall key,
      key <> "test" -> key <> SETTINGS -> key <> TASK_HISTORY ->
      own (items (snd (new env h))) key = own (items h) key) /\
   console (snd (new env h)) = console h).
Proof.
  split; [|split; [reflexivity|]].
  - destruct (denied env) eqn:Hd; [|destruct (full env) eqn:Hq].
    + unfold new, checkLocalStorageAvailability, attempt, bind, setItem.
      rewrite Hd. reflexivity.
    + unfold new, checkLocalStorageAvailability, attempt, bind, setItem.
      rewrite Hd, Hq. reflexivity.
    + now rewrite new_working.
  - intros F. apply orb_false_elim in F. destruct F as [Hd Hq].
    rewrite (new_working env h Hd Hq). cbn [snd items console].
    unfold initialised. cbv zeta.
    set (i1 := remove "test" (set "test" (Malformed "test") (items h))).
    assert (H1 : forall k, own i1 k = if String.eqb "test" k then None
                                      else own (items h) k).
    { intros k. unfold i1. rewrite own_remove, PlainFacts.own_set.
      now destruct (String.eqb "test" k). }
    set (i2 := if present (own i1 SETTINGS) then i1
               else set SETTINGS (Json defaultSettings) i1).
    assert (H2 : forall k, own i2 k
                           = if String.eqb SETTINGS k
                             then (if present (own (items h) SETTINGS)
                                   then own (items h) SETTINGS
                                   else Some (Json defaultSettings))
                             else own i1 k).
    { intros k. unfold i2. rewrite (H1 SETTINGS).
      change (String.eqb "test" SETTINGS) with false. cbv iota.
      destruct (present (own (items h) SETTINGS)) eqn:E.
      - rewrite H1. destruct (String.eqb SETTINGS k) eqn:Ek; [|reflexivity].
        apply String.eqb_eq in Ek. subst k. reflexivity.
      - rewrite PlainFacts.own_set. reflexivity. }
    assert (H3 : present (own i2 TASK_HISTORY)
                 = present (own (items h) TASK_HISTORY)).
    { rewrite H2, H1. reflexivity. }
    rewrite H3.
    assert (H4 : forall k,
               own (if present (own (items h) TASK_HISTORY) then i2
                    else set TASK_HISTORY (Json (Array [] [])) i2) k
               = if String.eqb TASK_HISTORY k
                 then (if present (own (items h) TASK_HISTORY)
                       then own (items h) TASK_HISTORY
                       else Some (Json (Array [] [])))
                 else own i2 k).
    { intros k. destruct (present (own (items h) TASK_HISTORY)) eqn:E.
      - destruct (String.eqb TASK_HISTORY k) eqn:Ek; [|reflexivity].
        apply String.eqb_eq in Ek. subst k. rewrite H2, H1. reflexivity.
      - rewrite PlainFacts.own_set. reflexivity. }
    repeat split.
    + rewrite H4, H2, H1. reflexivity.
    + rewrite H4, H2. reflexivity.
    + rewrite H4. reflexivity.
    + intros key Ht Hs Hh. rewrite H4, H2, H1.
      apply String.eqb_neq in Ht, Hs, Hh.
      rewrite String.eqb_sym in Ht. rewrite String.eqb_sym in Hs.
      rewrite String.eqb_sym in Hh. now rewrite Ht, Hs, Hh.
Qed.

Lemma constructor_initialises_witness :
  own (items (snd (new (mkEnv 0 false false) (mkHost [] [])))) STATISTICS
  = Some (Json (Array [] [])).
Proof.
  destruct (constructor_initialises (mkEnv 0 false false) (mkHost [] []))
    as [_ [_ H]].
  destruct (H eq_refl) as [_ [_ [H3 _]]]. exact H3.
Defined.

(** *** Statistics *)

Lemma get_date_key (ms : Z) (tasks : list data) :
  get_property (Array tasks []) (date_key ms) = Returns Undefined /\
  get_property (Object []) (date_key ms) = Returns Undefined.
Proof.
  destruct (date_like_plain (date_key ms)) as [_ [_ [_ [_ [_ H]]]]];
    [apply date_like_date_key|].
  unfold get_property. cbn [own].
  now rewrite date_like_date_key, H.
Qed.

Lemma week_array (tasks : list data) (today : Z) (days : list Z) :
  forall weeklyStats,
    week (Array tasks []) today days weeklyStats
    = week (Object []) today days weeklyStats.
Proof.
  induction days as [|i days IH]; intros acc; [reflexivity|].
  cbn [week]. cbv zeta.
  destruct (valid_time (today - i * ms_per_day)) eqn:V.
  - rewrite (formatDateKey_valid _ V).
    destruct (get_date_key (today - i * ms_per_day) tasks) as [-> ->].
    cbn [truthy]. rewrite (toISOString_valid _ V).
    destruct (put acc _ _); try reflexivity. apply IH.
  - now rewrite (formatDateKey_invalid _ V).
Qed.

Lemma getTodaysStats_default (env : Env) (this : t) (h : Host) :
  history_is_array h ->
  fst (getTodaysStats env this h)
  = Returns (defaultStats (iso_text (now env))).
Proof.
  intros [tasks [Hh Hf]].
  destruct (isAvailable this) eqn:A.
  - destruct (denied env) eqn:Hd.
    + unfold getTodaysStats. rewrite A. cbn [negb].
      unfold attempt, bind, getAllStats, attempt, bind, getItem.
      rewrite Hd. cbn [console_error ret].
      destruct (date_like_plain (getDateKey env))
        as [_ [_ [Hp [_ [_ Ho]]]]]; [apply date_like_getDateKey|].
      unfold lift, get_property, put. cbn [own]. rewrite Ho.
      cbn [truthy negb own]. rewrite Hp.
      now rewrite PlainFacts.own_set, String.eqb_refl.
    + now rewrite (getTodaysStats_array env this h tasks A Hd Hh).
  - unfold getTodaysStats. now rewrite A.
Qed.

Lemma getWeeklyStats_empty (env : Env) (this : t) (h : Host) :
  history_is_array h ->
  fst (getWeeklyStats env this h)
  = fst (getWeeklyStats env this (mkHost [] [])).
Proof.
  intros [tasks [Hh Hf]]. unfold getWeeklyStats.
  destruct (isAvailable this); [|reflexivity]. cbn [negb].
  destruct (denied env) eqn:Hd.
  - unfold attempt, bind, getAllStats, attempt, bind, getItem.
    rewrite Hd. unfold console_error, ret, lift.
    now destruct (week (Object []) (now env) [6; 5; 4; 3; 2; 1; 0]
                    (Object [])).
  - unfold attempt, bind.
    rewrite (getAllStats_array env h tasks Hd Hh).
    unfold getAllStats, attempt, bind, getItem. rewrite Hd.
    cbn [own items safeJsonParse present attempt ret].
    unfold lift. rewrite week_array.
    now destruct (week (Object []) (now env) [6; 5; 4; 3; 2; 1; 0]
                    (Object [])).
Qed.

(** X20. Where the history is an array of filed tasks it stays one, whatever
    is called; and the statistics, which share its key, are never
    filed.  [getTodaysStats()] always returns the default statistics,
    with no session; [incrementSessionCount()] and [resetDailyStats()]
    leave the text under the key as it is, though the former returns
    true when [localStorage] works; and [getWeeklyStats()] returns what
    it returns on an empty store. *)
Theorem statistics_never_persisted (calls : list (Env * t * Op))
  (h : Host) :
  history_is_array h ->
  history_is_array (run calls h) /\
  forall env this,
    fst (getTodaysStats env this (run calls h))
    = Returns (defaultStats (iso_text (now env))) /\
    own (items (snd (incrementSessionCount env this (run calls h))))
      STATISTICS
    = own (items (run calls h)) STATISTICS /\
    own (items (snd (resetDailyStats env this (run calls h)))) STATISTICS
    = own (items (run calls h)) STATISTICS /\
    (isAvailable this = true -> denied env = false -> full env = false ->
     fst (incrementSessionCount env this (run calls h)) = Returns true) /\
    fst (getWeeklyStats env this (run calls h))
    = fst (getWeeklyStats env this (mkHost [] [])).
Proof.
  intros H0. pose proof (history_is_array_run calls h H0) as H.
  split; [exact H|]. intros env this.
  set (h1 := run calls h) in *.
  split; [now apply getTodaysStats_default|].
  assert (Hkeep : forall op,
             op <> Construct ->
             (isAvailable this = true -> denied env = false ->
              full env = false ->
              exists tasks,
                own (items h1) STATISTICS = Some (Json (Array tasks [])) /\
                own (items (after (env, this, op) h1)) STATISTICS
                = Some (Json (Array tasks []))) ->
             own (items (after (env, this, op) h1)) STATISTICS
             = own (items h1) STATISTICS).
  { intros op Hc Hop.
    destruct (isAvailable this) eqn:A.
    - destruct (denied env || full env) eqn:F.
      + destruct (quiet_after env this op h1) as [_ [_ Hq]].
        now rewrite Hq.
      + apply orb_false_elim in F. destruct F as [Hd Hq].
        destruct (Hop eq_refl Hd Hq) as [tasks [E1 E2]]. congruence.
    - destruct (quiet_after env this op h1) as [_ [Hq _]].
      now rewrite Hq. }
  destruct H as [tasks [Hh Hf]].
  split; [|split; [|split]].
  - apply (Hkeep IncrementSessionCount); [discriminate|].
    intros A Hd Hq. exists tasks. split; [exact Hh|]. cbn [after].
    rewrite (incrementSessionCount_array env this h1 tasks A Hd Hh Hq Hf).
    cbn [snd items]. now rewrite PlainFacts.own_set, String.eqb_refl.
  - apply (Hkeep ResetDailyStats); [discriminate|].
    intros A Hd Hq. exists tasks. split; [exact Hh|]. cbn [after].
    rewrite (resetDailyStats_array env this h1 tasks A Hd Hh Hq Hf).
    cbn [snd items]. now rewrite PlainFacts.own_set, String.eqb_refl.
  - intros A Hd Hq.
    now rewrite (incrementSessionCount_array env this h1 tasks A Hd Hh
                   Hq Hf).
  - apply getWeeklyStats_empty. now exists tasks.
Qed.

Lemma statistics_never_persisted_witness :
  fst (getTodaysStats (mkEnv 0 false false) (mkStorage true)
         (run [(mkEnv 0 false false, mkStorage true, IncrementSessionCount);
               (mkEnv 0 false false, mkStorage true, IncrementSessionCount)]
            (snd (new (mkEnv 0 false false) (mkHost [] [])))))
  = Returns (defaultStats "1970-01-01T00:00:00.000Z").
Proof.
  refine (proj1 (proj2 (statistics_never_persisted _ _ _) _ _)).
  exists []. split; [vm_compute; reflexivity|constructor].
Defined.

(** *** The history *)

Lemma filter_filed (key : string) (l : list data) :
  Forall filed l ->
  filter_elements
    (fun task =>
       match get_property task "date" with
       | Returns date => Returns (equals_text date key)
       | Throws e => Throws e
       | Beyond => Beyond
       end) l
  = Returns (filter (on_day key) l).
Proof.
  induction 1 as [|d l Hd Hl IH]; [reflexivity|].
  cbn [filter_elements filter]. rewrite IH.
  destruct Hd as [o [k [-> [Ho _]]]].
  unfold get_property, on_day. now rewrite Ho.
Qed.

(** X21. On a history that is an array of filed tasks, and when
    [localStorage] works, [saveTask(task)] returns true and appends the
    task as its text reads back, stamped with the instant and the day of
    the call; [getAllTasks()] then returns the longer history and
    [getTodaysTasks()] the tasks of it that were filed on the day of
    that call. *)
Theorem saveTask_appends (env : Env) (this : t) (task : data) (h : Host)
  (tasks : list data) :
  isAvailable this = true -> denied env = false -> full env = false ->
  own (items h) TASK_HISTORY = Some (Json (Array tasks [])) ->
  Forall filed tasks ->
  fst (saveTask env this task h) = Returns true /\
  on_day (getDateKey env) (revive (taskWithTimestamp env task)) = true /\
  forall env',
    denied env' = false ->
    fst (getAllTasks env' this (snd (saveTask env this task h)))
    = Returns (Array (tasks ++ [revive (taskWithTimestamp env task)]) []) /\
    fst (getTodaysTasks env' this (snd (saveTask env this task h)))
    = Returns
        (Array
           (filter (on_day (getDateKey env'))
              (tasks ++ [revive (taskWithTimestamp env task)])) []).
Proof.
  intros A Hd Hq Hh Hf.
  rewrite (saveTask_array env this h tasks A Hd Hh Hq Hf). cbn [fst snd].
  split; [reflexivity|]. split.
  - destruct (filed_taskWithTimestamp env task) as [o [k [E [Ho _]]]].
    assert (Hk : own o "date" = Some (Str (getDateKey env))).
    { unfold taskWithTimestamp in E. cbn [revive] in E.
      injection E as <-.
      apply (own_revive _ "date" (Str (getDateKey env))); [|discriminate].
      now rewrite PlainFacts.own_set, String.eqb_refl. }
    rewrite E. unfold on_day. rewrite Hk. cbn [equals_text].
    apply String.eqb_refl.
  - intros env' Hd'.
    set (l := (tasks ++ [revive (taskWithTimestamp env task)])%list).
    set (h' := mkHost _ _).
    assert (Hh' : own (items h') TASK_HISTORY = Some (Json (Array l []))).
    { unfold h'. cbn [items].
      now rewrite PlainFacts.own_set, String.eqb_refl. }
    assert (Hl : Forall filed l).
    { apply Forall_app. split; [exact Hf|].
      constructor; [apply filed_taskWithTimestamp|constructor]. }
    split.
    + now rewrite (getAllTasks_array env' this h' l A Hd' Hh').
    + unfold getTodaysTasks. rewrite A. cbn [negb].
      unfold attempt, bind.
      rewrite (getAllTasks_array env' this h' l A Hd' Hh').
      unfold lift, array_filter. cbn [own].
      now rewrite filter_filed.
Qed.

Lemma saveTask_appends_witness :
  fst (getAllTasks (mkEnv 86400000 false false) (mkStorage true)
         (snd (saveTask (mkEnv 0 false false) (mkStorage true)
                 (Object [("name", Str "Write report");
                          ("duration", Number 25)])
                 (snd (new (mkEnv 0 false false) (mkHost [] []))))))
  = Returns
      (Array
         [Object [("name", Str "Write report"); ("duration", Number 25);
                  ("timestamp", Str "1970-01-01T00:00:00.000Z");
                  ("date", Str "1970-01-01")]] []).
Proof.
  refine (proj1 (proj2 (proj2
            (saveTask_appends (mkEnv 0 false false) (mkStorage true) _
               (snd (new (mkEnv 0 false false) (mkHost [] []))) []
               eq_refl eq_refl eq_refl _ _))
            (mkEnv 86400000 false false) eq_refl)).
  - vm_compute. reflexivity.
  - constructor.
Defined.

Lemma filter_range (startKey endKey : string) (l : list data) :
  Forall filed l ->
  filter_elements
    (fun task =>
       match get_property task "date" with
       | Returns taskDate =>
           match at_least taskDate startKey with
           | Returns true => at_most taskDate endKey
           | r => r
           end
       | Throws e => Throws e
       | Beyond => Beyond
       end) l
  = Returns (filter (in_range startKey endKey) l).
Proof.
  induction 1 as [|d l Hd Hl IH]; [reflexivity|].
  cbn [filter_elements filter]. rewrite IH.
  destruct Hd as [o [k [-> [Ho _]]]].
  unfold get_property, in_range. rewrite Ho. cbn [at_least at_most].
  now destruct (String.ltb k startKey).
Qed.

(** X25. On a history that is an array of filed tasks,
    [getTasksByDateRange(startDate, endDate)] with two valid dates
    returns, in order, the tasks whose date is at least the date key of
    the start and at most that of the end, as texts; with an invalid
    date it logs the [RangeError] of [#formatDateKey] and returns no
    task.  And [clearHistory()], when [localStorage] works, returns
    true and leaves an empty history: [getAllTasks()] and
    [getTodaysTasks()] then return no task. *)
Theorem history_queries (env : Env) (this : t) (h : Host)
  (tasks : list data) (startDate endDate : Z) :
  isAvailable this = true -> denied env = false ->
  own (items h) TASK_HISTORY = Some (Json (Array tasks [])) ->
  Forall filed tasks ->
  (valid_time startDate = true -> valid_time endDate = true ->
   getTasksByDateRange env this startDate endDate h
   = (Returns
        (Array
           (filter (in_range (date_key startDate) (date_key endDate))
              tasks) []), h)) /\
  (valid_time startDate && valid_time endDate = false ->
   getTasksByDateRange env this startDate endDate h
   = (Returns (Array [] []),
      mkHost (items h)
        (console h
         ++ [("Error getting tasks by date range:",
              Error "RangeError: Invalid time value")]))) /\
  (full env = false ->
   fst (clearHistory env this h) = Returns true /\
   forall env',
     denied env' = false ->
     fst (getAllTasks env' this (snd (clearHistory env this h)))
     = Returns (Array [] []) /\
     fst (getTodaysTasks env' this (snd (clearHistory env this h)))
     = Returns (Array [] [])).
Proof.
  intros A Hd Hh Hf. split; [|split].
  - intros Vs Ve. unfold getTasksByDateRange. rewrite A. cbn [negb].
    unfold attempt, bind.
    rewrite (getAllTasks_array env this h tasks A Hd Hh).
    unfold lift.
    rewrite (formatDateKey_valid _ Vs), (formatDateKey_valid _ Ve).
    unfold array_filter. cbn [own].
    now rewrite filter_range.
  - intros V. unfold getTasksByDateRange. rewrite A. cbn [negb].
    unfold attempt, bind.
    rewrite (getAllTasks_array env this h tasks A Hd Hh).
    unfold lift.
    destruct (valid_time startDate) eqn:Vs.
    + cbn [andb] in V.
      rewrite (formatDateKey_valid _ Vs), (formatDateKey_invalid _ V).
      reflexivity.
    + rewrite (formatDateKey_invalid _ Vs). reflexivity.
  - intros Hq.
    assert (Hc : clearHistory env this h
                 = (Returns true,
                    mkHost (set TASK_HISTORY (Json (Array [] [])) (items h))
                      (console h))).
    { unfold clearHistory. rewrite A. cbn [negb].
      unfold attempt, bind, setItem. now rewrite Hd, Hq. }
    rewrite Hc. cbn [fst snd]. split; [reflexivity|].
    intros env' Hd'.
    set (h' := mkHost _ _).
    assert (Hh' : own (items h') TASK_HISTORY = Some (Json (Array [] []))).
    { unfold h'. cbn [items].
      now rewrite PlainFacts.own_set, String.eqb_refl. }
    split.
    + now rewrite (getAllTasks_array env' this h' [] A Hd' Hh').
    + unfold getTodaysTasks. rewrite A. cbn [negb].
      unfold attempt, bind.
      now rewrite (getAllTasks_array env' this h' [] A Hd' Hh').
Qed.

Lemma history_queries_witness :
  fst (getTasksByDateRange (mkEnv 0 false false) (mkStorage true)
         86400000 172800000
         (run [(mkEnv 0 false false, mkStorage true,
                SaveTask (Object [("name", Str "a")]));
               (mkEnv 86400000 false false, mkStorage true,
                SaveTask (Object [("name", Str "b")]));
               (mkEnv 259200000 false false, mkStorage true,
                SaveTask (Object [("name", Str "c")]))]
            (snd (new (mkEnv 0 false false) (mkHost [] [])))))
  = Returns
      (Array
         [Object [("name", Str "b");
                  ("timestamp", Str "1970-01-02T00:00:00.000Z");
                  ("date", Str "1970-01-02")]] []).
Proof.
  refine (f_equal fst (proj1
            (history_queries (mkEnv 0 false false) (mkStorage true) _
               [Object [("name", Str "a");
                        ("timestamp", Str "1970-01-01T00:00:00.000Z");
                        ("date", Str "1970-01-01")];
                Object [("name", Str "b");
                        ("timestamp", Str "1970-01-02T00:00:00.000Z");
                        ("date", Str "1970-01-02")];
                Object [("name", Str "c");
                        ("timestamp", Str "1970-01-04T00:00:00.000Z");
                        ("date", Str "1970-01-04")]]
               86400000 172800000 eq_refl eq_refl _ _) eq_refl eq_refl)).
  - vm_compute. reflexivity.
  - repeat constructor; eexists; eexists;
      (split; [reflexivity|split; reflexivity]).
Defined.

(** An invalid end date: the tasks are read, the key of the end throws,
    and the method answers with no task. *)
Example getTasksByDateRange_invalid_date :
  getTasksByDateRange (mkEnv 0 false false) (mkStorage true)
    0 8640000000000001
    (snd (saveTask (mkEnv 0 false false) (mkStorage true)
            (Object [("name", Str "a")])
            (snd (new (mkEnv 0 false false) (mkHost [] [])))))
  = (Returns (Array [] []),
     mkHost
       [("focusPro_settings", Json defaultSettings);
        ("undefined",
         Json (Array
                 [Object [("name", Str "a");
                          ("timestamp", Str "1970-01-01T00:00:00.000Z");
                          ("date", Str "1970-01-01")]] []))]
       [("Error getting tasks by date range:",
         Error "RangeError: Invalid time value")]).
Proof. vm_compute. reflexivity. Qed.

(** *** Settings *)

(** X22. When [localStorage] works, [saveSettings(settings)] returns true and
    [getSettings()] then returns the settings as their text reads back:
    the default settings for [undefined], whose text is no JSON; and
    when the settings are an object, [updateSetting(key, value)] returns
    true and [getSettings()] then has the value, as its text reads
    back, under the key. *)
Theorem settings_round_trip (env env' : Env) (this : t) (settings : data)
  (h : Host) :
  isAvailable this = true -> denied env = false -> full env = false ->
  denied env' = false ->
  fst (saveSettings env this settings h) = Returns true /\
  fst (getSettings env' this (snd (saveSettings env this settings h)))
  = Returns (match settings with
             | Undefined => defaultSettings
             | _ => revive settings
             end) /\
  revive (revive settings) = revive settings /\
  (forall properties key value,
     settings = Object properties ->
     key <> "__proto__" -> value <> Undefined ->
     fst (updateSetting env this key value
            (snd (saveSettings env this settings h))) = Returns true /\
     exists properties',
       fst (getSettings env' this
              (snd (updateSetting env this key value
                      (snd (saveSettings env this settings h)))))
       = Returns (Object properties') /\
       own properties' key = Some (revive value)).
Proof.
  intros A Hd Hq Hd'.
  assert (Hsave : forall d h0,
             saveSettings env this d h0
             = (Returns true,
                mkHost (set SETTINGS (stringify d) (items h0)) (console h0))).
  { intros d h0. unfold saveSettings. rewrite A. cbn [negb].
    unfold attempt, bind, setItem. now rewrite Hd, Hq. }
  assert (Hget : forall e d h0,
             denied e = false ->
             own (items h0) SETTINGS = Some (Json d) ->
             getSettings e this h0 = (Returns d, h0)).
  { intros e d h0 He H0. unfold getSettings. rewrite A. cbn [negb].
    unfold attempt, bind, getItem, safeJsonParse, attempt.
    now rewrite He, H0. }
  rewrite Hsave. cbn [fst snd].
  split; [reflexivity|]. split; [|split; [apply revive_idempotent|]].
  - assert (Hs : settings <> Undefined ->
                 fst (getSettings env' this
                        (mkHost (set SETTINGS (stringify settings) (items h))
                           (console h)))
                 = Returns (revive settings)).
    { intros Hn. rewrite (Hget env' (revive settings)); [reflexivity|exact Hd'|].
      cbn [items]. rewrite PlainFacts.own_set, String.eqb_refl.
      now destruct settings. }
    destruct settings; try (apply Hs; discriminate).
    unfold getSettings. rewrite A. cbn [negb].
    unfold attempt, bind, getItem, safeJsonParse, attempt.
    rewrite Hd'. cbn [items stringify].
    now rewrite PlainFacts.own_set, String.eqb_refl.
  - intros properties key value -> Hk Hv.
    set (h1 := mkHost _ _).
    assert (H1 : own (items h1) SETTINGS
                 = Some (Json (revive (Object properties)))).
    { unfold h1. cbn [items].
      now rewrite PlainFacts.own_set, String.eqb_refl. }
    cbn [revive] in H1.
    set (stored := filter_map _ properties) in H1.
    assert (Hput : put (Object stored) key value
                   = Returns (Object (set key value stored))).
    { unfold put. apply String.eqb_neq in Hk. rewrite Hk.
      now destruct (own stored key). }
    assert (Hup : updateSetting env this key value h1
                  = (Returns true,
                     mkHost (set SETTINGS
                               (stringify (Object (set key value stored)))
                               (items h1)) (console h1))).
    { unfold updateSetting. rewrite A. cbn [negb].
      unfold attempt, bind. rewrite (Hget env _ _ Hd H1).
      unfold lift. rewrite Hput. now rewrite Hsave. }
    rewrite Hup. cbn [fst snd]. split; [reflexivity|].
    eexists. split.
    + rewrite (Hget env' (revive (Object (set key value stored))));
        [reflexivity|exact Hd'|].
      cbn [items stringify].
      now rewrite PlainFacts.own_set, String.eqb_refl.
    + apply own_revive; [|exact Hv].
      now rewrite PlainFacts.own_set, String.eqb_refl.
Qed.

Lemma settings_round_trip_witness :
  fst (getSettings (mkEnv 5 false false) (mkStorage true)
         (snd (saveSettings (mkEnv 0 false false) (mkStorage true)
                 (Object [("workDuration", Number 50);
                          ("theme", Undefined)])
                 (mkHost [] []))))
  = Returns (Object [("workDuration", Number 50)]).
Proof.
  exact (proj1 (proj2
           (settings_round_trip (mkEnv 0 false false) (mkEnv 5 false false)
              (mkStorage true)
              (Object [("workDuration", Number 50); ("theme", Undefined)])
              (mkHost [] []) eq_refl eq_refl eq_refl eq_refl))).
Defined.

(** *** Date keys *)

(** X23. [#formatDateKey(date)] throws a [RangeError] on an invalid
    date.  On a valid date it returns the calendar date of the ISO text:
    the year, the month and the day, with dashes.  The key depends on
    the day only; and it is no array index, not ["length"] and no name
    that an object inherits, so that it names a property of its own in
    the statistics. *)
Theorem formatDateKey_calendar_date (date : Z) :
  (valid_time date = false ->
   formatDateKey date = Throws (Error "RangeError: Invalid time value")) /\
  (valid_time date = true ->
   formatDateKey date
   = Returns
       (let '(y, m, d) := civil_from_days (date / ms_per_day) in
        year_text y ++ "-" ++ pad 2 m ++ "-" ++ pad 2 d) /\
   (forall date',
      valid_time date' = true ->
      date / ms_per_day = date' / ms_per_day ->
      formatDateKey date = formatDateKey date') /\
   (forall key,
      formatDateKey date = Returns key ->
      array_index key = None /\
      existsb (String.eqb key) ("length" :: Object_prototype) = false)).
Proof.
  split; [apply formatDateKey_invalid|]. intros V.
  rewrite (formatDateKey_valid _ V). split; [|split].
  - now rewrite date_key_eq.
  - intros date' V' E. rewrite (formatDateKey_valid _ V').
    rewrite !date_key_eq. now rewrite E.
  - intros key Hk. injection Hk as <-.
    destruct (date_like_plain (date_key date))
      as [Hi [Hl [_ [_ [_ Ho]]]]]; [apply date_like_date_key|].
    split; [exact Hi|]. cbn [existsb] in *. now rewrite Hl.
Qed.

Lemma formatDateKey_calendar_date_witness :
  formatDateKey 1709210096789 = Returns "2024-02-29" /\
  formatDateKey (-8640000000000001)
  = Throws (Error "RangeError: Invalid time value").
Proof.
  split.
  - exact (proj1 (proj2 (formatDateKey_calendar_date 1709210096789)
                    eq_refl)).
  - exact (proj1 (formatDateKey_calendar_date (-8640000000000001))
             eq_refl).
Defined.

Example formatDateKey_leap_day :
  formatDateKey 1709210096789 = Returns "2024-02-29" /\
  toISOString 1709210096789 = Returns "2024-02-29T12:34:56.789Z" /\
  formatDateKey (-1) = Returns "1969-12-31" /\
  formatDateKey 253402300800000 = Returns "+010000-01-01" /\
  formatDateKey 8640000000000000 = Returns "+275760-09-13" /\
  formatDateKey (-8640000000000000) = Returns "-271821-04-20" /\
  toISOString 8640000000000001
  = Throws (Error "RangeError: Invalid time value").
Proof. vm_compute. repeat split. Qed.

End StorageFacts.

(** ** The coordinator with the classes of the repository *)

Module AppShippedFacts.

Import App.

(** X24. With the classes of the repository as collaborators each
    handler of the coordinator stops at its first call of a
    collaborator, which is no method of its class; it logs the
    [TypeError] twice and shows the error notification.  Hence
    [onTimerComplete()] never completes a task, never enters a break and
    never counts a session; [startBreak()] sets the break mode and
    shows no break; [completeSession()] counts the session in memory
    only; and [updateStats()] updates nothing. *)
Theorem handlers_stop_at_first_call (a : t) :
  onTimerComplete shipped a
  = (Normal tt,
     mkApp (currentTask a) (isBreakMode a) (sessionCount a) (settings a)
       (calls a ++ [audio_playSound "complete";
                    ui_showNotification "Failed to complete session" "error"])
       (console a
        ++ [("Error handling timer completion:",
             TypeError "this.audio.playSound is not a function");
            ("Failed to complete session",
             TypeError "this.audio.playSound is not a function")])
       (unhandled a)) /\
  startBreak shipped a
  = (Normal tt,
     mkApp (currentTask a) true (sessionCount a) (settings a)
       (calls a ++ [ui_updateMode "break";
                    ui_showNotification "Failed to start break" "error"])
       (console a
        ++ [("Error starting break:",
             TypeError "this.ui.updateMode is not a function");
            ("Failed to start break",
             TypeError "this.ui.updateMode is not a function")])
       (unhandled a)) /\
  completeSession shipped a
  = (Normal tt,
     mkApp (currentTask a) (isBreakMode a) (sessionCount a + 1) (settings a)
       (calls a ++ [storage_incrementSessions;
                    ui_showNotification "Failed to complete session" "error"])
       (console a
        ++ [("Error completing session:",
             TypeError "this.storage.incrementSessions is not a function");
            ("Failed to complete session",
             TypeError "this.storage.incrementSessions is not a function")])
       (unhandled a)) /\
  updateStats shipped a
  = (Normal tt,
     mkApp (currentTask a) (isBreakMode a) (sessionCount a) (settings a)
       (calls a ++ [storage_getStats;
                    ui_showNotification "Failed to update statistics" "error"])
       (console a
        ++ [("Error updating stats:",
             TypeError "this.storage.getStats is not a function");
            ("Failed to update statistics",
             TypeError "this.storage.getStats is not a function")])
       (unhandled a)).
Proof.
  destruct a as [task mode count s cs co un].
  unfold onTimerComplete, startBreak, completeSession, updateStats,
    handleError, try_catch, bind, call, console_error, modify,
    set_isBreakMode, set_sessionCount.
  cbn [currentTask isBreakMode sessionCount settings calls console
       unhandled].
  repeat split; cbn; rewrite <- ?app_assoc; reflexivity.
Qed.

End AppShippedFacts.
